(** * terraform-provider-regru: record reconciliation, identifiers and the zone cache

    A shallow embedding of the provider's Go code.  Go strings are byte
    sequences and are modelled by [string]; Go [int] values are never
    computed with here (they are read from configuration or parsed from
    text), so they are modelled by [Z].  A Go [error] is [option string]:
    [None] is [nil], [Some msg] is an error whose [Error()] text is [msg]. *)

From Stdlib Require Import ZArith Ascii String List Lia Permutation Bool Sorted.
From stdpp Require Import base gmap strings pretty list.

Local Open Scope string_scope.
Local Open Scope Z_scope.

Definition error := option string.

(** ** The parts of Go's [strings], [strconv] and [fmt] that the provider calls *)

Module gostrings.

(** [strings.HasPrefix(s, prefix)] *)
Definition HasPrefix (s prefix : string) : bool := String.prefix prefix s.

(** [strings.HasSuffix(s, suffix)]:
    [len(s) >= len(suffix) && s[len(s)-len(suffix):] == suffix] *)
Definition HasSuffix (s suffix : string) : bool :=
  let n := String.length s in
  let k := String.length suffix in
  (k <=? n)%nat && String.eqb (String.substring (n - k) k s) suffix.

(** [strings.TrimSuffix(s, suffix)] *)
Definition TrimSuffix (s suffix : string) : string :=
  if HasSuffix s suffix
  then String.substring 0 (String.length s - String.length suffix) s
  else s.

(** [strings.Split(s, sep)] for a separator of one byte, the only kind the
    provider uses.  The empty string splits into one empty part. *)
Fixpoint Split (s : string) (sep : ascii) : list string :=
  match s with
  | EmptyString => [EmptyString]
  | String c r =>
      if Ascii.eqb c sep then EmptyString :: Split r sep
      else match Split r sep with
           | [] => [String c EmptyString]
           | p :: ps => String c p :: ps
           end
  end.

(** [strings.Count(s, substr)] for a one-byte [substr] *)
Fixpoint count_byte (c : ascii) (s : string) : nat :=
  match s with
  | EmptyString => 0%nat
  | String a r => ((if Ascii.eqb a c then 1 else 0) + count_byte c r)%nat
  end.

(** [strings.Join(elems, sep)] *)
Definition Join (elems : list string) (sep : string) : string :=
  String.concat sep elems.

(** [strings.Contains(s, substr)] for a one-byte [substr] *)
Fixpoint Contains (s : string) (c : ascii) : bool :=
  match s with
  | EmptyString => false
  | String a r => Ascii.eqb a c || Contains r c
  end.

(** The six ASCII white-space bytes of [asciiSpace]:
    tab, line feed, vertical tab, form feed, carriage return, space. *)
Definition asciiSpace (c : ascii) : bool :=
  let n := N_of_ascii c in
  ((9 <=? n) && (n <=? 13) || (n =? 32))%N.

(** Width in bytes of the white-space rune at the head of [s], and [0] when
    [s] does not start with one.  [strings.Fields] separates on
    [unicode.IsSpace]; beyond ASCII these are U+0085, U+00A0, U+1680,
    U+2000..U+200A, U+2028, U+2029, U+202F, U+205F and U+3000, matched here
    by their UTF-8 encodings.  Every encoding starts with a lead byte, and
    Go's decoder never consumes a lead byte as part of the preceding rune,
    so matching bytes agrees with decoding runes on every input. *)
Definition space_width (s : string) : nat :=
  match s with
  | EmptyString => 0%nat
  | String c1 r1 =>
      if asciiSpace c1 then 1%nat
      else
        match r1 with
        | EmptyString => 0%nat
        | String c2 r2 =>
            let b1 := N_of_ascii c1 in
            let b2 := N_of_ascii c2 in
            if ((b1 =? 194) && ((b2 =? 133) || (b2 =? 160)))%N then 2%nat
            else
              match r2 with
              | EmptyString => 0%nat
              | String c3 _ =>
                  let b3 := N_of_ascii c3 in
                  if ((b1 =? 225) && (b2 =? 154) && (b3 =? 128)
                      || (b1 =? 226) && (b2 =? 128)
                         && ((128 <=? b3) && (b3 <=? 138)
                             || (b3 =? 168) || (b3 =? 169) || (b3 =? 175))
                      || (b1 =? 226) && (b2 =? 129) && (b3 =? 159)
                      || (b1 =? 227) && (b2 =? 128) && (b3 =? 128))%N
                  then 3%nat else 0%nat
              end
        end
  end.

(** The scan of [strings.Fields]: [skip] counts the bytes still to drop of
    a white-space rune already recognised, [cur] is the field being read
    ([None] between fields). *)
Fixpoint fields_scan (s : string) (skip : nat) (cur : option string)
  : list string :=
  let flush (rest : list string) :=
    match cur with Some f => f :: rest | None => rest end in
  match s with
  | EmptyString => flush []
  | String c r =>
      match skip with
      | S k => fields_scan r k cur
      | O =>
          match space_width s with
          | O => fields_scan r 0
                   (Some (match cur with
                          | Some f => f +:+ String c EmptyString
                          | None => String c EmptyString
                          end))
          | S k => flush (fields_scan r k None)
          end
      end
  end.

(** [strings.Fields(s)] *)
Definition Fields (s : string) : list string := fields_scan s 0 None.

(** [strings.Trim(s, cutset)] for a cutset of one ASCII byte: all leading
    and trailing occurrences of the byte are removed. *)
Fixpoint trimLeftByte (s : string) (c : ascii) : string :=
  match s with
  | String a r => if Ascii.eqb a c then trimLeftByte r c else s
  | EmptyString => EmptyString
  end.

Fixpoint trimRightByte (s : string) (c : ascii) : string :=
  match s with
  | EmptyString => EmptyString
  | String a r =>
      match trimRightByte r c with
      | EmptyString => if Ascii.eqb a c then EmptyString
                       else String a EmptyString
      | r' => String a r'
      end
  end.

Definition Trim (s : string) (c : ascii) : string :=
  trimRightByte (trimLeftByte s c) c.

(** Decimal digits of [strconv.Atoi]. *)
Definition digit (c : ascii) : option Z :=
  let n := N_of_ascii c in
  if ((48 <=? n) && (n <=? 57))%N then Some (Z.of_N n - 48) else None.

Fixpoint digits (s : string) (acc : Z) : option Z :=
  match s with
  | EmptyString => Some acc
  | String c r =>
      match digit c with
      | Some d => digits r (acc * 10 + d)
      | None => None
      end
  end.

(** The two failures of [strconv]: [ErrSyntax] and [ErrRange]. *)
Inductive NumError := ErrSyntax | ErrRange.

Definition maxInt : Z := 2 ^ 63 - 1.
Definition minInt : Z := - 2 ^ 63.

(** [strconv.Atoi(s)] on a 64-bit platform: an optional sign followed by
    at least one decimal digit.  A malformed text yields [0] and an error;
    a value out of the [int] range yields the nearest bound and an error. *)
Definition Atoi (s : string) : Z * option NumError :=
  let syntax := Some ErrSyntax in
  let range := Some ErrRange in
  let '(neg, body) :=
    match s with
    | String "-" r => (true, r)
    | String "+" r => (false, r)
    | _ => (false, s)
    end in
  match body with
  | EmptyString => (0, syntax)
  | _ =>
      match digits body 0 with
      | None => (0, syntax)
      | Some n =>
          let v := if neg then - n else n in
          if v <? minInt then (minInt, range)
          else if maxInt <? v then (maxInt, range)
          else (v, None)
      end
  end.

(** [fmt.Sprintf("%d", n)] *)
Definition Itoa (n : Z) : string := pretty n.

End gostrings.

Import gostrings.

(** The double-quote byte, and a text wrapped in double quotes. *)
Definition dquote : ascii := ascii_of_N 34.

Definition quoted (s : string) : string :=
  String dquote (s +:+ String dquote EmptyString).

(** ** Sorting

    [sort.Slice(x, less)] and [sort.Strings(x)].  Go's sort is not stable:
    the order it leaves between two elements neither of which is less than
    the other is unspecified.  The model inserts each element before the
    first element it is less than-or-equivalent to; whenever equivalent
    elements are equal (strings; records with an injective key) every
    sorting algorithm returns this same list. *)

Section Sorting.
Context {A : Type} (less : A -> A -> bool).

Fixpoint sort_insert (x : A) (l : list A) : list A :=
  match l with
  | [] => [x]
  | y :: l' => if less y x then y :: sort_insert x l' else x :: l
  end.

Definition sort_Slice (l : list A) : list A := foldr sort_insert [] l.
End Sorting.

Definition sort_Strings (l : list string) : list string :=
  sort_Slice String.ltb l.

(** ** Wire data ([resource/base/interface.go], [client]) *)

(** [base.DNSRecord]; its field names are reused by the record types of the
    strategies, so it lives in a module of its own. *)
Module base.
Record DNSRecord := mkDNSRecord {
  Subname : string;
  Rectype : string;
  Content : string;
  Prio : Z;
  State : string;
  Weight : Z;
  Port : Z;
  Flag : Z;
  Tag : string;
}.
End base.

Abbreviation DNSRecord := base.DNSRecord.

(** One element of [DNSZoneResponse.Answer.Domains] *)
Record ZoneDomain := mkZoneDomain {
  zd_Dname : string;
  zd_Rrs : list DNSRecord;
}.

(** [base.DNSZoneResponse] *)
Record DNSZoneResponse := mkDNSZoneResponse {
  zr_Result : string;
  zr_Domains : list ZoneDomain;
}.

(** One element of [APIErrorResponse.Answer.Domains]; the [error_params] the
    struct also declares are decoded but never read by the provider. *)
Record ErrorDomain := mkErrorDomain {
  ed_Dname : string;
  ed_Result : string;
  ed_ErrorCode : string;
  ed_ErrorText : string;
}.

(** [base.APIErrorResponse] *)
Record APIErrorResponse := mkAPIErrorResponse {
  er_Domains : list ErrorDomain;
  er_Result : string;
}.

(** [client.APIError], also the element type of [client.APIResponse]'s
    domains: [ErrorParams] is a [map[string]string]. *)
Record APIError := mkAPIError {
  ErrorCode : string;
  ErrorText : string;
  ErrorParams : gmap string string;
  Result : string;
}.

(** [client.APIResponse] *)
Record APIResponse := mkAPIResponse {
  ar_Domains : list APIError;
  ar_Result : string;
}.

(** ** What the provider takes from outside

    The JSON decoder, the HTTP transport and the clock are not code of this
    repository.  They are given as an environment: each decoder stands for
    [json.Unmarshal] into one struct type ([None] when it returns an error),
    [http_post] answers a form POST given everything that happened before,
    and [clock] is the monotonic reading, in nanoseconds, at each successive
    use of [time.Now] or [time.Since]. *)

Inductive HttpResult :=
| Body (body : string)
| PostError (msg : string)   (* [http.PostForm] failed *)
| ReadError (msg : string).  (* [io.ReadAll] failed *)

(** [url.Values], in the order of the [Add] calls *)
Definition Values := list (string * string).

Inductive Event :=
| EvPost (url : string) (params : Values)
| EvInvalidate (zone : string)
| EvClear.

Class Env := mkEnv {
  json_APIError : string -> option APIError;
  json_APIResponse : string -> option APIResponse;
  json_APIErrorResponse : string -> option APIErrorResponse;
  json_DNSZoneResponse : string -> option DNSZoneResponse;
  json_errtext : string -> string;
  fmt_plain : string -> string;   (* [fmt.Sprintf(format)] without operands *)
  http_post : list Event -> string -> Values -> HttpResult;
  clock : nat -> Z;
}.

(** ** The zone cache ([provider]: [ZoneCache]) *)

(** [time.Duration] counts nanoseconds in an [int64]; [Time.Sub] saturates. *)
Definition Second : Z := 1000000000.
Definition maxDuration : Z := 2 ^ 63 - 1.
Definition minDuration : Z := - 2 ^ 63.

Definition time_Sub (t u : Z) : Z :=
  let d := t - u in
  if maxDuration <? d then maxDuration
  else if d <? minDuration then minDuration
  else d.

(** [time.Since(t)] when the clock reads [now] *)
Definition time_Since (now t : Z) : Z := time_Sub now t.

Record ZoneCacheEntry := mkZoneCacheEntry {
  Data : string;
  Timestamp : Z;
  TTL : Z;
}.

Module ZoneCache.

(** [NewZoneCache] *)
Definition NewZoneCache : gmap string ZoneCacheEntry := ∅.

(** [Get]: the cached bytes and [true], or no bytes and [false]; an entry
    found expired is deleted. *)
Definition Get (now : Z) (zone : string) (zc : gmap string ZoneCacheEntry)
  : (string * bool) * gmap string ZoneCacheEntry :=
  match zc !! zone with
  | None => ((EmptyString, false), zc)
  | Some entry =>
      if TTL entry <? time_Since now (Timestamp entry)
      then ((EmptyString, false), delete zone zc)
      else ((Data entry, true), zc)
  end.

(** [Set] ([Set] alone is reserved in Rocq) *)
Definition Set_ (now : Z) (zone : string) (data : string)
    (zc : gmap string ZoneCacheEntry) : gmap string ZoneCacheEntry :=
  <[zone := {| Data := data; Timestamp := now; TTL := 30 * Second |}]> zc.

(** [Invalidate] *)
Definition Invalidate (zone : string) (zc : gmap string ZoneCacheEntry)
  : gmap string ZoneCacheEntry := delete zone zc.

(** [Clear] *)
Definition Clear (zc : gmap string ZoneCacheEntry)
  : gmap string ZoneCacheEntry := ∅.

End ZoneCache.

(** ** The state of the process

    [cache] is the package-level [globalZoneCache], [trace] lists the calls
    that left the process and the cache invalidations, oldest first, and
    [ticks] counts the clock readings so far.  The two mutexes guard
    concurrent callers and have no sequential effect. *)

Record World := mkWorld {
  cache : gmap string ZoneCacheEntry;
  trace : list Event;
  ticks : nat;
}.

Definition M (A : Type) : Type := World -> A * World.

Definition ret {A} (a : A) : M A := fun w => (a, w).

Definition bind {A B} (m : M A) (f : A -> M B) : M B :=
  fun w => let (a, w') := m w in f a w'.

Notation "'let*' x ':=' m 'in' k" := (bind m (fun x => k))
  (at level 10, x name, m at level 100, k at level 200, only parsing).
Notation "'let*' ' p ':=' m 'in' k" := (bind m (fun 'p => k))
  (at level 10, p strict pattern, m at level 100, k at level 200, only parsing).

Definition emit (ev : Event) : M unit :=
  fun w => (tt, {| cache := cache w; trace := (trace w ++ [ev])%list; ticks := ticks w |}).

(** ** [client]: the HTTP client of the dedicated resources *)

Record Client := mkClient {
  Username : string;
  Password : string;
  BaseURL : string;
}.

Definition NewClient (username password : string) : Client :=
  {| Username := username; Password := password;
     BaseURL := "https://api.reg.ru/api/regru2" |}.

(** [fmt]'s [%v] of a [map[string]string]: keys in increasing order *)
Definition fmt_map (m : gmap string string) : string :=
  "map[" +:+
  Join (map (fun kv : string * string => kv.1 +:+ ":" +:+ kv.2)
          (sort_Slice (fun a b : string * string => String.ltb a.1 b.1)
             (map_to_list m))) " "
  +:+ "]".

Section Provider.
Context `{E : Env}.

(** [formatHumanReadableError] *)
Definition formatHumanReadableError
    (errorCode errorText : string) (errorParams : gmap string string) : error :=
  if String.eqb errorCode "ACCESS_DENIED_FROM_IP" then
    Some "Access denied: Your IP address is not authorized to access the Reg.ru API. Please contact Reg.ru support to whitelist your IP address or check your account settings."
  else if String.eqb errorCode "IP_EXCEEDED_ALLOWED_CONNECTION_RATE" then
    Some "Rate limit exceeded: Your IP address has exceeded the allowed connection rate to the Reg.ru API. Please wait a few minutes before making additional requests or contact Reg.ru support if this persists."
  else if String.eqb errorCode "INVALID_USERNAME_OR_PASSWORD" then
    Some "Authentication failed: Invalid username or password. Please check your Reg.ru API credentials."
  else if String.eqb errorCode "DOMAIN_NOT_FOUND" then
    Some "Domain not found: The specified domain does not exist in your account or you don't have access to it."
  else if String.eqb errorCode "RECORD_NOT_FOUND" then
    Some "DNS record not found: The specified DNS record does not exist."
  else if String.eqb errorCode "INVALID_RECORD_TYPE" then
    Some "Invalid record type: The specified DNS record type is not supported or invalid."
  else if String.eqb errorCode "DUPLICATE_RECORD" then
    Some "Duplicate record: A DNS record with the same name and type already exists."
  else if String.eqb errorCode "INVALID_IP_ADDRESS" then
    Some "Invalid IP address: The provided IP address format is incorrect."
  else if String.eqb errorCode "RATE_LIMIT_EXCEEDED" then
    Some "Rate limit exceeded: Too many API requests. Please wait before making additional requests."
  else
    let errorMsg := "API Error: " +:+ errorText +:+ " (Code: " +:+ errorCode +:+ ")" in
    let errorMsg :=
      if (0 <? size errorParams)%nat
      then errorMsg +:+ " - Additional info: " +:+ fmt_map errorParams
      else errorMsg in
    Some (fmt_plain errorMsg).

(** The error, if any, that [doRequest] reads out of a response body. *)
Definition body_error (body : string) : error :=
  let direct :=
    match json_APIError body with
    | Some directError =>
        if String.eqb (Result directError) "error"
        then formatHumanReadableError (ErrorCode directError)
               (ErrorText directError) (ErrorParams directError)
        else None
    | None => None
    end in
  match direct with
  | Some e => Some e
  | None =>
      match json_APIResponse body with
      | Some apiResp =>
          if String.eqb (ar_Result apiResp) "error" then
            match ar_Domains apiResp with
            | domain :: _ =>
                if negb (String.eqb (ErrorCode domain) EmptyString)
                then formatHumanReadableError (ErrorCode domain)
                       (ErrorText domain) (ErrorParams domain)
                else Some "API error: overall result is error"
            | [] => Some "API error: overall result is error"
            end
          else
            match List.find (fun domain => String.eqb (Result domain) "error")
                    (ar_Domains apiResp) with
            | Some domain =>
                formatHumanReadableError (ErrorCode domain)
                  (ErrorText domain) (ErrorParams domain)
            | None => None
            end
      | None => None
      end
  end.

(** [Client.doRequest]: the response body, or an error *)
Definition doRequest (c : Client) (endpoint : string) (params : Values)
  : M (string * error) :=
  fun w =>
    let params := (params ++ [("username", Username c); ("password", Password c)])%list in
    let fullURL := BaseURL c +:+ "/" +:+ endpoint in
    let answer := http_post (trace w) fullURL params in
    let w' := snd (emit (EvPost fullURL params) w) in
    match answer with
    | PostError msg => ((EmptyString, Some ("failed to make request: " +:+ msg)), w')
    | ReadError msg => ((EmptyString, Some ("failed to read response: " +:+ msg)), w')
    | Body body =>
        match body_error body with
        | Some e => ((EmptyString, Some e), w')
        | None => ((body, None), w')
        end
    end.

Definition priority_param (priority : option Z) : Values :=
  match priority with
  | Some p => [("priority", Itoa p)]
  | None => []
  end.

(** [Client.AddRecord] *)
Definition AddRecord (c : Client)
    (recordType domainName subdomain value : string) (priority : option Z)
  : M (string * error) :=
  let params := [("domain_name", domainName); ("subdomain", subdomain);
                 ("output_content_type", "plain")] in
  let '(endpoint, extra) :=
    if String.eqb recordType "A" then ("zone/add_alias", [("ipaddr", value)])
    else if String.eqb recordType "AAAA" then ("zone/add_aaaa", [("ipaddr", value)])
    else if String.eqb recordType "CNAME" then
      ("zone/add_cname", [("canonical_name", value)])
    else if String.eqb recordType "MX" then
      ("zone/add_mx", ("mail_server", value) :: priority_param priority)
    else if String.eqb recordType "NS" then
      ("zone/add_ns", ("dns_server", value) :: priority_param priority)
    else if String.eqb recordType "SRV" then
      ("zone/add_srv", ("target", value) :: priority_param priority)
    else if String.eqb recordType "CAA" then ("zone/add_caa", [("value", value)])
    else ("zone/add_txt", [("text", value)]) in
  doRequest c endpoint (params ++ extra)%list.

(** [Client.AddSRVRecord]; the three numbers are never [nil] at the
    call sites, which pass addresses of struct fields. *)
Definition AddSRVRecord (c : Client) (domainName subdomain target : string)
    (priority weight port : Z) : M (string * error) :=
  doRequest c "zone/add_srv"
    [("domain_name", domainName); ("subdomain", subdomain);
     ("output_content_type", "plain"); ("target", target);
     ("priority", Itoa priority); ("weight", Itoa weight); ("port", Itoa port)].

(** [Client.AddCAARecord], called with non-[nil] flag and tag *)
Definition AddCAARecord (c : Client) (domainName subdomain value : string)
    (flag : Z) (tag : string) : M (string * error) :=
  doRequest c "zone/add_caa"
    [("domain_name", domainName); ("subdomain", subdomain);
     ("output_content_type", "plain"); ("value", value);
     ("flags", Itoa flag); ("tag", tag)].

(** [Client.RemoveCAARecord] *)
Definition RemoveCAARecord (c : Client) (domainName subdomain value : string)
    (flag : Z) (tag : string) : M (string * error) :=
  doRequest c "zone/remove_record"
    [("domain_name", domainName); ("subdomain", subdomain);
     ("output_content_type", "plain"); ("record_type", "CAA");
     ("content", value); ("flags", Itoa flag); ("tag", tag)].

(** [Client.RemoveSRVRecord] *)
Definition RemoveSRVRecord (c : Client) (domainName subdomain target : string)
    (priority weight port : Z) : M (string * error) :=
  doRequest c "zone/remove_record"
    [("domain_name", domainName); ("subdomain", subdomain);
     ("output_content_type", "plain"); ("record_type", "SRV");
     ("content", target);
     ("priority", Itoa priority); ("weight", Itoa weight); ("port", Itoa port)].

(** [Client.RemoveRecord] *)
Definition RemoveRecord (c : Client)
    (domainName subdomain recordType content : string) (priority : option Z)
  : M (string * error) :=
  let params := [("domain_name", domainName); ("subdomain", subdomain);
                 ("record_type", recordType); ("content", content);
                 ("output_content_type", "plain")] in
  let extra :=
    if String.eqb recordType "MX" || String.eqb recordType "NS"
       || String.eqb recordType "SRV"
    then priority_param priority else [] in
  doRequest c "zone/remove_record" (params ++ extra)%list.

(** [Client.GetRecords] *)
Definition GetRecords (c : Client) (domainName : string) : M (string * error) :=
  doRequest c "zone/get_resource_records" [("dname", domainName)].

(** ** [provider]: the caching client *)

(** [time.Now] / [time.Since]: one more reading of the clock *)
Definition tick : M Z :=
  fun w => (clock (ticks w),
            {| cache := cache w; trace := trace w; ticks := S (ticks w) |}).

(** [globalZoneCache.Get(zone)]; the clock is read only for an entry that
    exists. *)
Definition cache_Get (zone : string) : M (string * bool) :=
  fun w =>
    match cache w !! zone with
    | None => ((EmptyString, false), w)
    | Some _ =>
        let (now, w1) := tick w in
        let (r, zc) := ZoneCache.Get now zone (cache w1) in
        (r, {| cache := zc; trace := trace w1; ticks := ticks w1 |})
    end.

(** [globalZoneCache.Set(zone, data)] *)
Definition cache_Set (zone data : string) : M unit :=
  fun w =>
    let (now, w1) := tick w in
    (tt, {| cache := ZoneCache.Set_ now zone data (cache w1);
            trace := trace w1; ticks := ticks w1 |}).

(** [CachedClient.GetRecordsWithCache] *)
Definition GetRecordsWithCache (c : Client) (zone : string) : M (string * error) :=
  let* '(cached, exists_) := cache_Get zone in
  if exists_ : bool then ret (cached, None)
  else
    let* '(data, err) := GetRecords c zone in
    match err with
    | Some e => ret (EmptyString, Some e)
    | None =>
        let* _ := cache_Set zone data in
        ret (data, None)
    end.

(** [CachedClient.InvalidateZoneCache] *)
Definition InvalidateZoneCache (zone : string) : M unit :=
  fun w =>
    (tt, {| cache := ZoneCache.Invalidate zone (cache w);
            trace := (trace w ++ [EvInvalidate zone])%list;
            ticks := ticks w |}).

(** [CachedClient.ClearZoneCache] *)
Definition ClearZoneCache : M unit :=
  fun w =>
    (tt, {| cache := ZoneCache.Clear (cache w);
            trace := (trace w ++ [EvClear])%list;
            ticks := ticks w |}).

(** ** [resource/base]: operations shared by the strategies *)

(** [CommonOperations.AddTrailingDot] *)
Definition AddTrailingDot (domain : string) : string :=
  if negb (HasSuffix domain ".") then domain +:+ "." else domain.

(** [CommonOperations.NormalizeDomain] *)
Definition NormalizeDomain (domain : string) : string := TrimSuffix domain ".".

(** [CommonOperations.HandleAPIError] *)
Definition HandleAPIError (err : error) (operation : string) : error :=
  match err with
  | Some e => Some ("API error during " +:+ operation +:+ " operation: " +:+ e)
  | None => None
  end.

(** [CommonOperations.ParseResourceID] *)
Definition ParseResourceID (id : string) : string * string * error :=
  let parts := Split id "/" in
  if negb (length parts =? 2)%nat
  then (EmptyString, EmptyString, Some ("invalid resource ID format: " +:+ id))
  else (nth 0 parts EmptyString, nth 1 parts EmptyString, None).

Definition domain_error_message (domain : ErrorDomain) : string :=
  let errorMsg := "Domain " +:+ ed_Dname domain +:+ ": " +:+ ed_ErrorText domain in
  if negb (String.eqb (ed_ErrorCode domain) EmptyString)
  then errorMsg +:+ " (Error Code: " +:+ ed_ErrorCode domain +:+ ")"
  else errorMsg.

Definition domain_failed (domain : ErrorDomain) : bool :=
  String.eqb (ed_Result domain) "error".

(** [base.CheckAPIResponseForErrors] *)
Definition CheckAPIResponseForErrors (response : string) : error :=
  match json_APIErrorResponse response with
  | None => None
  | Some apiResponse =>
      let errorMessages :=
        if String.eqb (er_Result apiResponse) "error"
        then map domain_error_message
               (List.filter domain_failed (er_Domains apiResponse))
        else [] in
      if (0 <? length errorMessages)%nat
      then Some ("API operation failed: " +:+ Join errorMessages "; ")
      else
        match List.find domain_failed (er_Domains apiResponse) with
        | Some domain =>
            Some ("API operation failed: " +:+ domain_error_message domain)
        | None => None
        end
  end.

(** The idiom of every write: call the client, fail on its error, then
    fail on an error found in the response; both failures are wrapped by
    the same [fmt.Errorf(context + ": %w", err)]. *)
Definition checked (call : M (string * error)) (context : string) : M error :=
  let* '(response, err) := call in
  match err with
  | Some e => ret (Some (context +:+ ": " +:+ e))
  | None =>
      match CheckAPIResponseForErrors response with
      | Some e => ret (Some (context +:+ ": " +:+ e))
      | None => ret None
      end
  end.

(** A [for ... range] loop whose body may return an error *)
Fixpoint for_range {A} (body : A -> M error) (l : list A) : M error :=
  match l with
  | [] => ret None
  | x :: l' =>
      let* err := body x in
      match err with
      | Some e => ret (Some e)
      | None => for_range body l'
      end
  end.

(** The search loops of every [Update]: the elements of [xs] for which no
    element of [ys] satisfies [same]. *)
Definition not_found_in {A} (same : A -> A -> bool) (xs ys : list A) : list A :=
  List.filter (fun x => negb (existsb (same x) ys)) xs.

End Provider.

(** ** The host's [schema.ResourceData]

    One value per resource instance and operation.  [prior] and [planned]
    are the two results of [GetChange] on the attribute that holds the
    records ([records], [record] or [cname]); [written] is what [d.Set]
    stored for it, which [d.Get] then returns.  The schema fixes the type
    of every attribute, so the type assertions of the Go code cannot fail
    and the delete-all-then-create-all fallback of the MX and NS updates,
    taken only when [GetChange] does not return lists, is unreachable. *)

Record ResourceData (T : Type) := mkResourceData {
  Id : string;
  zone : string;
  name : string;
  prior : T;
  planned : T;
  written : option T;
}.

Arguments mkResourceData {T}.
Arguments Id {T}.
Arguments zone {T}.
Arguments name {T}.
Arguments prior {T}.
Arguments planned {T}.
Arguments written {T}.

Section ResourceDataOps.
Context {T : Type}.

(** [d.Get(key)] on the records attribute *)
Definition Get (d : ResourceData T) : T := default (planned d) (written d).

(** [d.GetChange(key)] *)
Definition GetChange (d : ResourceData T) : T * T := (prior d, planned d).

(** [d.HasChange(key)]: the two values of [GetChange] differ *)
Definition HasChange `{EqDecision T} (d : ResourceData T) : bool :=
  bool_decide (prior d <> planned d).

(** [d.SetId(id)] *)
Definition SetId (d : ResourceData T) (id : string) : ResourceData T :=
  {| Id := id; zone := zone d; name := name d;
     prior := prior d; planned := planned d; written := written d |}.

(** [d.Set("zone", z)] followed by [d.Set("name", n)] *)
Definition Set_zone_name (d : ResourceData T) (z n : string) : ResourceData T :=
  {| Id := Id d; zone := z; name := n;
     prior := prior d; planned := planned d; written := written d |}.

(** [d.Set(key, v)] on the records attribute *)
Definition Set_records (d : ResourceData T) (v : T) : ResourceData T :=
  {| Id := Id d; zone := zone d; name := name d;
     prior := prior d; planned := planned d; written := Some v |}.

(** [CommonRecord.GetZone], [CommonRecord.GetName] *)
Definition GetZone (d : ResourceData T) : string := zone d.
Definition GetName (d : ResourceData T) : string := name d.

(** [CommonOperations.SetResourceID], overridden with the same body by the
    MX, NS, CNAME and SRV strategies *)
Definition SetResourceID (d : ResourceData T) (zone name recordType : string)
  : ResourceData T :=
  SetId d (zone +:+ "/" +:+ name).
End ResourceDataOps.

(** The shape shared by the six [Import] methods: parse the identifier, set
    [zone] and [name], then read. *)
Definition Import_with {T} (Read : ResourceData T -> M (error * ResourceData T))
    (d : ResourceData T) : M (error * ResourceData T) :=
  let '(zone, name, err) := ParseResourceID (Id d) in
  match err with
  | Some e => ret (Some e, d)
  | None => Read (Set_zone_name d zone name)
  end.

(** The records of one subdomain and type in a decoded zone, over all
    domains of the response. *)
Definition matching_rrs (zoneResponse : DNSZoneResponse) (rectype name : string)
  : list DNSRecord :=
  flat_map (fun domain =>
              List.filter (fun record =>
                             String.eqb (base.Rectype record) rectype
                             && String.eqb (base.Subname record) name)
                (zd_Rrs domain))
    (zr_Domains zoneResponse).

(** The same, restricted to the first domain named [zone] (the MX, NS and
    CNAME loops [break] after it). *)
Definition matching_rrs_of_zone (zoneResponse : DNSZoneResponse)
    (zone rectype name : string) : list DNSRecord :=
  match List.find (fun domain => String.eqb (zd_Dname domain) zone)
          (zr_Domains zoneResponse) with
  | Some domain =>
      List.filter (fun rr => String.eqb (base.Subname rr) name
                             && String.eqb (base.Rectype rr) rectype)
        (zd_Rrs domain)
  | None => []
  end.

(** ** The generic strategy of A, AAAA and TXT records *)

Module Generic.

Record GenericRecordStrategy := mkGenericRecordStrategy {
  recordType : string;
  preprocessor : string -> string;
  validator : list string -> error;
}.

(** [NoOpPreprocessor] *)
Definition NoOpPreprocessor (input : string) : string := input.

(** [DefaultRecordValidator] *)
Definition DefaultRecordValidator (recordType : string) : list string -> error :=
  fun records =>
    if (length records =? 0)%nat
    then Some ("at least one " +:+ recordType +:+ " record must be specified")
    else None.

(** [NewGenericRecordStrategy]; [None] is a [nil] function argument *)
Definition NewGenericRecordStrategy (recordType : string)
    (preprocessor : option (string -> string))
    (validator : option (list string -> error)) : GenericRecordStrategy :=
  {| recordType := recordType;
     preprocessor := default (fun s => s) preprocessor;
     validator := default (DefaultRecordValidator recordType) validator |}.

Definition NewARecordStrategy : GenericRecordStrategy :=
  NewGenericRecordStrategy "A" (Some NoOpPreprocessor)
    (Some (DefaultRecordValidator "A")).

Definition NewAAAARecordStrategy : GenericRecordStrategy :=
  NewGenericRecordStrategy "AAAA" (Some NoOpPreprocessor)
    (Some (DefaultRecordValidator "AAAA")).

Definition NewTXTRecordStrategy : GenericRecordStrategy :=
  NewGenericRecordStrategy "TXT" (Some NoOpPreprocessor)
    (Some (DefaultRecordValidator "TXT")).

Section Ops.
Context `{E : Env}.
Variable s : GenericRecordStrategy.
Variable c : Client.

(** [GenericRecordStrategy.Read] *)
Definition Read (d : ResourceData (list string))
  : M (error * ResourceData (list string)) :=
  let zone := GetZone d in
  let name := GetName d in
  let* '(response, err) := GetRecordsWithCache c zone in
  match err with
  | Some e => ret (Some ("failed to get zone records: " +:+ e), d)
  | None =>
      match json_DNSZoneResponse response with
      | None =>
          ret (Some ("failed to parse DNS records response: "
                     +:+ json_errtext response), d)
      | Some zoneResponse =>
          let foundRecords :=
            map (fun record => preprocessor s (base.Content record))
              (matching_rrs zoneResponse (recordType s) name) in
          if (length foundRecords =? 0)%nat
          then ret (None, SetId d EmptyString)
          else
            let foundRecords := sort_Strings foundRecords in
            ret (None, Set_records (Set_zone_name d zone name) foundRecords)
      end
  end.

(** [GenericRecordStrategy.Create] *)
Definition Create (d : ResourceData (list string))
  : M (error * ResourceData (list string)) :=
  let zone := GetZone d in
  let name := GetName d in
  let records := Get d in
  let recordStrings := sort_Strings (map (preprocessor s) records) in
  match validator s records with
  | Some e => ret (Some e, d)
  | None =>
      let* err :=
        for_range (fun recordStr =>
          checked (AddRecord c (recordType s) zone name recordStr None)
            ("failed to create " +:+ recordType s +:+ " record " +:+ recordStr))
          recordStrings in
      match err with
      | Some e => ret (Some e, d)
      | None => Read (SetResourceID d zone name (recordType s))
      end
  end.

(** The two lists that [GenericRecordStrategy.Update] computes from the
    old and the new value of [records]. *)
Definition recordsToRemove (oldRecords newRecords : list string) : list string :=
  not_found_in String.eqb
    (sort_Strings (map (preprocessor s) oldRecords))
    (sort_Strings (map (preprocessor s) newRecords)).

Definition recordsToAdd (oldRecords newRecords : list string) : list string :=
  not_found_in String.eqb
    (sort_Strings (map (preprocessor s) newRecords))
    (sort_Strings (map (preprocessor s) oldRecords)).

(** [GenericRecordStrategy.Update] *)
Definition Update (d : ResourceData (list string))
  : M (error * ResourceData (list string)) :=
  let zone := GetZone d in
  let name := GetName d in
  if HasChange d then
    let '(oldRecords, newRecords) := GetChange d in
    let* err :=
      for_range (fun record =>
        checked (RemoveRecord c zone name (recordType s) record None)
          ("failed to remove " +:+ recordType s +:+ " record " +:+ record))
        (recordsToRemove oldRecords newRecords) in
    match err with
    | Some e => ret (Some e, d)
    | None =>
        let* err :=
          for_range (fun record =>
            checked (AddRecord c (recordType s) zone name record None)
              ("failed to add " +:+ recordType s +:+ " record " +:+ record))
            (recordsToAdd oldRecords newRecords) in
        match err with
        | Some e => ret (Some e, d)
        | None =>
            let* _ := InvalidateZoneCache zone in
            Read d
        end
    end
  else Read d.

(** [GenericRecordStrategy.Delete] *)
Definition Delete (d : ResourceData (list string))
  : M (error * ResourceData (list string)) :=
  let zone := GetZone d in
  let name := GetName d in
  let records := Get d in
  let* err :=
    for_range (fun record =>
      let recordStr := preprocessor s record in
      checked (RemoveRecord c zone name (recordType s) recordStr None)
        ("failed to delete " +:+ recordType s +:+ " record " +:+ recordStr))
      records in
  match err with
  | Some e => ret (Some e, d)
  | None =>
      let* _ := InvalidateZoneCache zone in
      ret (None, d)
  end.

(** [GenericRecordStrategy.Import] *)
Definition Import (d : ResourceData (list string))
  : M (error * ResourceData (list string)) :=
  Import_with Read d.
End Ops.

End Generic.

(** ** The MX strategy *)

(** One [record] block of the MX and NS schemas *)
Record RecordBlock := mkRecordBlock {
  priority : Z;
  servers : list string;
}.

Global Instance RecordBlock_eq_dec : EqDecision RecordBlock.
Proof. solve_decision. Defined.

(** [priorityGroups[prio] = append(priorityGroups[prio], server)] over the
    records read, as the MX and NS reads build it *)
Definition group_by_priority (normalize : string -> string) (rrs : list DNSRecord)
  : gmap Z (list string) :=
  foldl (fun (m : gmap Z (list string)) rr =>
           <[base.Prio rr :=
               (default [] (m !! base.Prio rr) ++ [normalize (base.Content rr)])%list]> m)
    ∅ rrs.

(** The blocks written by the MX and NS reads: one per priority, servers
    sorted, blocks sorted by priority.  Go ranges over the map in an
    unspecified order; the priorities are distinct, so the final sort fixes
    the result. *)
Definition blocks_of_groups (groups : gmap Z (list string)) : list RecordBlock :=
  sort_Slice (fun a b => priority a <? priority b)
    (map (fun kv : Z * list string =>
            {| priority := kv.1; servers := sort_Strings kv.2 |})
       (map_to_list groups)).

Module MX.

(** [MXRecord] *)
Record MXRecord := mkMXRecord {
  Priority : Z;
  Server : string;
}.

Global Instance MXRecord_eq_dec : EqDecision MXRecord.
Proof. solve_decision. Defined.

(** [parseRecordsFromState] *)
Definition parseRecordsFromState (records : list RecordBlock) : list MXRecord :=
  flat_map (fun block =>
              map (fun server => {| Priority := priority block; Server := server |})
                (servers block))
    records.

Definition same (a b : MXRecord) : bool :=
  (Priority a =? Priority b) && String.eqb (Server a) (Server b).

(** [findRecordsToRemove] *)
Definition findRecordsToRemove (oldRecords newRecords : list MXRecord)
  : list MXRecord :=
  not_found_in same oldRecords newRecords.

(** [findRecordsToAdd] *)
Definition findRecordsToAdd (oldRecords newRecords : list MXRecord)
  : list MXRecord :=
  not_found_in same newRecords oldRecords.

Section Ops.
Context `{E : Env}.
Variable c : Client.

(** [MXRecordStrategy.Create] *)
Definition Create (d : ResourceData (list RecordBlock))
  : M (error * ResourceData (list RecordBlock)) :=
  let zone := GetZone d in
  let name := GetName d in
  let mxRecords := Get d in
  let* err :=
    for_range (fun mxRecord =>
      let serverStrings := sort_Strings (servers mxRecord) in
      for_range (fun serverStr =>
        checked (AddRecord c "MX" zone name (AddTrailingDot serverStr)
                   (Some (priority mxRecord)))
          ("failed to create MX record " +:+ serverStr))
        serverStrings)
      mxRecords in
  match err with
  | Some e => ret (Some e, d)
  | None =>
      let d := SetResourceID d zone name "MX" in
      let* _ := InvalidateZoneCache zone in
      ret (None, d)
  end.

(** [MXRecordStrategy.Read] *)
Definition Read (d : ResourceData (list RecordBlock))
  : M (error * ResourceData (list RecordBlock)) :=
  let zone := GetZone d in
  let name := GetName d in
  let* '(response, err) := GetRecordsWithCache c zone in
  match err with
  | Some e => ret (Some ("failed to get zone records: " +:+ e), d)
  | None =>
      match json_DNSZoneResponse response with
      | None =>
          ret (Some ("failed to parse DNS records response: "
                     +:+ json_errtext response), d)
      | Some zoneResponse =>
          let priorityGroups :=
            group_by_priority NormalizeDomain
              (matching_rrs_of_zone zoneResponse zone "MX" name) in
          if (size priorityGroups =? 0)%nat
          then ret (None, SetId d EmptyString)
          else ret (None, Set_records (Set_zone_name d zone name)
                            (blocks_of_groups priorityGroups))
      end
  end.

(** One iteration of the removal loop of [Update] *)
Definition remove_one (zone name : string) (record : MXRecord) : M error :=
  let apiRecord := AddTrailingDot (Server record) in
  let* '(response, err) :=
    RemoveRecord c zone name "MX" apiRecord (Some (Priority record)) in
  match HandleAPIError err "remove" with
  | Some e => ret (Some ("failed to remove MX record " +:+ Server record
                         +:+ ": " +:+ e))
  | None =>
      match CheckAPIResponseForErrors response with
      | Some e => ret (Some ("failed to remove MX record " +:+ Server record
                             +:+ ": " +:+ e))
      | None => ret None
      end
  end.

(** One iteration of the addition loop of [Update] *)
Definition add_one (zone name : string) (record : MXRecord) : M error :=
  checked (AddRecord c "MX" zone name (AddTrailingDot (Server record))
             (Some (Priority record)))
    ("failed to add MX record " +:+ Server record).

(** [MXRecordStrategy.Update] *)
Definition Update (d : ResourceData (list RecordBlock))
  : M (error * ResourceData (list RecordBlock)) :=
  let zone := GetZone d in
  let name := GetName d in
  let '(oldRecords, newRecords) := GetChange d in
  let oldMXRecords := parseRecordsFromState oldRecords in
  let newMXRecords := parseRecordsFromState newRecords in
  let toRemove := findRecordsToRemove oldMXRecords newMXRecords in
  let toAdd := findRecordsToAdd oldMXRecords newMXRecords in
  let* err := for_range (remove_one zone name) toRemove in
  match err with
  | Some e => ret (Some e, d)
  | None =>
      let* err := for_range (add_one zone name) toAdd in
      match err with
      | Some e => ret (Some e, d)
      | None =>
          let* _ := InvalidateZoneCache zone in
          ret (None, d)
      end
  end.

(** [MXRecordStrategy.Delete]: removes what the zone holds, not what the
    configuration lists *)
Definition Delete (d : ResourceData (list RecordBlock))
  : M (error * ResourceData (list RecordBlock)) :=
  let zone := GetZone d in
  let name := GetName d in
  let* '(response, err) := GetRecordsWithCache c zone in
  match err with
  | Some e => ret (Some ("failed to get zone records for deletion: " +:+ e), d)
  | None =>
      match json_DNSZoneResponse response with
      | None =>
          ret (Some ("failed to parse DNS records response for deletion: "
                     +:+ json_errtext response), d)
      | Some zoneResponse =>
          let* err :=
            for_range (fun rr =>
              let apiRecord := AddTrailingDot (base.Content rr) in
              let* '(response, err) :=
                RemoveRecord c zone name "MX" apiRecord (Some (base.Prio rr)) in
              match HandleAPIError err "remove" with
              | Some e => ret (Some e)
              | None =>
                  match CheckAPIResponseForErrors response with
                  | Some e =>
                      ret (Some ("failed to remove MX record "
                                 +:+ base.Content rr +:+ ": " +:+ e))
                  | None => ret None
                  end
              end)
              (matching_rrs_of_zone zoneResponse zone "MX" name) in
          match err with
          | Some e => ret (Some e, d)
          | None =>
              let d := SetId d EmptyString in
              let* _ := InvalidateZoneCache zone in
              ret (None, d)
          end
      end
  end.

(** [MXRecordStrategy.Import] *)
Definition Import (d : ResourceData (list RecordBlock))
  : M (error * ResourceData (list RecordBlock)) :=
  Import_with Read d.
End Ops.

End MX.

(** ** The NS strategy *)

Module NS.

(** [NSRecord] *)
Record NSRecord := mkNSRecord {
  Priority : Z;
  Server : string;
}.

Global Instance NSRecord_eq_dec : EqDecision NSRecord.
Proof. solve_decision. Defined.

(** [parseRecordsFromState] *)
Definition parseRecordsFromState (records : list RecordBlock) : list NSRecord :=
  flat_map (fun block =>
              map (fun server => {| Priority := priority block; Server := server |})
                (servers block))
    records.

Definition same (a b : NSRecord) : bool :=
  (Priority a =? Priority b) && String.eqb (Server a) (Server b).

(** [findRecordsToRemove] *)
Definition findRecordsToRemove (oldRecords newRecords : list NSRecord)
  : list NSRecord :=
  not_found_in same oldRecords newRecords.

(** [findRecordsToAdd] *)
Definition findRecordsToAdd (oldRecords newRecords : list NSRecord)
  : list NSRecord :=
  not_found_in same newRecords oldRecords.

Section Ops.
Context `{E : Env}.
Variable c : Client.

(** [NSRecordStrategy.Create] *)
Definition Create (d : ResourceData (list RecordBlock))
  : M (error * ResourceData (list RecordBlock)) :=
  let zone := GetZone d in
  let name := GetName d in
  let records := Get d in
  let* err :=
    for_range (fun block =>
      for_range (fun server =>
        checked (AddRecord c "NS" zone name (AddTrailingDot server)
                   (Some (priority block)))
          "failed to create NS record")
        (servers block))
      records in
  match err with
  | Some e => ret (Some e, d)
  | None =>
      let d := SetResourceID d zone name "NS" in
      let* _ := InvalidateZoneCache zone in
      ret (None, d)
  end.

(** [NSRecordStrategy.Read] *)
Definition Read (d : ResourceData (list RecordBlock))
  : M (error * ResourceData (list RecordBlock)) :=
  let zone := GetZone d in
  let name := GetName d in
  let* '(response, err) := GetRecordsWithCache c zone in
  match err with
  | Some e => ret (Some ("failed to get zone records: " +:+ e), d)
  | None =>
      match json_DNSZoneResponse response with
      | None =>
          ret (Some ("failed to parse DNS records response: "
                     +:+ json_errtext response), d)
      | Some zoneResponse =>
          let priorityGroups :=
            group_by_priority NormalizeDomain
              (matching_rrs_of_zone zoneResponse zone "NS" name) in
          if (size priorityGroups =? 0)%nat
          then ret (None, SetId d EmptyString)
          else ret (None, Set_records (Set_zone_name d zone name)
                            (blocks_of_groups priorityGroups))
      end
  end.

(** [NSRecordStrategy.Update] *)
Definition Update (d : ResourceData (list RecordBlock))
  : M (error * ResourceData (list RecordBlock)) :=
  let zone := GetZone d in
  let name := GetName d in
  let '(oldRecords, newRecords) := GetChange d in
  let oldNSRecords := parseRecordsFromState oldRecords in
  let newNSRecords := parseRecordsFromState newRecords in
  let toRemove := findRecordsToRemove oldNSRecords newNSRecords in
  let toAdd := findRecordsToAdd oldNSRecords newNSRecords in
  let* err :=
    for_range (fun record =>
      checked (RemoveRecord c zone name "NS" (AddTrailingDot (Server record))
                 (Some (Priority record)))
        ("failed to remove NS record " +:+ Server record))
      toRemove in
  match err with
  | Some e => ret (Some e, d)
  | None =>
      let* err :=
        for_range (fun record =>
          checked (AddRecord c "NS" zone name (AddTrailingDot (Server record))
                     (Some (Priority record)))
            ("failed to add NS record " +:+ Server record))
          toAdd in
      match err with
      | Some e => ret (Some e, d)
      | None =>
          let* _ := InvalidateZoneCache zone in
          ret (None, d)
      end
  end.

(** [NSRecordStrategy.Delete]: removes the old value of [record] *)
Definition Delete (d : ResourceData (list RecordBlock))
  : M (error * ResourceData (list RecordBlock)) :=
  let zone := GetZone d in
  let name := GetName d in
  let '(oldRecordsList, _) := GetChange d in
  let* err :=
    for_range (fun block =>
      for_range (fun server =>
        checked (RemoveRecord c zone name "NS" (AddTrailingDot server)
                   (Some (priority block)))
          "failed to delete NS record")
        (servers block))
      oldRecordsList in
  match err with
  | Some e => ret (Some e, d)
  | None =>
      let* _ := InvalidateZoneCache zone in
      ret (None, d)
  end.

(** [NSRecordStrategy.Import] *)
Definition Import (d : ResourceData (list RecordBlock))
  : M (error * ResourceData (list RecordBlock)) :=
  Import_with Read d.
End Ops.

End NS.

(** ** The CNAME strategy: one target, replaced wholesale *)

Module CNAME.

Section Ops.
Context `{E : Env}.
Variable c : Client.

(** [CNAMERecordStrategy.Create] *)
Definition Create (d : ResourceData string) : M (error * ResourceData string) :=
  let zone := GetZone d in
  let name := GetName d in
  let cname := Get d in
  let* err :=
    checked (AddRecord c "CNAME" zone name (AddTrailingDot cname) None)
      "failed to create CNAME record" in
  match err with
  | Some e => ret (Some e, d)
  | None =>
      let d := SetResourceID d zone name "CNAME" in
      let* _ := InvalidateZoneCache zone in
      ret (None, d)
  end.

(** [CNAMERecordStrategy.Read] *)
Definition Read (d : ResourceData string) : M (error * ResourceData string) :=
  let zone := GetZone d in
  let name := GetName d in
  let* '(response, err) := GetRecordsWithCache c zone in
  match err with
  | Some e => ret (Some ("failed to get zone records: " +:+ e), d)
  | None =>
      match json_DNSZoneResponse response with
      | None =>
          ret (Some ("failed to parse DNS records response: "
                     +:+ json_errtext response), d)
      | Some zoneResponse =>
          let foundCNAME :=
            match matching_rrs_of_zone zoneResponse zone "CNAME" name with
            | rr :: _ => NormalizeDomain (base.Content rr)
            | [] => EmptyString
            end in
          if String.eqb foundCNAME EmptyString
          then ret (None, SetId d EmptyString)
          else ret (None, Set_records (Set_zone_name d zone name) foundCNAME)
      end
  end.

(** [CNAMERecordStrategy.Update] *)
Definition Update (d : ResourceData string) : M (error * ResourceData string) :=
  let zone := GetZone d in
  let name := GetName d in
  let '(oldCNAMEStr, newCNAMEStr) := GetChange d in
  let* err :=
    if negb (String.eqb oldCNAMEStr EmptyString)
    then checked (RemoveRecord c zone name "CNAME"
                    (AddTrailingDot oldCNAMEStr) None)
           "failed to delete old CNAME record"
    else ret None in
  match err with
  | Some e => ret (Some e, d)
  | None =>
      let* err :=
        if negb (String.eqb newCNAMEStr EmptyString)
        then checked (AddRecord c "CNAME" zone name
                        (AddTrailingDot newCNAMEStr) None)
               "failed to create new CNAME record"
        else ret None in
      match err with
      | Some e => ret (Some e, d)
      | None =>
          let* _ := InvalidateZoneCache zone in
          ret (None, d)
      end
  end.

(** [CNAMERecordStrategy.Delete] *)
Definition Delete (d : ResourceData string) : M (error * ResourceData string) :=
  let zone := GetZone d in
  let name := GetName d in
  let cname := Get d in
  let cname := if String.eqb cname EmptyString then fst (GetChange d) else cname in
  let* err :=
    if negb (String.eqb cname EmptyString)
    then checked (RemoveRecord c zone name "CNAME" (AddTrailingDot cname) None)
           "failed to delete CNAME record"
    else ret None in
  match err with
  | Some e => ret (Some e, d)
  | None =>
      let* _ := InvalidateZoneCache zone in
      ret (None, d)
  end.

(** [CNAMERecordStrategy.Import] *)
Definition Import (d : ResourceData string) : M (error * ResourceData string) :=
  Import_with Read d.
End Ops.

End CNAME.

(** ** The SRV strategy *)

Module SRV.

(** One [record] block of the SRV schema *)
Record Block := mkBlock {
  priority : Z;
  weight : Z;
  port : Z;
  targets : list string;
}.

Global Instance Block_eq_dec : EqDecision Block.
Proof. solve_decision. Defined.

(** [SRVRecord] *)
Record SRVRecord := mkSRVRecord {
  Priority : Z;
  Weight : Z;
  Port : Z;
  Target : string;
}.

Global Instance SRVRecord_eq_dec : EqDecision SRVRecord.
Proof. solve_decision. Defined.

(** [SRVRecord.String]: [fmt.Sprintf("%d_%d_%d_%s", ...)] *)
Definition SRVRecord_String (srv : SRVRecord) : string :=
  Itoa (Priority srv) +:+ "_" +:+ Itoa (Weight srv) +:+ "_"
  +:+ Itoa (Port srv) +:+ "_" +:+ Target srv.

(** [sort.Slice(records, func(i, j) { return records[i].String() < records[j].String() })] *)
Definition sort_records (records : list SRVRecord) : list SRVRecord :=
  sort_Slice (fun a b => String.ltb (SRVRecord_String a) (SRVRecord_String b))
    records.

Definition same (a b : SRVRecord) : bool :=
  String.eqb (SRVRecord_String a) (SRVRecord_String b).

Definition flatten (blocks : list Block) : list SRVRecord :=
  flat_map (fun block =>
              map (fun target =>
                     {| Priority := priority block; Weight := weight block;
                        Port := port block; Target := target |})
                (targets block))
    blocks.

(** [parseSRVRecords]: the records of [d.Get("record")] *)
Definition parseSRVRecords (d : ResourceData (list Block)) : list SRVRecord :=
  flatten (Get d).

(** [getOldSRVRecords]: the records of the old value of [record] *)
Definition getOldSRVRecords (d : ResourceData (list Block)) : list SRVRecord :=
  flatten (fst (GetChange d)).

(** The two lists that [Update] computes *)
Definition recordsToRemove (oldSRVRecords newSRVRecords : list SRVRecord)
  : list SRVRecord :=
  not_found_in same (sort_records oldSRVRecords) (sort_records newSRVRecords).

Definition recordsToAdd (oldSRVRecords newSRVRecords : list SRVRecord)
  : list SRVRecord :=
  not_found_in same (sort_records newSRVRecords) (sort_records oldSRVRecords).

(** [CommonRecord.GetPriority]: the SRV schema declares no top-level
    [priority] attribute, so [GetOk] reports it absent. *)
Definition GetPriority (d : ResourceData (list Block)) : option Z := None.

(** The record that [Read] builds from one wire record *)
Definition fromWire (record : DNSRecord) : SRVRecord :=
  let target := base.Content record in
  let target :=
    if Contains target " " then
      let parts := Fields target in
      if (3 <=? length parts)%nat then nth 2 parts EmptyString else target
    else target in
  {| Priority := base.Prio record; Weight := base.Weight record;
     Port := base.Port record; Target := NormalizeDomain target |}.

(** [recordGroups[key] = append(recordGroups[key], target)] with
    [key = fmt.Sprintf("%d_%d_%d", ...)] *)
Definition group_records (records : list SRVRecord) : gmap string (list string) :=
  foldl (fun (m : gmap string (list string)) srv =>
           let key := Itoa (Priority srv) +:+ "_" +:+ Itoa (Weight srv)
                      +:+ "_" +:+ Itoa (Port srv) in
           <[key := (default [] (m !! key) ++ [Target srv])%list]> m)
    ∅ records.

Definition block_less (a b : Block) : bool :=
  if negb (priority a =? priority b) then priority a <? priority b
  else if negb (weight a =? weight b) then weight a <? weight b
  else port a <? port b.

(** The blocks written by [Read]; the keys are distinct, so the final sort
    fixes the order in which the map was ranged over. *)
Definition blocks_of_groups (groups : gmap string (list string)) : list Block :=
  sort_Slice block_less
    (map (fun kv : string * list string =>
            let parts := Split kv.1 "_" in
            {| priority := fst (Atoi (nth 0 parts EmptyString));
               weight := fst (Atoi (nth 1 parts EmptyString));
               port := fst (Atoi (nth 2 parts EmptyString));
               targets := sort_Strings kv.2 |})
       (map_to_list groups)).

Section Ops.
Context `{E : Env}.
Variable c : Client.

(** [SRVRecordStrategy.Read] *)
Definition Read (d : ResourceData (list Block))
  : M (error * ResourceData (list Block)) :=
  let zone := GetZone d in
  let name := GetName d in
  let expectedPriority := GetPriority d in
  let* '(response, err) := GetRecordsWithCache c zone in
  match err with
  | Some e => ret (Some ("failed to get zone records: " +:+ e), d)
  | None =>
      match json_DNSZoneResponse response with
      | None =>
          ret (Some ("failed to parse DNS records response: "
                     +:+ json_errtext response), d)
      | Some zoneResponse =>
          let foundSRVRecords :=
            map fromWire
              (List.filter (fun record =>
                 match expectedPriority with
                 | Some p => base.Prio record =? p
                 | None => true
                 end)
                 (matching_rrs zoneResponse "SRV" name)) in
          if (length foundSRVRecords =? 0)%nat
          then ret (None, SetId d EmptyString)
          else
            let foundSRVRecords := sort_records foundSRVRecords in
            ret (None, Set_records (Set_zone_name d zone name)
                         (blocks_of_groups (group_records foundSRVRecords)))
      end
  end.

(** [SRVRecordStrategy.Create] *)
Definition Create (d : ResourceData (list Block))
  : M (error * ResourceData (list Block)) :=
  let zone := GetZone d in
  let name := GetName d in
  let srvRecords := parseSRVRecords d in
  if (length srvRecords =? 0)%nat
  then ret (Some "at least one SRV record must be specified", d)
  else
    let* err :=
      for_range (fun srvRecord =>
        checked (AddSRVRecord c zone name (Target srvRecord)
                   (Priority srvRecord) (Weight srvRecord) (Port srvRecord))
          ("failed to create SRV record " +:+ Target srvRecord))
        (sort_records srvRecords) in
    match err with
    | Some e => ret (Some e, d)
    | None => Read (SetResourceID d zone name "SRV")
    end.

(** [SRVRecordStrategy.Update] *)
Definition Update (d : ResourceData (list Block))
  : M (error * ResourceData (list Block)) :=
  let zone := GetZone d in
  let name := GetName d in
  if HasChange d then
    let oldSRVRecords := getOldSRVRecords d in
    let newSRVRecords := parseSRVRecords d in
    let* err :=
      for_range (fun record =>
        checked (RemoveSRVRecord c zone name (Target record)
                   (Priority record) (Weight record) (Port record))
          ("failed to remove SRV record " +:+ Target record))
        (recordsToRemove oldSRVRecords newSRVRecords) in
    match err with
    | Some e => ret (Some e, d)
    | None =>
        let* err :=
          for_range (fun record =>
            checked (AddSRVRecord c zone name (Target record)
                       (Priority record) (Weight record) (Port record))
              ("failed to add SRV record " +:+ Target record))
            (recordsToAdd oldSRVRecords newSRVRecords) in
        match err with
        | Some e => ret (Some e, d)
        | None =>
            let* _ := InvalidateZoneCache zone in
            Read d
        end
    end
  else Read d.

(** [SRVRecordStrategy.Delete] *)
Definition Delete (d : ResourceData (list Block))
  : M (error * ResourceData (list Block)) :=
  let zone := GetZone d in
  let name := GetName d in
  let srvRecords := parseSRVRecords d in
  let* err :=
    for_range (fun srvRecord =>
      checked (RemoveSRVRecord c zone name (Target srvRecord)
                 (Priority srvRecord) (Weight srvRecord) (Port srvRecord))
        ("failed to delete SRV record " +:+ Target srvRecord))
      srvRecords in
  match err with
  | Some e => ret (Some e, d)
  | None =>
      let* _ := InvalidateZoneCache zone in
      ret (None, d)
  end.

(** [SRVRecordStrategy.Import] *)
Definition Import (d : ResourceData (list Block))
  : M (error * ResourceData (list Block)) :=
  Import_with Read d.
End Ops.

End SRV.

(** ** The CAA strategy *)

Module CAA.

(** [CAARecord]; a [record] block of the CAA schema has the same fields *)
Record CAARecord := mkCAARecord {
  Flag : Z;
  Tag : string;
  Value : string;
}.

Global Instance CAARecord_eq_dec : EqDecision CAARecord.
Proof. solve_decision. Defined.

(** [CAARecord.String]: [fmt.Sprintf("%d_%s_%s", ...)] *)
Definition CAARecord_String (caa : CAARecord) : string :=
  Itoa (Flag caa) +:+ "_" +:+ Tag caa +:+ "_" +:+ Value caa.

Definition sort_records (records : list CAARecord) : list CAARecord :=
  sort_Slice (fun a b => String.ltb (CAARecord_String a) (CAARecord_String b))
    records.

Definition same (a b : CAARecord) : bool :=
  String.eqb (CAARecord_String a) (CAARecord_String b).

(** [parseCAARecords] and [getOldCAARecords] *)
Definition parseCAARecords (d : ResourceData (list CAARecord)) : list CAARecord :=
  Get d.

Definition getOldCAARecords (d : ResourceData (list CAARecord)) : list CAARecord :=
  fst (GetChange d).

Definition recordsToRemove (oldCAARecords newCAARecords : list CAARecord)
  : list CAARecord :=
  not_found_in same (sort_records oldCAARecords) (sort_records newCAARecords).

Definition recordsToAdd (oldCAARecords newCAARecords : list CAARecord)
  : list CAARecord :=
  not_found_in same (sort_records newCAARecords) (sort_records oldCAARecords).

(** The record that [Read] builds from one wire record: the structured
    [flag] and [tag] when either is set, otherwise the fields of the
    content text. *)
Definition fromWire (record : DNSRecord) : CAARecord :=
  let '(flag, tag, value) :=
    if negb (base.Flag record =? 0) || negb (String.eqb (base.Tag record) EmptyString)
    then (base.Flag record, base.Tag record, base.Content record)
    else
      let parts := Fields (base.Content record) in
      if (3 <=? length parts)%nat then
        let flag :=
          match Atoi (nth 0 parts EmptyString) with
          | (flagVal, None) => flagVal
          | (_, Some _) => 0
          end in
        let tag := nth 1 parts EmptyString in
        let value := Join (skipn 2 parts) " " in
        let value :=
          if HasPrefix value (String dquote EmptyString)
             && HasSuffix value (String dquote EmptyString)
          then Trim value dquote else value in
        (flag, tag, value)
      else (0, EmptyString, base.Content record) in
  {| Flag := flag; Tag := tag; Value := NormalizeDomain value |}.

Section Ops.
Context `{E : Env}.
Variable c : Client.

(** [CAARecordStrategy.Read] *)
Definition Read (d : ResourceData (list CAARecord))
  : M (error * ResourceData (list CAARecord)) :=
  let zone := GetZone d in
  let name := GetName d in
  let* '(response, err) := GetRecordsWithCache c zone in
  match err with
  | Some e => ret (Some ("failed to get zone records: " +:+ e), d)
  | None =>
      match json_DNSZoneResponse response with
      | None =>
          ret (Some ("failed to parse DNS records response: "
                     +:+ json_errtext response), d)
      | Some zoneResponse =>
          let foundCAARecords :=
            map fromWire (matching_rrs zoneResponse "CAA" name) in
          if (length foundCAARecords =? 0)%nat
          then ret (None, SetId d EmptyString)
          else ret (None, Set_records (Set_zone_name d zone name)
                            (sort_records foundCAARecords))
      end
  end.

(** [CAARecordStrategy.Create] *)
Definition Create (d : ResourceData (list CAARecord))
  : M (error * ResourceData (list CAARecord)) :=
  let zone := GetZone d in
  let name := GetName d in
  let caaRecords := parseCAARecords d in
  if (length caaRecords =? 0)%nat
  then ret (Some "at least one CAA record must be specified", d)
  else
    let* err :=
      for_range (fun caaRecord =>
        checked (AddCAARecord c zone name (Value caaRecord)
                   (Flag caaRecord) (Tag caaRecord))
          ("failed to create CAA record " +:+ Value caaRecord))
        (sort_records caaRecords) in
    match err with
    | Some e => ret (Some e, d)
    | None => Read (SetId d (zone +:+ "/" +:+ name +:+ "/" +:+ "CAA"))
    end.

(** [CAARecordStrategy.Update] *)
Definition Update (d : ResourceData (list CAARecord))
  : M (error * ResourceData (list CAARecord)) :=
  let zone := GetZone d in
  let name := GetName d in
  if HasChange d then
    let oldCAARecords := getOldCAARecords d in
    let newCAARecords := parseCAARecords d in
    let* err :=
      for_range (fun record =>
        checked (RemoveCAARecord c zone name (Value record)
                   (Flag record) (Tag record))
          ("failed to remove CAA record " +:+ Value record))
        (recordsToRemove oldCAARecords newCAARecords) in
    match err with
    | Some e => ret (Some e, d)
    | None =>
        let* err :=
          for_range (fun record =>
            checked (AddCAARecord c zone name (Value record)
                       (Flag record) (Tag record))
              ("failed to add CAA record " +:+ Value record))
            (recordsToAdd oldCAARecords newCAARecords) in
        match err with
        | Some e => ret (Some e, d)
        | None =>
            let* _ := InvalidateZoneCache zone in
            Read d
        end
    end
  else Read d.

(** [CAARecordStrategy.Delete] *)
Definition Delete (d : ResourceData (list CAARecord))
  : M (error * ResourceData (list CAARecord)) :=
  let zone := GetZone d in
  let name := GetName d in
  let caaRecords := parseCAARecords d in
  let* err :=
    for_range (fun caaRecord =>
      checked (RemoveCAARecord c zone name (Value caaRecord)
                 (Flag caaRecord) (Tag caaRecord))
        ("failed to delete CAA record " +:+ Value caaRecord))
      caaRecords in
  match err with
  | Some e => ret (Some e, d)
  | None =>
      let* _ := InvalidateZoneCache zone in
      ret (None, d)
  end.

(** [CAARecordStrategy.Import] *)
Definition Import (d : ResourceData (list CAARecord))
  : M (error * ResourceData (list CAARecord)) :=
  Import_with Read d.
End Ops.

End CAA.

(** ** The deprecated resource [regru_dns_record] and its client

    [resource_dns_record.go] with the first version of [client]: a client
    that returns every response body unchecked, and a resource with one
    record per instance. *)

Module Legacy.

Record Data := mkData {
  Id : string;
  zone : string;
  name : string;
  type : string;
  record : string;
  priority : Z;
}.

Definition SetId (d : Data) (id : string) : Data :=
  {| Id := id; zone := zone d; name := name d; type := type d;
     record := record d; priority := priority d |}.

Section Ops.
Context `{E : Env}.
Variable c : Client.

(** [Client.doRequest], first version: no look at the body *)
Definition doRequest (endpoint : string) (params : Values) : M (string * error) :=
  fun w =>
    let params := (params ++ [("username", Username c); ("password", Password c)])%list in
    let fullURL := BaseURL c +:+ "/" +:+ endpoint in
    let answer := http_post (trace w) fullURL params in
    let w' := snd (emit (EvPost fullURL params) w) in
    match answer with
    | PostError msg => ((EmptyString, Some ("failed to make request: " +:+ msg)), w')
    | ReadError msg => ((EmptyString, Some ("failed to read response: " +:+ msg)), w')
    | Body body => ((body, None), w')
    end.

(** [Client.AddRecord], first version *)
Definition AddRecord (recordType domainName subdomain value : string)
    (priority : Z) : M (string * error) :=
  let params := [("domain_name", domainName); ("subdomain", subdomain);
                 ("output_content_type", "plain")] in
  let '(endpoint, extra) :=
    if String.eqb recordType "A" then ("zone/add_alias", [("ipaddr", value)])
    else if String.eqb recordType "AAAA" then ("zone/add_aaaa", [("ipaddr", value)])
    else if String.eqb recordType "CNAME" then
      ("zone/add_cname", [("canonical_name", value)])
    else if String.eqb recordType "MX" then
      ("zone/add_mx", [("mail_server", value); ("priority", Itoa priority)])
    else if String.eqb recordType "NS" then
      ("zone/add_ns", [("dns_server", value); ("priority", Itoa priority)])
    else ("zone/add_txt", [("text", value)]) in
  doRequest endpoint (params ++ extra)%list.

(** [Client.RemoveRecord], first version *)
Definition RemoveRecord (domainName subdomain recordType content : string)
    (priority : Z) : M (string * error) :=
  let params := [("domain_name", domainName); ("subdomain", subdomain);
                 ("record_type", recordType); ("content", content);
                 ("output_content_type", "plain")] in
  let extra :=
    if String.eqb recordType "MX" || String.eqb recordType "NS"
    then [("priority", Itoa priority)] else [] in
  doRequest "zone/remove_record" (params ++ extra)%list.

Definition with_priority (recordType : string) : bool :=
  String.eqb recordType "MX" || String.eqb recordType "NS".

(** [resourceDnsRecordCreate] *)
Definition resourceDnsRecordCreate (d : Data) : M (error * Data) :=
  let priority := if with_priority (type d) then priority d else 0 in
  let* '(response, err) := AddRecord (type d) (zone d) (name d) (record d) priority in
  match err with
  | Some e => ret (Some ("failed to create DNS record: " +:+ e), d)
  | None =>
      ret (None, SetId d (zone d +:+ "/" +:+ name d +:+ "/" +:+ type d))
  end.

(** [resourceDnsRecordDelete]; [None] is the run-time panic of
    [record[len(record)-1]] on an empty MX or NS record *)
Definition resourceDnsRecordDelete (d : Data) : M (option (error * Data)) :=
  let priority := if with_priority (type d) then priority d else 0 in
  let dotted : option string :=
    if with_priority (type d) then
      match record d with
      | EmptyString => None
      | _ => Some (if HasSuffix (record d) "." then record d
                   else record d +:+ ".")
      end
    else Some (record d) in
  match dotted with
  | None => ret None
  | Some record =>
      let* '(response, err) := RemoveRecord (zone d) (name d) (type d) record priority in
      match err with
      | Some e =>
          if String.eqb e "RR_NOT_FOUND" then ret (Some (None, d))
          else ret (Some (Some ("failed to delete DNS record: " +:+ e), d))
      | None => ret (Some (None, SetId d EmptyString))
      end
  end.
End Ops.

End Legacy.

(** ** More of [resource/base]: the factory, ordering, diff suppression *)

(** [StrategyFactory]: the strategies registered per record type; a
    strategy is any implementation of [RecordTypeStrategy]. *)
Section Factory.
Context {Strategy : Type}.

(** [NewStrategyFactory] *)
Definition NewStrategyFactory : gmap string Strategy := ∅.

(** [StrategyFactory.RegisterStrategy] *)
Definition RegisterStrategy (f : gmap string Strategy) (recordType : string)
    (strategy : Strategy) : gmap string Strategy :=
  <[recordType := strategy]> f.

(** [StrategyFactory.GetStrategy]: the error on the left *)
Definition GetStrategy (f : gmap string Strategy) (recordType : string)
  : string + Strategy :=
  match f !! recordType with
  | Some strategy => inr strategy
  | None => inl ("no strategy found for record type: " +:+ recordType)
  end.

(** [GetCRUDFunctions]: [None] is the [panic]; otherwise the strategy to
    which the five returned closures delegate. *)
Definition GetCRUDFunctions (recordType : string) : option Strategy :=
  let factory := NewStrategyFactory in
  match GetStrategy factory recordType with
  | inl err => None
  | inr strategy => Some strategy
  end.
End Factory.

(** [CommonOperations.ValidateRecords] *)
Definition ValidateRecords {A} (records : list A) : error :=
  if (length records =? 0)%nat
  then Some "at least one record must be specified"
  else None.

(** [CommonOperations.OrderRecordsByConfiguration]; [foundMap] is a
    [map[string]bool], read as [false] where it has no entry. *)
Definition OrderRecordsByConfiguration (foundRecords configRecords : list string)
  : list string :=
  if (length configRecords =? 0)%nat || (length foundRecords =? 0)%nat
  then foundRecords
  else
    let foundMap : gmap string bool :=
      foldl (fun m r => <[r := true]> m) ∅ foundRecords in
    let orderedRecords :=
      foldl (fun ordered configStr =>
               if default false (foundMap !! configStr)
               then (ordered ++ [configStr])%list else ordered)
        [] configRecords in
    foldl (fun ordered found =>
             if existsb (fun o => String.eqb o found) ordered
             then ordered else (ordered ++ [found])%list)
      orderedRecords foundRecords.

(** [oldSet[str]++] over a list: how often each string occurs *)
Definition count_set (strs : list string) : gmap string Z :=
  foldl (fun m str => <[str := default 0 (m !! str) + 1]> m) ∅ strs.

(** [base.RecordsListDiffSuppressFunc]; the schema makes [records] a list
    of strings, so no element is skipped.  The final loop ranges over
    [oldSet] and fails at the first count that differs. *)
Definition RecordsListDiffSuppressFunc (k old new : string)
    (d : ResourceData (list string)) : bool :=
  if String.eqb (Id d) EmptyString then false
  else if negb (HasPrefix k "records.") then false
  else
    let '(oldStrs, newStrs) := GetChange d in
    if negb (length oldStrs =? length newStrs)%nat then false
    else
      let oldSet := count_set oldStrs in
      let newSet := count_set newStrs in
      if negb (size oldSet =? size newSet)%nat then false
      else
        forallb (fun kv : string * Z => default 0 (newSet !! kv.1) =? kv.2)
          (map_to_list oldSet).

(** ** [resources]: diff suppression for the record blocks

    A block is a [map[string]interface{}]; what the two handlers read of
    it is the list stored under a field name, and the three CAA fields. *)

Class BlockFields (B : Type) := mkBlockFields {
  string_list_field : string -> B -> option (list string);
  caa_fields : B -> option (Z * string * string);
}.

Global Instance RecordBlock_fields : BlockFields RecordBlock :=
  {| string_list_field fieldName block :=
       if String.eqb fieldName "servers" then Some (servers block) else None;
     caa_fields _ := None |}.

Global Instance SRV_Block_fields : BlockFields SRV.Block :=
  {| string_list_field fieldName block :=
       if String.eqb fieldName "targets" then Some (SRV.targets block) else None;
     caa_fields _ := None |}.

Global Instance CAARecord_fields : BlockFields CAA.CAARecord :=
  {| string_list_field _ _ := None;
     caa_fields record := Some (CAA.Flag record, CAA.Tag record, CAA.Value record) |}.

(** The comparison that ends both handlers: equal lengths, then equal at
    every index. *)
Definition strings_equal (oldStrs newStrs : list string) : bool :=
  if negb (length oldStrs =? length newStrs)%nat then false
  else forallb (fun p : string * string => String.eqb p.1 p.2)
         (combine oldStrs newStrs).

(** [DiffSuppressConfig] *)
Record DiffSuppressConfig := mkDiffSuppressConfig {
  FieldType : string;
  FieldName : string;
}.

Section DiffSuppress.
Context {B : Type} `{BlockFields B}.

Definition caa_key (record : B) : option string :=
  match caa_fields record with
  | Some (flag, tag, value) => Some (Itoa flag +:+ "_" +:+ tag +:+ "_" +:+ value)
  | None => None
  end.

(** [handleCAARecordDiff] *)
Definition handleCAARecordDiff (k : string) (d : ResourceData (list B)) : bool :=
  let '(oldCAARecords, newCAARecords) := GetChange d in
  if (length oldCAARecords =? 0)%nat then false
  else
    let oldStrs := omap caa_key oldCAARecords in
    let newStrs := omap caa_key newCAARecords in
    if (length oldStrs =? 0)%nat || (length newStrs =? 0)%nat then false
    else strings_equal (sort_Strings oldStrs) (sort_Strings newStrs).

(** [handleNestedFieldDiff]; [None] is the run-time panic of indexing a
    slice at a negative index, which the bounds check lets through. *)
Definition handleNestedFieldDiff (k : string) (d : ResourceData (list B))
    (fieldName : string) : option bool :=
  let parts := Split k "." in
  if (length parts <? 3)%nat
     || negb (String.eqb (nth 2 parts EmptyString) fieldName)
  then Some false
  else
    let '(recordIndex, err) := Atoi (nth 1 parts EmptyString) in
    match err with
    | Some _ => Some false
    | None =>
        let '(oldRecords, newRecords) := GetChange d in
        if (Z.of_nat (length oldRecords) <=? recordIndex)
           || (Z.of_nat (length newRecords) <=? recordIndex)
        then Some false
        else if recordIndex <? 0 then None
        else
          match oldRecords !! Z.to_nat recordIndex,
                newRecords !! Z.to_nat recordIndex with
          | Some oldRecord, Some newRecord =>
              match string_list_field fieldName oldRecord,
                    string_list_field fieldName newRecord with
              | Some oldField, Some newField =>
                  if (length oldField =? 0)%nat then Some false
                  else if (length oldField =? 0)%nat || (length newField =? 0)%nat
                  then Some false
                  else Some (strings_equal (sort_Strings oldField)
                               (sort_Strings newField))
              | _, _ => Some false
              end
          | _, _ => None
          end
    end.

(** [GenericDiffSuppressFunc] *)
Definition GenericDiffSuppressFunc (k old new : string) (d : ResourceData (list B))
    (config : DiffSuppressConfig) : option bool :=
  if String.eqb (Id d) EmptyString then Some false
  else if String.eqb (FieldType config) "caa_record"
  then Some (handleCAARecordDiff k d)
  else if String.eqb (FieldType config) "nested_field"
  then handleNestedFieldDiff k d (FieldName config)
  else Some false.
End DiffSuppress.

(** [MXServersDiffSuppressFunc] *)
Definition MXServersDiffSuppressFunc (k old new : string)
    (d : ResourceData (list RecordBlock)) : option bool :=
  GenericDiffSuppressFunc k old new d
    {| FieldType := "nested_field"; FieldName := "servers" |}.

(** [NSServersDiffSuppressFunc] *)
Definition NSServersDiffSuppressFunc (k old new : string)
    (d : ResourceData (list RecordBlock)) : option bool :=
  GenericDiffSuppressFunc k old new d
    {| FieldType := "nested_field"; FieldName := "servers" |}.

(** [SRVTargetsDiffSuppressFunc] *)
Definition SRVTargetsDiffSuppressFunc (k old new : string)
    (d : ResourceData (list SRV.Block)) : option bool :=
  GenericDiffSuppressFunc k old new d
    {| FieldType := "nested_field"; FieldName := "targets" |}.

(** [CAARecordsDiffSuppressFunc] *)
Definition CAARecordsDiffSuppressFunc (k old new : string)
    (d : ResourceData (list CAA.CAARecord)) : option bool :=
  GenericDiffSuppressFunc k old new d
    {| FieldType := "caa_record"; FieldName := EmptyString |}.

(** ** Counting

    How often [x] occurs in [l]: the count that a multiset diff would
    compare. *)

Definition occurrences `{EqDecision A} (x : A) (l : list A) : nat :=
  count_occ (fun a b => decide (a = b)) l x.

(** ** Vocabulary of the statements about runs *)

(** The request by which a client reads a zone *)
Definition zone_read (c : Client) (zone : string) : Event :=
  EvPost (BaseURL c +:+ "/" +:+ "zone/get_resource_records")
    [("dname", zone); ("username", Username c); ("password", Password c)].


(** A computation appends nothing but reads of [zone]. *)
Definition only_reads {A} (c : Client) (zone : string) (m : M A) : Prop :=
  forall w, exists evs,
    trace (snd (m w)) = (trace w ++ evs)%list
    /\ Forall (fun ev => ev = zone_read c zone) evs.

(** A computation appends nothing but requests to the provider: it never
    touches the cache by [InvalidateZoneCache] or [ClearZoneCache]. *)
Definition is_post (ev : Event) : bool :=
  match ev with
  | EvPost _ _ => true
  | _ => false
  end.

Definition only_posts {A} (m : M A) : Prop :=
  forall w, exists evs,
    trace (snd (m w)) = (trace w ++ evs)%list
    /\ forallb is_post evs = true.


(** The request that [Client.doRequest] sends for an endpoint and the
    parameters of the caller: the credentials are added last. *)
Definition request (c : Client) (endpoint : string) (params : Values) : Event :=
  EvPost (BaseURL c +:+ "/" +:+ endpoint)
    (params ++ [("username", Username c); ("password", Password c)])%list.

(** The removal that the generic [Delete] sends for one declared record *)
Definition Generic_removal (s : Generic.GenericRecordStrategy) (c : Client)
    (d : ResourceData (list string)) (record : string) : Event :=
  request c "zone/remove_record"
    [("domain_name", zone d); ("subdomain", name d);
     ("record_type", Generic.recordType s);
     ("content", Generic.preprocessor s record);
     ("output_content_type", "plain")].

(** The removal and the addition that the MX [Update] sends for one record *)
Definition MX_removal (c : Client) (d : ResourceData (list RecordBlock))
    (record : MX.MXRecord) : Event :=
  request c "zone/remove_record"
    [("domain_name", zone d); ("subdomain", name d); ("record_type", "MX");
     ("content", AddTrailingDot (MX.Server record));
     ("output_content_type", "plain");
     ("priority", Itoa (MX.Priority record))].

Definition MX_addition (c : Client) (d : ResourceData (list RecordBlock))
    (record : MX.MXRecord) : Event :=
  request c "zone/add_mx"
    [("domain_name", zone d); ("subdomain", name d);
     ("output_content_type", "plain");
     ("mail_server", AddTrailingDot (MX.Server record));
     ("priority", Itoa (MX.Priority record))].

(** Every run of an operation that returns an error returns the resource
    data [a] and has sent requests only: no invalidation, no clearing. *)
Definition fails_cleanly {A} (a : A) (op : M (error * A)) : Prop :=
  forall w, fst (fst (op w)) <> None ->
    snd (fst (op w)) = a
    /\ exists evs, trace (snd (op w)) = (trace w ++ evs)%list
                   /\ forallb is_post evs = true.

(** A response body in which [doRequest] finds no error: neither decoding
    of it carries the result [error], at the top or in a domain. *)
Definition body_is_accepted `{E : Env} (body : string) : Prop :=
  (forall direct, json_APIError body = Some direct -> Result direct <> "error")
  /\ (forall resp, json_APIResponse body = Some resp ->
        ar_Result resp <> "error"
        /\ Forall (fun domain => Result domain <> "error") (ar_Domains resp)).

(** The values of Go's [int] on a 64-bit platform *)
Definition is_int (n : Z) : Prop := minInt <= n <= maxInt.

(** [a] does not come after [b] in the order of [less] *)
Definition not_after {A} (less : A -> A -> bool) (a b : A) : Prop :=
  less b a = false.

(** One step of [m[key] = append(m[key], value)], and the key-value pairs
    that a map of groups holds *)
Section Grouping.
Context `{Countable K} {A V : Type} (key : A -> K) (val : A -> V).

Definition group_step (m : gmap K (list V)) (a : A) : gmap K (list V) :=
  <[key a := (default [] (m !! key a) ++ [val a])%list]> m.

Definition pairs_of (m : gmap K (list V)) : list (K * V) :=
  flat_map (fun kv : K * list V => map (pair kv.1) kv.2) (map_to_list m).
End Grouping.

(** The order of [sort.Slice] by a numeric key, and the block that the MX
    and NS reads build from one priority group *)
Definition by_key {A} (f : A -> Z) (a b : A) : bool := f a <? f b.

Definition block_of_group (kv : Z * list string) : RecordBlock :=
  {| priority := kv.1; servers := sort_Strings kv.2 |}.

(** One step of the last loop of [OrderRecordsByConfiguration] *)
Definition remaining_step (ordered : list string) (found : string) : list string :=
  if existsb (fun o => String.eqb o found) ordered
  then ordered else (ordered ++ [found])%list.

(** The contents that the generic [Read] finds for a name in a decoded zone *)
Definition found_contents (s : Generic.GenericRecordStrategy)
    (zoneResponse : DNSZoneResponse) (name : string) : list string :=
  map (fun record => Generic.preprocessor s (base.Content record))
    (matching_rrs zoneResponse (Generic.recordType s) name).

(** ** Sample provider behaviour

    Concrete environments on which the operations can be run.  Each decoder
    is a table from the response texts used below to what [json.Unmarshal]
    stores for them; the texts are written with apostrophes for double
    quotes. *)

Module Sample.

(** Replace every apostrophe by a double quote. *)
Fixpoint json_text (s : string) : string :=
  match s with
  | EmptyString => EmptyString
  | String c r =>
      String (if Ascii.eqb c "'" then dquote else c) (json_text r)
  end.

Definition decode_table {T} (table : list (string * T)) (body : string)
  : option T :=
  match List.find (fun kv : string * T => String.eqb kv.1 body) table with
  | Some kv => Some kv.2
  | None => None
  end.

(** The answer to a successful write *)
Definition success_body : string :=
  json_text "{'answer':{'domains':[{'dname':'example.com','result':'success'}]},'result':'success'}".

(** The answer to the removal of a record that does not exist *)
Definition not_found_body : string :=
  json_text "{'answer':{'domains':[{'dname':'example.com','error_code':'RECORD_NOT_FOUND','error_text':'Resource record not found','result':'error'}]},'result':'success'}".

(** A zone with one A record and one CAA record in combined form *)
Definition zone_body : string :=
  json_text "{'answer':{'domains':[{'dname':'example.com','rrs':[{'content':'1.1.1.1','prio':0,'rectype':'A','state':'A','subname':'www'},{'content':'0 issue \'letsencrypt.org\'','prio':0,'rectype':'CAA','state':'A','subname':'@'}]}]},'result':'success'}".

(** Not JSON at all *)
Definition gateway_body : string := "<html><body>502 Bad Gateway</body></html>".

Definition a_rr : DNSRecord :=
  {| base.Subname := "www"; base.Rectype := "A"; base.Content := "1.1.1.1";
     base.Prio := 0; base.State := "A"; base.Weight := 0; base.Port := 0;
     base.Flag := 0; base.Tag := EmptyString |}.

Definition caa_rr : DNSRecord :=
  {| base.Subname := "@"; base.Rectype := "CAA";
     base.Content := "0 issue " +:+ quoted "letsencrypt.org";
     base.Prio := 0; base.State := "A"; base.Weight := 0; base.Port := 0;
     base.Flag := 0; base.Tag := EmptyString |}.

Definition blank_APIError (result : string) : APIError :=
  {| ErrorCode := EmptyString; ErrorText := EmptyString;
     ErrorParams := ∅; Result := result |}.

Definition not_found_domain : APIError :=
  {| ErrorCode := "RECORD_NOT_FOUND"; ErrorText := "Resource record not found";
     ErrorParams := ∅; Result := "error" |}.

Definition table_APIError : list (string * APIError) :=
  [(success_body, blank_APIError "success");
   (not_found_body, blank_APIError "success");
   (zone_body, blank_APIError "success")].

Definition table_APIResponse : list (string * APIResponse) :=
  [(success_body,
    {| ar_Domains := [blank_APIError "success"]; ar_Result := "success" |});
   (not_found_body,
    {| ar_Domains := [not_found_domain]; ar_Result := "success" |});
   (zone_body,
    {| ar_Domains := [blank_APIError EmptyString]; ar_Result := "success" |})].

Definition table_APIErrorResponse : list (string * APIErrorResponse) :=
  [(success_body,
    {| er_Domains := [{| ed_Dname := "example.com"; ed_Result := "success";
                         ed_ErrorCode := EmptyString;
                         ed_ErrorText := EmptyString |}];
       er_Result := "success" |});
   (not_found_body,
    {| er_Domains := [{| ed_Dname := "example.com"; ed_Result := "error";
                         ed_ErrorCode := "RECORD_NOT_FOUND";
                         ed_ErrorText := "Resource record not found" |}];
       er_Result := "success" |});
   (zone_body,
    {| er_Domains := [{| ed_Dname := "example.com"; ed_Result := EmptyString;
                         ed_ErrorCode := EmptyString;
                         ed_ErrorText := EmptyString |}];
       er_Result := "success" |})].

Definition zone_decoded : DNSZoneResponse :=
  {| zr_Result := "success";
     zr_Domains := [{| zd_Dname := "example.com"; zd_Rrs := [a_rr; caa_rr] |}] |}.

Definition table_DNSZoneResponse : list (string * DNSZoneResponse) :=
  [(success_body,
    {| zr_Result := "success";
       zr_Domains := [{| zd_Dname := "example.com"; zd_Rrs := [] |}] |});
   (not_found_body,
    {| zr_Result := "success";
       zr_Domains := [{| zd_Dname := "example.com"; zd_Rrs := [] |}] |});
   (zone_body, zone_decoded)].

(** A provider that answers every request by looking at its URL: the zone
    for a read, [on_remove] for a removal, success for an addition. *)
Definition answer (on_remove : string) (history : list Event)
    (url : string) (params : Values) : HttpResult :=
  if HasSuffix url "/zone/get_resource_records" then Body zone_body
  else if HasSuffix url "/zone/remove_record" then Body on_remove
  else Body success_body.

Definition env (on_remove : string) : Env :=
  {| json_APIError := decode_table table_APIError;
     json_APIResponse := decode_table table_APIResponse;
     json_APIErrorResponse := decode_table table_APIErrorResponse;
     json_DNSZoneResponse := decode_table table_DNSZoneResponse;
     json_errtext := fun _ => "invalid character '<' looking for beginning of value";
     fmt_plain := fun format => format;
     http_post := answer on_remove;
     clock := fun n => Z.of_nat n * Second |}.

Definition client : Client := NewClient "user" "secret".

(** A process that has done nothing yet *)
Definition fresh : World := {| cache := ∅; trace := []; ticks := 0 |}.


Definition data {T} (id zone name : string) (old new : T) : ResourceData T :=
  {| Id := id; zone := zone; name := name;
     prior := old; planned := new; written := None |}.

(** An A record set whose declared records did not change *)
Definition a_unchanged : ResourceData (list string) :=
data "example.com/www" "example.com" "www" ["1.1.1.1"] ["1.1.1.1"].



(** A new CAA record set *)
Definition caa_new : ResourceData (list CAA.CAARecord) :=
data EmptyString "example.com" "@" []
  [{| CAA.Flag := 0; CAA.Tag := "issue"; CAA.Value := "letsencrypt.org" |}].

(** The MX change of servers a, b to a, c at priority 10 *)
Definition mx_changed : ResourceData (list RecordBlock) :=
data "example.com/@" "example.com" "@"
  [{| priority := 10; servers := ["a"; "b"] |}]
  [{| priority := 10; servers := ["a"; "c"] |}].

(** A record of the deprecated resource *)
Definition legacy_a : Legacy.Data :=
{| Legacy.Id := EmptyString; Legacy.zone := "example.com"; Legacy.name := "www";
   Legacy.type := "A"; Legacy.record := "1.1.1.1"; Legacy.priority := 0 |}.

End Sample.

(** ** Further sample inputs *)

Module Cases.

(** A provider that cannot be reached *)
Definition offline : Env :=
  {| json_APIError := fun _ => None;
     json_APIResponse := fun _ => None;
     json_APIErrorResponse := fun _ => None;
     json_DNSZoneResponse := fun _ => None;
     json_errtext := fun _ => "unexpected end of JSON input";
     fmt_plain := fun format => format;
     http_post := fun _ _ _ => PostError "dial tcp: connection refused";
     clock := fun n => Z.of_nat n * Second |}.

(** Three SRV records in two groups *)
Definition srv_records : list SRV.SRVRecord :=
  [SRV.mkSRVRecord 10 5 5060 "sip2.example.com";
   SRV.mkSRVRecord 20 0 5061 "backup.example.com";
   SRV.mkSRVRecord 10 5 5060 "sip1.example.com"].

(** An MX record set whose two servers change places *)
Definition mx_reordered : ResourceData (list RecordBlock) :=
  Sample.data "example.com/@" "example.com" "@"
    [mkRecordBlock 10 ["mx1"; "mx2"]] [mkRecordBlock 10 ["mx2"; "mx1"]].

(** An A record set declared with no record *)
Definition a_empty : ResourceData (list string) :=
  Sample.data EmptyString "example.com" "www" [] [].

(** Two priority groups *)
Definition two_groups : gmap Z (list string) :=
  <[10 := ["mx2"; "mx1"]]> (<[5 := ["mx0"]]> ∅).

End Cases.

(** * Properties *)

(** ** The library functions on small inputs *)

Example Split_examples :
  Split "example.com/www" "/" = ["example.com"; "www"]
  /\ Split "example.com/@/CAA" "/" = ["example.com"; "@"; "CAA"]
  /\ Split "example.com" "/" = ["example.com"]
  /\ Split "/" "/" = [EmptyString; EmptyString]
  /\ Split EmptyString "/" = [EmptyString].
Proof. repeat split; reflexivity. Qed.

Example Fields_examples :
  Fields ("0 issue " +:+ quoted "letsencrypt.org")
  = ["0"; "issue"; quoted "letsencrypt.org"]
  /\ Fields "  a   b " = ["a"; "b"]
  /\ Fields EmptyString = []
  /\ Fields (String (ascii_of_N 194) (String (ascii_of_N 160) "x")) = ["x"].
Proof. repeat split; reflexivity. Qed.

Example Atoi_examples :
  Atoi "128" = (128, None) /\ Atoi "-7" = (-7, None)
  /\ Atoi "+" = (0, Some ErrSyntax) /\ Atoi "1e3" = (0, Some ErrSyntax)
  /\ Atoi EmptyString = (0, Some ErrSyntax)
  /\ Atoi "9223372036854775808" = (maxInt, Some ErrRange).
Proof. repeat split; reflexivity. Qed.

Example Trim_examples :
  Trim (quoted "letsencrypt.org") dquote = "letsencrypt.org"
  /\ Trim "plain" dquote = "plain"
  /\ TrimSuffix "mail.example.com." "." = "mail.example.com"
  /\ TrimSuffix "mail.example.com" "." = "mail.example.com"
  /\ AddTrailingDot "b" = "b." /\ AddTrailingDot "b." = "b.".
Proof. repeat split; reflexivity. Qed.

Example sort_examples :
  sort_Strings ["2.2.2.2"; "10.0.0.1"; "1.1.1.1"] = ["1.1.1.1"; "10.0.0.1"; "2.2.2.2"]
  /\ SRV.SRVRecord_String (SRV.mkSRVRecord 10 5 5269 "xmpp.example.com")
     = "10_5_5269_xmpp.example.com"
  /\ fmt_map (<["b" := "2"]> (<["a" := "1"]> ∅)) = "map[a:1 b:2]".
Proof. repeat split; vm_compute; reflexivity. Qed.

(** ** Go's byte-wise string order is a strict total order *)

Lemma ascii_compare_refl (a : ascii) : Ascii.compare a a = Eq.
Proof. unfold Ascii.compare. apply N.compare_refl. Qed.

Lemma ascii_compare_lt_trans (a b c : ascii) :
  Ascii.compare a b = Lt -> Ascii.compare b c = Lt -> Ascii.compare a c = Lt.
Proof.
  unfold Ascii.compare. rewrite !N.compare_lt_iff. apply N.lt_trans.
Qed.

Lemma string_compare_lt_trans (s1 s2 s3 : string) :
  String.compare s1 s2 = Lt -> String.compare s2 s3 = Lt ->
  String.compare s1 s3 = Lt.
Proof.
  revert s2 s3. induction s1 as [|a s1 IH]; intros [|b s2] [|c s3]; simpl;
    try congruence.
  destruct (Ascii.compare a b) eqn:Hab; try discriminate.
  - apply Ascii.compare_eq_iff in Hab. subst b.
    destruct (Ascii.compare a c) eqn:Hac; try congruence.
    intros H12 H23. eapply IH; eassumption.
  - destruct (Ascii.compare b c) eqn:Hbc; try discriminate.
    + apply Ascii.compare_eq_iff in Hbc. subst c. rewrite Hab. reflexivity.
    + rewrite (ascii_compare_lt_trans a b c Hab Hbc). reflexivity.
Qed.

Lemma string_compare_refl (s : string) : String.compare s s = Eq.
Proof.
  induction s as [|a s IH]; simpl; [reflexivity|].
  rewrite ascii_compare_refl. exact IH.
Qed.

Lemma ltb_irrefl (s : string) : String.ltb s s = false.
Proof. unfold String.ltb. rewrite string_compare_refl. reflexivity. Qed.

Lemma ltb_trans (s1 s2 s3 : string) :
  String.ltb s1 s2 = true -> String.ltb s2 s3 = true -> String.ltb s1 s3 = true.
Proof.
  unfold String.ltb. intros H12 H23.
  destruct (String.compare s1 s2) eqn:E12; try discriminate.
  destruct (String.compare s2 s3) eqn:E23; try discriminate.
  rewrite (string_compare_lt_trans _ _ _ E12 E23). reflexivity.
Qed.

Lemma ltb_asym (s1 s2 : string) :
  String.ltb s1 s2 = true -> String.ltb s2 s1 = false.
Proof.
  unfold String.ltb. rewrite (String.compare_antisym s1 s2).
  destruct (String.compare s2 s1); simpl; congruence.
Qed.

Lemma ltb_total (s1 s2 : string) :
  String.ltb s1 s2 = false -> String.ltb s2 s1 = false -> s1 = s2.
Proof.
  unfold String.ltb. rewrite (String.compare_antisym s1 s2).
  destruct (String.compare s2 s1) eqn:Hc; simpl; try congruence.
  intros _ _. symmetry. apply String.compare_eq_iff. exact Hc.
Qed.

(** ** Sorting: a permutation, and the same list for every order of the input *)

Section SortingFacts.
Context {A : Type} (less : A -> A -> bool).

Lemma sort_insert_perm (x : A) (l : list A) :
  Permutation (sort_insert less x l) (x :: l).
Proof.
  induction l as [|y l IH]; simpl; [reflexivity|].
  destruct (less y x); [|reflexivity].
  rewrite IH. apply perm_swap.
Qed.

Lemma sort_Slice_perm (l : list A) : Permutation (sort_Slice less l) l.
Proof.
  induction l as [|x l IH]; simpl; [reflexivity|].
  unfold sort_Slice in *. simpl. rewrite sort_insert_perm.
  apply perm_skip. exact IH.
Qed.

Hypothesis less_asym : forall x y, less x y = true -> less y x = false.
Hypothesis less_trans :
  forall x y z, less x y = true -> less y z = true -> less x z = true.
Hypothesis less_total :
  forall x y, less x y = false -> less y x = false -> x = y.

Lemma less_le_trans (x y z : A) :
  less y x = false -> less y z = true -> less x z = true.
Proof.
  intros Hyx Hyz. destruct (less x z) eqn:Hxz; [reflexivity|].
  destruct (less z x) eqn:Hzx.
  - rewrite (less_trans y z x Hyz Hzx) in Hyx. discriminate.
  - rewrite (less_total x z Hxz Hzx) in Hyx. congruence.
Qed.

Lemma sort_insert_comm (x y : A) (l : list A) :
  sort_insert less x (sort_insert less y l)
  = sort_insert less y (sort_insert less x l).
Proof.
  induction l as [|z l IH]; cbn [sort_insert].
  - destruct (less y x) eqn:Hyx, (less x y) eqn:Hxy; try reflexivity.
    + rewrite (less_asym _ _ Hyx) in Hxy. discriminate.
    + rewrite (less_total x y Hxy Hyx). reflexivity.
  - destruct (less z y) eqn:Hzy, (less z x) eqn:Hzx; cbn [sort_insert];
      rewrite ?Hzy, ?Hzx.
    + rewrite IH. reflexivity.
    + rewrite (less_le_trans x z y Hzx Hzy). reflexivity.
    + rewrite (less_le_trans y z x Hzy Hzx). reflexivity.
    + destruct (less y x) eqn:Hyx, (less x y) eqn:Hxy; cbn [sort_insert];
        rewrite ?Hzy, ?Hzx; try reflexivity.
      * rewrite (less_asym _ _ Hyx) in Hxy. discriminate.
      * rewrite (less_total x y Hxy Hyx). reflexivity.
Qed.

Lemma sort_Slice_permutation (l l' : list A) :
  Permutation l l' -> sort_Slice less l = sort_Slice less l'.
Proof.
  unfold sort_Slice.
  induction 1 as [|x l l' _ IH|x y l|l l' l'' _ IH1 _ IH2]; simpl.
  - reflexivity.
  - rewrite IH. reflexivity.
  - apply sort_insert_comm.
  - congruence.
Qed.
End SortingFacts.

Lemma sort_Strings_permutation (l l' : list string) :
  Permutation l l' -> sort_Strings l = sort_Strings l'.
Proof.
  apply sort_Slice_permutation.
  - apply ltb_asym.
  - apply ltb_trans.
  - apply ltb_total.
Qed.

(** ** The search loops of [Update] *)

Section DiffFacts.
Context `{EqDecision A} (same : A -> A -> bool).
Hypothesis same_eq : forall x y, same x y = true <-> x = y.

Lemma existsb_same (x : A) (l : list A) :
  existsb (same x) l = negb (occurrences x l =? 0)%nat.
Proof.
  unfold occurrences. induction l as [|y l IH]; simpl; [reflexivity|].
  destruct (decide (y = x)) as [->|Hne].
  - replace (same x x) with true by (symmetry; apply same_eq; reflexivity).
    reflexivity.
  - destruct (same x y) eqn:Hs.
    + apply same_eq in Hs. congruence.
    + exact IH.
Qed.

Lemma occurrences_cons (x y : A) (l : list A) :
  occurrences x (y :: l)
  = if decide (y = x) then S (occurrences x l) else occurrences x l.
Proof. unfold occurrences. simpl. destruct (decide (y = x)); reflexivity. Qed.

(** What the loop returns, count by count: a record absent from [ys] is
    kept as often as it occurs in [xs]; a record present in [ys] is
    dropped, however often it occurs on either side. *)
Lemma not_found_in_occurrences (xs ys : list A) (x : A) :
  occurrences x (not_found_in same xs ys)
  = if (occurrences x ys =? 0)%nat then occurrences x xs else 0%nat.
Proof.
  unfold not_found_in.
  induction xs as [|y xs IH].
  - simpl. destruct (occurrences x ys =? 0)%nat; reflexivity.
  - cbn [List.filter]. rewrite existsb_same, negb_involutive.
    rewrite (occurrences_cons x y xs).
    destruct (occurrences y ys =? 0)%nat eqn:Hy.
    + rewrite occurrences_cons, IH.
      destruct (decide (y = x)) as [->|Hne]; [|reflexivity].
      rewrite Hy. reflexivity.
    + rewrite IH.
      destruct (decide (y = x)) as [->|Hne]; [|reflexivity].
      rewrite Hy. reflexivity.
Qed.
End DiffFacts.

Section DiffPermutation.
Context {A : Type} (same : A -> A -> bool).

Lemma existsb_permutation (p : A -> bool) (l l' : list A) :
  Permutation l l' -> existsb p l = existsb p l'.
Proof.
  induction 1; simpl; try congruence.
  destruct (p x), (p y); reflexivity.
Qed.

(** The order of the side searched does not matter at all. *)
Lemma not_found_in_perm_r (xs ys ys' : list A) :
  Permutation ys ys' -> not_found_in same xs ys = not_found_in same xs ys'.
Proof.
  intros Hp. unfold not_found_in. apply List.filter_ext. intros x.
  rewrite (existsb_permutation _ _ _ Hp). reflexivity.
Qed.

(** The order of the side walked is the order of the result. *)
Lemma not_found_in_perm_l (xs xs' ys : list A) :
  Permutation xs xs' ->
  Permutation (not_found_in same xs ys) (not_found_in same xs' ys).
Proof.
  unfold not_found_in.
  induction 1 as [|x l l' _ IH|x y l|l l' l'' _ IH1 _ IH2]; simpl.
  - reflexivity.
  - destruct (negb _); [apply perm_skip|]; exact IH.
  - destruct (negb (existsb (same x) ys)), (negb (existsb (same y) ys));
      try reflexivity.
    apply perm_swap.
  - etransitivity; eassumption.
Qed.
End DiffPermutation.

Lemma MX_same_eq (x y : MX.MXRecord) : MX.same x y = true <-> x = y.
Proof.
  unfold MX.same. destruct x as [p s], y as [p' s']; simpl.
  rewrite andb_true_iff, Z.eqb_eq, String.eqb_eq.
  split; [intros [-> ->]; reflexivity | intros [= -> ->]; split; reflexivity].
Qed.

Lemma NS_same_eq (x y : NS.NSRecord) : NS.same x y = true <-> x = y.
Proof.
  unfold NS.same. destruct x as [p s], y as [p' s']; simpl.
  rewrite andb_true_iff, Z.eqb_eq, String.eqb_eq.
  split; [intros [-> ->]; reflexivity | intros [= -> ->]; split; reflexivity].
Qed.

Lemma sort_Strings_occurrences (x : string) (l : list string) :
  occurrences x (sort_Strings l) = occurrences x l.
Proof.
  unfold occurrences. apply Permutation_count_occ. apply sort_Slice_perm.
Qed.

(** ** C1: the update diff compares by presence, not by count *)

(** C1, as stated, fails: for old = [A, A, B] and new = [A, B, B] the
    specification expects toRemove = [A] and toAdd = [B].  The generic strategy (here for
    A records, A = 1.1.1.1, B = 2.2.2.2) and the NS strategy both compute
    two empty lists, although A occurs once more in old than in new. *)
Lemma C1_counterexample :
  Generic.recordsToRemove Generic.NewARecordStrategy
    ["1.1.1.1"; "1.1.1.1"; "2.2.2.2"] ["1.1.1.1"; "2.2.2.2"; "2.2.2.2"] = []
  /\ Generic.recordsToAdd Generic.NewARecordStrategy
       ["1.1.1.1"; "1.1.1.1"; "2.2.2.2"] ["1.1.1.1"; "2.2.2.2"; "2.2.2.2"] = []
  /\ (occurrences "1.1.1.1" ["1.1.1.1"; "2.2.2.2"; "2.2.2.2"]
      < occurrences "1.1.1.1" ["1.1.1.1"; "1.1.1.1"; "2.2.2.2"])%nat
  /\ NS.findRecordsToRemove
       [NS.mkNSRecord 10 "a"; NS.mkNSRecord 10 "a"; NS.mkNSRecord 10 "b"]
       [NS.mkNSRecord 10 "a"; NS.mkNSRecord 10 "b"; NS.mkNSRecord 10 "b"] = []
  /\ NS.findRecordsToAdd
       [NS.mkNSRecord 10 "a"; NS.mkNSRecord 10 "a"; NS.mkNSRecord 10 "b"]
       [NS.mkNSRecord 10 "a"; NS.mkNSRecord 10 "b"; NS.mkNSRecord 10 "b"] = [].
Proof. repeat split; vm_compute; try reflexivity; lia. Qed.

(** C1 (amended): for every pair of declared record lists, toRemove holds
    each old record whose key does not occur in new at all, as often as it
    occurs in old, and nothing else; toAdd is the same with the sides
    exchanged.  A key that occurs on both sides is neither removed nor
    added, whatever its two counts.  This holds for the generic strategy
    (on the preprocessed values) and for the NS and MX strategies; for
    old = [A, A, B] and new = [A, B, B] both lists are empty. *)
Theorem C1_diff_by_presence :
  (forall (s : Generic.GenericRecordStrategy) (old new : list string) (x : string),
     occurrences x (Generic.recordsToRemove s old new)
     = (if (occurrences x (map (Generic.preprocessor s) new) =? 0)%nat
        then occurrences x (map (Generic.preprocessor s) old) else 0%nat)
     /\ occurrences x (Generic.recordsToAdd s old new)
        = (if (occurrences x (map (Generic.preprocessor s) old) =? 0)%nat
           then occurrences x (map (Generic.preprocessor s) new) else 0%nat))
  /\ (forall (old new : list NS.NSRecord) (x : NS.NSRecord),
        occurrences x (NS.findRecordsToRemove old new)
        = (if (occurrences x new =? 0)%nat then occurrences x old else 0%nat)
        /\ occurrences x (NS.findRecordsToAdd old new)
           = (if (occurrences x old =? 0)%nat then occurrences x new else 0%nat))
  /\ (forall (old new : list MX.MXRecord) (x : MX.MXRecord),
        occurrences x (MX.findRecordsToRemove old new)
        = (if (occurrences x new =? 0)%nat then occurrences x old else 0%nat)
        /\ occurrences x (MX.findRecordsToAdd old new)
           = (if (occurrences x old =? 0)%nat then occurrences x new else 0%nat))
  /\ Generic.recordsToRemove Generic.NewARecordStrategy
       ["1.1.1.1"; "1.1.1.1"; "2.2.2.2"] ["1.1.1.1"; "2.2.2.2"; "2.2.2.2"] = []
  /\ Generic.recordsToAdd Generic.NewARecordStrategy
       ["1.1.1.1"; "1.1.1.1"; "2.2.2.2"] ["1.1.1.1"; "2.2.2.2"; "2.2.2.2"] = [].
Proof.
  split; [|split; [|split; [|split]]].
  - intros s old new x.
    unfold Generic.recordsToRemove, Generic.recordsToAdd.
    rewrite !(not_found_in_occurrences String.eqb String.eqb_eq).
    rewrite !sort_Strings_occurrences. split; reflexivity.
  - intros old new x. unfold NS.findRecordsToRemove, NS.findRecordsToAdd.
    rewrite !(not_found_in_occurrences NS.same NS_same_eq).
    split; reflexivity.
  - intros old new x. unfold MX.findRecordsToRemove, MX.findRecordsToAdd.
    rewrite !(not_found_in_occurrences MX.same MX_same_eq).
    split; reflexivity.
  - vm_compute. reflexivity.
  - vm_compute. reflexivity.
Qed.

(** ** The SRV key determines the record *)

Lemma Contains_pretty_N_go (x : N) (s : string) :
  Contains (pretty_N_go x s) "_" = Contains s "_".
Proof.
  revert s. induction (N.lt_wf_0 x) as [x _ IH]. intros s.
  destruct (decide (0 < x)%N) as [Hpos|Hz].
  - rewrite pretty_N_go_step by exact Hpos.
    rewrite IH by (apply N.div_lt; lia).
    cbn [Contains].
    replace (Ascii.eqb (pretty_N_char (x `mod` 10)) "_") with false;
      [reflexivity|].
    unfold pretty_N_char. repeat case_match; reflexivity.
  - replace x with 0%N by lia. reflexivity.
Qed.

Lemma Contains_Itoa (z : Z) : Contains (Itoa z) "_" = false.
Proof.
  assert (HN : forall n : N, Contains (pretty n) "_" = false).
  { intros n. unfold pretty, pretty_N. case_decide; [reflexivity|].
    apply Contains_pretty_N_go. }
  unfold Itoa, pretty, pretty_Z. destruct z as [|p|p].
  - reflexivity.
  - apply (HN (Npos p)).
  - cbn [String.app Contains]. apply (HN (Npos p)).
Qed.

Lemma app_sep_inj (c : ascii) (a b x y : string) :
  Contains a c = false -> Contains b c = false ->
  a +:+ String c x = b +:+ String c y -> a = b /\ x = y.
Proof.
  revert b. induction a as [|a0 a IH]; intros [|b0 b]; simpl.
  - intros _ _ [= ->]. split; reflexivity.
  - intros _ Hb [= <- _]. rewrite Ascii.eqb_refl in Hb. discriminate.
  - intros Ha _ [= -> _]. rewrite Ascii.eqb_refl in Ha. discriminate.
  - intros Ha Hb [= -> Hrest].
    apply orb_false_iff in Ha as [_ Ha]. apply orb_false_iff in Hb as [_ Hb].
    destruct (IH b Ha Hb Hrest) as [-> ->]. split; reflexivity.
Qed.

Lemma SRVRecord_String_inj (a b : SRV.SRVRecord) :
  SRV.SRVRecord_String a = SRV.SRVRecord_String b -> a = b.
Proof.
  destruct a as [p w q t], b as [p' w' q' t'].
  unfold SRV.SRVRecord_String. cbn [SRV.Priority SRV.Weight SRV.Port SRV.Target].
  intros H.
  apply app_sep_inj in H as [Hp H]; try apply Contains_Itoa.
  apply app_sep_inj in H as [Hw H]; try apply Contains_Itoa.
  apply app_sep_inj in H as [Hq H]; try apply Contains_Itoa.
  apply (inj pretty) in Hp, Hw, Hq. congruence.
Qed.

Lemma SRV_same_eq (x y : SRV.SRVRecord) : SRV.same x y = true <-> x = y.
Proof.
  unfold SRV.same. rewrite String.eqb_eq. split.
  - apply SRVRecord_String_inj.
  - intros ->. reflexivity.
Qed.

Lemma SRV_sort_records_permutation (l l' : list SRV.SRVRecord) :
  Permutation l l' -> SRV.sort_records l = SRV.sort_records l'.
Proof.
  apply sort_Slice_permutation.
  - intros x y. apply ltb_asym.
  - intros x y z. apply ltb_trans.
  - intros x y Hxy Hyx. apply SRVRecord_String_inj.
    apply ltb_total; assumption.
Qed.

(** ** C8: what a reordering of the declared records changes *)

(** C8, as stated, fails: the MX strategy does not sort before diffing, so
    the two orders of the servers b and a of one priority tier give the two
    removals in two different orders. *)
Lemma C8_counterexample :
  Permutation
    (MX.parseRecordsFromState [{| priority := 10; servers := ["b"; "a"] |}])
    (MX.parseRecordsFromState [{| priority := 10; servers := ["a"; "b"] |}])
  /\ MX.findRecordsToRemove
       (MX.parseRecordsFromState [{| priority := 10; servers := ["b"; "a"] |}]) []
     = [MX.mkMXRecord 10 "b"; MX.mkMXRecord 10 "a"]
  /\ MX.findRecordsToRemove
       (MX.parseRecordsFromState [{| priority := 10; servers := ["a"; "b"] |}]) []
     = [MX.mkMXRecord 10 "a"; MX.mkMXRecord 10 "b"]
  /\ MX.findRecordsToRemove
       (MX.parseRecordsFromState [{| priority := 10; servers := ["b"; "a"] |}]) []
     <> MX.findRecordsToRemove
          (MX.parseRecordsFromState [{| priority := 10; servers := ["a"; "b"] |}]) [].
Proof.
  split; [apply perm_swap|].
  split; [reflexivity|]. split; [reflexivity|].
  vm_compute. discriminate.
Qed.

(** C8 (amended): the generic strategy (A, AAAA, TXT) and the SRV strategy
    sort both sides by key before diffing, so every permutation of either
    side gives the same toRemove and toAdd, order included.  The MX and NS
    strategies do not sort: permuting the side that is searched changes
    nothing, and permuting the side that is walked permutes the output in
    the same way (same records, same multiplicities, input order). *)
Theorem C8_order_independence :
  (forall (s : Generic.GenericRecordStrategy) (old old' new new' : list string),
     Permutation old old' -> Permutation new new' ->
     Generic.recordsToRemove s old' new' = Generic.recordsToRemove s old new
     /\ Generic.recordsToAdd s old' new' = Generic.recordsToAdd s old new)
  /\ (forall old old' new new' : list SRV.SRVRecord,
        Permutation old old' -> Permutation new new' ->
        SRV.recordsToRemove old' new' = SRV.recordsToRemove old new
        /\ SRV.recordsToAdd old' new' = SRV.recordsToAdd old new)
  /\ (forall old old' new new' : list MX.MXRecord,
        Permutation old old' -> Permutation new new' ->
        Permutation (MX.findRecordsToRemove old' new') (MX.findRecordsToRemove old new)
        /\ Permutation (MX.findRecordsToAdd old' new') (MX.findRecordsToAdd old new)
        /\ MX.findRecordsToRemove old new' = MX.findRecordsToRemove old new
        /\ MX.findRecordsToAdd old' new = MX.findRecordsToAdd old new)
  /\ (forall old old' new new' : list NS.NSRecord,
        Permutation old old' -> Permutation new new' ->
        Permutation (NS.findRecordsToRemove old' new') (NS.findRecordsToRemove old new)
        /\ Permutation (NS.findRecordsToAdd old' new') (NS.findRecordsToAdd old new)
        /\ NS.findRecordsToRemove old new' = NS.findRecordsToRemove old new
        /\ NS.findRecordsToAdd old' new = NS.findRecordsToAdd old new).
Proof.
  split; [|split; [|split]].
  - intros s old old' new new' Ho Hn.
    unfold Generic.recordsToRemove, Generic.recordsToAdd.
    rewrite (sort_Strings_permutation _ _ (Permutation_map (Generic.preprocessor s) Ho)).
    rewrite (sort_Strings_permutation _ _ (Permutation_map (Generic.preprocessor s) Hn)).
    split; reflexivity.
  - intros old old' new new' Ho Hn.
    unfold SRV.recordsToRemove, SRV.recordsToAdd.
    rewrite (SRV_sort_records_permutation _ _ Ho).
    rewrite (SRV_sort_records_permutation _ _ Hn).
    split; reflexivity.
  - intros old old' new new' Ho Hn.
    unfold MX.findRecordsToRemove, MX.findRecordsToAdd.
    repeat split.
    + rewrite <- (not_found_in_perm_r MX.same old' new new' Hn).
      symmetry. apply not_found_in_perm_l. exact Ho.
    + rewrite <- (not_found_in_perm_r MX.same new' old old' Ho).
      symmetry. apply not_found_in_perm_l. exact Hn.
    + symmetry. apply not_found_in_perm_r. exact Hn.
    + symmetry. apply not_found_in_perm_r. exact Ho.
  - intros old old' new new' Ho Hn.
    unfold NS.findRecordsToRemove, NS.findRecordsToAdd.
    repeat split.
    + rewrite <- (not_found_in_perm_r NS.same old' new new' Hn).
      symmetry. apply not_found_in_perm_l. exact Ho.
    + rewrite <- (not_found_in_perm_r NS.same new' old old' Ho).
      symmetry. apply not_found_in_perm_l. exact Hn.
    + symmetry. apply not_found_in_perm_r. exact Hn.
    + symmetry. apply not_found_in_perm_r. exact Ho.
Qed.

(** C8, at a concrete input: three A records declared in two orders, and
    two SRV targets declared in two orders. *)
Lemma C8_order_independence_witness :
  Generic.recordsToRemove Generic.NewARecordStrategy
    ["2.2.2.2"; "1.1.1.1"; "3.3.3.3"] ["4.4.4.4"; "1.1.1.1"]
  = Generic.recordsToRemove Generic.NewARecordStrategy
      ["1.1.1.1"; "2.2.2.2"; "3.3.3.3"] ["1.1.1.1"; "4.4.4.4"]
  /\ SRV.recordsToAdd
       [SRV.mkSRVRecord 10 5 5269 "b"; SRV.mkSRVRecord 10 5 5269 "a"] []
     = SRV.recordsToAdd
         [SRV.mkSRVRecord 10 5 5269 "a"; SRV.mkSRVRecord 10 5 5269 "b"] [].
Proof.
  split.
  - apply (proj1 C8_order_independence Generic.NewARecordStrategy
             ["1.1.1.1"; "2.2.2.2"; "3.3.3.3"] ["2.2.2.2"; "1.1.1.1"; "3.3.3.3"]
             ["1.1.1.1"; "4.4.4.4"] ["4.4.4.4"; "1.1.1.1"]).
    + apply perm_swap.
    + apply perm_swap.
  - apply (proj1 (proj2 C8_order_independence)
             [SRV.mkSRVRecord 10 5 5269 "a"; SRV.mkSRVRecord 10 5 5269 "b"]
             [SRV.mkSRVRecord 10 5 5269 "b"; SRV.mkSRVRecord 10 5 5269 "a"]
             [] []).
    + apply perm_swap.
    + apply perm_nil.
Defined.

(** ** C6: the zone cache *)

Lemma time_Since_gt_TTL (now t : Z) :
  (30 * Second <? time_Since now t) = (30 * Second <? now - t).
Proof.
  unfold time_Since, time_Sub, maxDuration, minDuration, Second.
  destruct (2 ^ 63 - 1 <? now - t) eqn:H1.
  - apply Z.ltb_lt in H1. symmetry.
    transitivity true; [apply Z.ltb_lt; lia | symmetry; apply Z.ltb_lt; lia].
  - destruct (now - t <? - 2 ^ 63) eqn:H2; [|reflexivity].
    apply Z.ltb_lt in H2.
    transitivity false; [apply Z.ltb_ge; lia | symmetry; apply Z.ltb_ge; lia].
Qed.

(** C6: for every cache, zone and data, [Get] after [Set] returns the data
    and a hit while less than the 30-second TTL has elapsed since the
    [Set]; once more than the TTL has elapsed it returns a miss and deletes
    the entry; and after [Invalidate] it returns a miss. *)
Theorem C6_cache_get_after_set
    (zc : gmap string ZoneCacheEntry) (zone data : string) (t0 t1 : Z) :
  ZoneCache.Set_ t0 zone data zc !! zone
  = Some {| Data := data; Timestamp := t0; TTL := 30000000000 |}
  /\ (t1 - t0 < 30 * Second ->
      ZoneCache.Get t1 zone (ZoneCache.Set_ t0 zone data zc)
      = ((data, true), ZoneCache.Set_ t0 zone data zc))
  /\ (30 * Second < t1 - t0 ->
      fst (ZoneCache.Get t1 zone (ZoneCache.Set_ t0 zone data zc))
      = (EmptyString, false)
      /\ snd (ZoneCache.Get t1 zone (ZoneCache.Set_ t0 zone data zc)) !! zone
         = None)
  /\ fst (ZoneCache.Get t1 zone
            (ZoneCache.Invalidate zone (ZoneCache.Set_ t0 zone data zc)))
     = (EmptyString, false).
Proof.
  split; [unfold ZoneCache.Set_; rewrite lookup_insert_eq; reflexivity|].
  split; [|split].
  - intros Hlt. unfold ZoneCache.Get, ZoneCache.Set_.
    rewrite lookup_insert_eq. cbn [TTL Timestamp Data].
    rewrite time_Since_gt_TTL.
    replace (30 * Second <? t1 - t0) with false; [reflexivity|].
    symmetry. apply Z.ltb_ge. lia.
  - intros Hgt. unfold ZoneCache.Get, ZoneCache.Set_.
    rewrite lookup_insert_eq. cbn [TTL Timestamp Data].
    rewrite time_Since_gt_TTL.
    replace (30 * Second <? t1 - t0) with true by (symmetry; apply Z.ltb_lt; lia).
    cbn [fst snd]. split; [reflexivity|]. apply lookup_delete_eq.
  - unfold ZoneCache.Get, ZoneCache.Invalidate.
    rewrite lookup_delete_eq. reflexivity.
Qed.

(** C6, at a concrete input: a read 5 s after the write hits, a read 31 s
    after it misses and evicts. *)
Lemma C6_cache_get_after_set_witness :
  ZoneCache.Get (5 * Second) "example.com"
    (ZoneCache.Set_ 0 "example.com" "zone data" ∅)
  = (("zone data", true), ZoneCache.Set_ 0 "example.com" "zone data" ∅)
  /\ fst (ZoneCache.Get (31 * Second) "example.com"
            (ZoneCache.Set_ 0 "example.com" "zone data" ∅))
     = (EmptyString, false).
Proof.
  destruct (C6_cache_get_after_set ∅ "example.com" "zone data" 0 (5 * Second))
    as (_ & Hhit & _ & _).
  destruct (C6_cache_get_after_set ∅ "example.com" "zone data" 0 (31 * Second))
    as (_ & _ & Hmiss & _).
  split.
  - apply Hhit. unfold Second. lia.
  - apply Hmiss. unfold Second. lia.
Defined.

(** At exactly the TTL the entry is still served: the test is [>]. *)
Lemma cache_hit_at_ttl (zc : gmap string ZoneCacheEntry) (zone data : string) (t0 : Z) :
  ZoneCache.Get (t0 + 30 * Second) zone (ZoneCache.Set_ t0 zone data zc)
  = ((data, true), ZoneCache.Set_ t0 zone data zc).
Proof.
  unfold ZoneCache.Get, ZoneCache.Set_.
  rewrite lookup_insert_eq. cbn [TTL Timestamp Data].
  rewrite time_Since_gt_TTL.
  replace (30 * Second <? t0 + 30 * Second - t0) with false; [reflexivity|].
  symmetry. apply Z.ltb_ge. lia.
Qed.

(** Entries of other zones are untouched by [Set], [Get] and [Invalidate]. *)
Lemma cache_other_zone (zc : gmap string ZoneCacheEntry)
    (zone other data : string) (t : Z) :
  zone <> other ->
  ZoneCache.Set_ t zone data zc !! other = zc !! other
  /\ snd (ZoneCache.Get t zone zc) !! other = zc !! other
  /\ ZoneCache.Invalidate zone zc !! other = zc !! other.
Proof.
  intros Hne. unfold ZoneCache.Set_, ZoneCache.Get, ZoneCache.Invalidate.
  split; [apply lookup_insert_ne; exact Hne|]. split.
  - destruct (zc !! zone) as [entry|]; [|reflexivity].
    destruct (TTL entry <? _); [|reflexivity].
    apply lookup_delete_ne. exact Hne.
  - apply lookup_delete_ne. exact Hne.
Qed.

(** ** C9: resource and import identifiers *)

Lemma Split_length (s : string) (sep : ascii) :
  length (Split s sep) = S (count_byte sep s).
Proof.
  induction s as [|a s IH]; simpl; [reflexivity|].
  destruct (Ascii.eqb a sep); simpl; [rewrite IH; reflexivity|].
  destruct (Split s sep) as [|p ps]; simpl in *; [discriminate|exact IH].
Qed.

Lemma Split_Join (s : string) (sep : ascii) :
  Join (Split s sep) (String sep EmptyString) = s.
Proof.
  unfold Join. induction s as [|a s IH]; [reflexivity|].
  pose proof (Split_length s sep) as Hl.
  cbn [Split]. destruct (Ascii.eqb a sep) eqn:Ha.
  - apply Ascii.eqb_eq in Ha. subst a.
    destruct (Split s sep) as [|p ps]; [discriminate|].
    change (String.concat (String sep EmptyString) (EmptyString :: p :: ps))
      with (String sep (String.concat (String sep EmptyString) (p :: ps))).
    rewrite IH. reflexivity.
  - destruct (Split s sep) as [|p ps]; [discriminate|].
    destruct ps as [|q qs].
    + cbn [String.concat] in *. rewrite IH. reflexivity.
    + change (String.concat (String sep EmptyString) (String a p :: q :: qs))
        with (String a (String.concat (String sep EmptyString) (p :: q :: qs))).
      rewrite IH. reflexivity.
Qed.

Lemma Split_parts_clean (s : string) (sep : ascii) (p : string) :
  In p (Split s sep) -> Contains p sep = false.
Proof.
  revert p. induction s as [|a s IH]; simpl; intros p.
  - intros [<-|[]]. reflexivity.
  - destruct (Ascii.eqb a sep) eqn:Ha.
    + intros [<-|Hin]; [reflexivity|]. apply IH. exact Hin.
    + pose proof (Split_length s sep) as Hl.
      destruct (Split s sep) as [|q qs]; [discriminate|].
      intros [<-|Hin].
      * simpl. rewrite Ha. apply IH. left. reflexivity.
      * apply IH. right. exact Hin.
Qed.

Lemma ParseResourceID_ok (id zone name : string) :
  ParseResourceID id = (zone, name, None) <-> Split id "/" = [zone; name].
Proof.
  unfold ParseResourceID. split.
  - destruct (Split id "/") as [|a [|b [|c l]]]; simpl; try discriminate.
    intros [= -> ->]. reflexivity.
  - intros ->. reflexivity.
Qed.

Lemma ParseResourceID_err (id : string) :
  length (Split id "/") <> 2%nat ->
  ParseResourceID id
  = (EmptyString, EmptyString, Some ("invalid resource ID format: " +:+ id)).
Proof.
  unfold ParseResourceID. intros Hlen.
  destruct (length (Split id "/") =? 2)%nat eqn:Hc; [|reflexivity].
  apply Nat.eqb_eq in Hc. contradiction.
Qed.

(** C9: parsing an identifier succeeds, yielding (zone, name), exactly when
    splitting it on the slash gives two parts, that is when it holds
    exactly one slash; then the identifier is zone, slash, name.  For every
    other identifier parsing returns an error, and [Import] of each of the
    six strategies returns that error with the resource data and the
    process state unchanged: nothing is read and nothing is requested. *)
Theorem C9_identifier_two_parts (id : string) :
  (forall zone name,
     ParseResourceID id = (zone, name, None) <-> Split id "/" = [zone; name])
  /\ (length (Split id "/") = 2%nat <-> count_byte "/" id = 1%nat)
  /\ (length (Split id "/") = 2%nat ->
      exists zone name,
        ParseResourceID id = (zone, name, None)
        /\ id = zone +:+ "/" +:+ name
        /\ Contains zone "/" = false /\ Contains name "/" = false)
  /\ (length (Split id "/") <> 2%nat ->
      ParseResourceID id
      = (EmptyString, EmptyString, Some ("invalid resource ID format: " +:+ id))
      /\ (forall T (Read : ResourceData T -> M (error * ResourceData T))
                 (d : ResourceData T) (w : World),
            Id d = id ->
            Import_with Read d w
            = ((Some ("invalid resource ID format: " +:+ id), d), w))
      /\ (forall (E : Env) (c : Client) (w : World),
            (forall s d, Id d = id ->
               Generic.Import s c d w
               = ((Some ("invalid resource ID format: " +:+ id), d), w))
            /\ (forall d, Id d = id ->
                  MX.Import c d w
                  = ((Some ("invalid resource ID format: " +:+ id), d), w))
            /\ (forall d, Id d = id ->
                  NS.Import c d w
                  = ((Some ("invalid resource ID format: " +:+ id), d), w))
            /\ (forall d, Id d = id ->
                  CNAME.Import c d w
                  = ((Some ("invalid resource ID format: " +:+ id), d), w))
            /\ (forall d, Id d = id ->
                  SRV.Import c d w
                  = ((Some ("invalid resource ID format: " +:+ id), d), w))
            /\ (forall d, Id d = id ->
                  CAA.Import c d w
                  = ((Some ("invalid resource ID format: " +:+ id), d), w)))).
Proof.
  split; [intros; apply ParseResourceID_ok|].
  split; [rewrite Split_length; lia|].
  split.
  - intros Hlen. pose proof (Split_Join id "/") as Hj.
    pose proof (Split_parts_clean id "/") as Hc.
    destruct (Split id "/") as [|zone [|name [|x l]]] eqn:Hs; try discriminate.
    exists zone, name. split; [apply ParseResourceID_ok; exact Hs|].
    split; [symmetry; exact Hj|].
    split; apply Hc; simpl; auto.
  - intros Hlen.
    assert (Himp : forall T (Read : ResourceData T -> M (error * ResourceData T))
                     (d : ResourceData T) (w : World),
               Id d = id ->
               Import_with Read d w
               = ((Some ("invalid resource ID format: " +:+ id), d), w)).
    { intros T Read d w Hid. unfold Import_with.
      rewrite Hid, (ParseResourceID_err id Hlen). reflexivity. }
    split; [apply ParseResourceID_err; exact Hlen|].
    split; [exact Himp|].
    intros E c w. repeat split; intros; apply Himp; assumption.
Qed.

(** C9, at concrete inputs: [example.com/www] parses; [example.com] and
    [example.com/@/CAA] do not, and importing them fails without a read. *)
Lemma C9_identifier_two_parts_witness :
  ParseResourceID "example.com/www" = ("example.com", "www", None)
  /\ ParseResourceID "example.com/@/CAA"
     = (EmptyString, EmptyString,
        Some "invalid resource ID format: example.com/@/CAA")
  /\ CAA.Import (E := Sample.env Sample.success_body) Sample.client
       (Sample.data "example.com/@/CAA" EmptyString EmptyString [] [])
       Sample.fresh
     = ((Some "invalid resource ID format: example.com/@/CAA",
         Sample.data "example.com/@/CAA" EmptyString EmptyString [] []),
        Sample.fresh)
  /\ snd (ParseResourceID "example.com") <> None.
Proof.
  destruct (C9_identifier_two_parts "example.com/www") as (Hok & _ & _ & _).
  destruct (C9_identifier_two_parts "example.com/@/CAA") as (_ & _ & _ & Hbad).
  destruct (C9_identifier_two_parts "example.com") as (_ & _ & _ & Hnone).
  split; [apply Hok; reflexivity|].
  destruct Hbad as (Herr & _ & Himp); [simpl; lia|].
  split; [exact Herr|].
  split.
  - apply (Himp (Sample.env Sample.success_body) Sample.client Sample.fresh).
    reflexivity.
  - destruct Hnone as (Herr1 & _); [simpl; lia|]. rewrite Herr1. simpl. congruence.
Defined.

(** ** C10: a response that cannot be decoded *)

(** C10: for every response text that [json.Unmarshal] cannot decode into
    the error-response shape, [CheckAPIResponseForErrors] returns no error;
    a write call whose response cannot be decoded therefore counts as a
    success. *)
Theorem C10_unparseable_is_no_error `{E : Env} (response : string) :
  json_APIErrorResponse response = None ->
  CheckAPIResponseForErrors response = None
  /\ (forall (call : M (string * error)) (context : string) (w w' : World),
        call w = ((response, None), w') ->
        checked call context w = (None, w')).
Proof.
  intros Hdec.
  assert (Hcheck : CheckAPIResponseForErrors response = None).
  { unfold CheckAPIResponseForErrors. rewrite Hdec. reflexivity. }
  split; [exact Hcheck|].
  intros call context w w' Hcall. unfold checked, bind.
  rewrite Hcall, Hcheck. reflexivity.
Qed.

(** C10, at a concrete input: the HTML page of a gateway error. *)
Lemma C10_unparseable_is_no_error_witness :
  CheckAPIResponseForErrors (E := Sample.env Sample.success_body)
    Sample.gateway_body = None.
Proof.
  apply (C10_unparseable_is_no_error (E := Sample.env Sample.success_body)
           Sample.gateway_body).
  reflexivity.
Defined.

(** ** C7: a CAA record without structured flag and tag *)


(** The other paths of the same loop body: structured fields win when the
    tag is set; a trailing dot of the value is dropped; the fields of a
    quoted value are joined again with single spaces, so a run of white
    space inside the quotes comes back as one space; a content of fewer
    than three fields is taken whole as the value. *)
Example CAA_fromWire_examples :
  CAA.fromWire (base.mkDNSRecord "@" "CAA" "letsencrypt.org" 0 "A" 0 0 0 "issue")
  = CAA.mkCAARecord 0 "issue" "letsencrypt.org"
  /\ CAA.fromWire
       (base.mkDNSRecord "@" "CAA" "128 issue letsencrypt.org." 0 "A" 0 0 0
          EmptyString)
     = CAA.mkCAARecord 128 "issue" "letsencrypt.org"
  /\ CAA.fromWire
       (base.mkDNSRecord "@" "CAA" ("0 iodef " +:+ quoted "mailto:a  b") 0 "A"
          0 0 0 EmptyString)
     = CAA.mkCAARecord 0 "iodef" "mailto:a b"
  /\ CAA.fromWire
       (base.mkDNSRecord "@" "CAA" "letsencrypt.org" 0 "A" 0 0 0 EmptyString)
     = CAA.mkCAARecord 0 EmptyString "letsencrypt.org".
Proof. repeat split; reflexivity. Qed.


(** ** Runs only append to the trace *)



Lemma doRequest_world `{E : Env} (c : Client) (endpoint : string) (params : Values)
    (w : World) :
  snd (doRequest c endpoint params w)
  = snd (emit (EvPost (BaseURL c +:+ "/" +:+ endpoint)
                 (params ++ [("username", Username c); ("password", Password c)])%list) w).
Proof.
  unfold doRequest. destruct (http_post _ _ _); [destruct (body_error _)|..];
    reflexivity.
Qed.



Lemma checked_world `{E : Env} (call : M (string * error)) (context : string)
    (w : World) :
  snd (checked call context w) = snd (call w).
Proof.
  unfold checked, bind. destruct (call w) as [[response [e|]] w']; [reflexivity|].
  destruct (CheckAPIResponseForErrors response); reflexivity.
Qed.




Lemma cache_Get_trace `{E : Env} (zone : string) (w : World) :
  trace (snd (cache_Get zone w)) = trace w.
Proof.
  unfold cache_Get. destruct (cache w !! zone); [|reflexivity].
  unfold tick. destruct (ZoneCache.Get _ _ _). reflexivity.
Qed.

Lemma cache_Set_trace `{E : Env} (zone data : string) (w : World) :
  trace (snd (cache_Set zone data w)) = trace w.
Proof. reflexivity. Qed.

Lemma GetRecords_trace `{E : Env} (c : Client) (zone : string) (w : World) :
  trace (snd (GetRecords c zone w)) = (trace w ++ [zone_read c zone])%list.
Proof. unfold GetRecords. rewrite doRequest_world. reflexivity. Qed.

Lemma GetRecordsWithCache_trace `{E : Env} (c : Client) (zone : string) (w : World) :
  trace (snd (GetRecordsWithCache c zone w)) = trace w
  \/ trace (snd (GetRecordsWithCache c zone w))
     = (trace w ++ [zone_read c zone])%list.
Proof.
  unfold GetRecordsWithCache, bind.
  pose proof (cache_Get_trace zone w) as Hg.
  destruct (cache_Get zone w) as [[cached [|]] w1]; cbn [snd] in Hg.
  - left. exact Hg.
  - right. pose proof (GetRecords_trace c zone w1) as Hr.
    destruct (GetRecords c zone w1) as [[data [e|]] w2]; cbn [snd] in *.
    + unfold ret. cbn [snd]. rewrite Hr, Hg. reflexivity.
    + unfold cache_Set, tick, ret. cbn [snd fst trace]. rewrite Hr, Hg. reflexivity.
Qed.

Lemma GetRecordsWithCache_reads `{E : Env} (c : Client) (zone : string) :
  only_reads c zone (GetRecordsWithCache c zone).
Proof.
  intros w. destruct (GetRecordsWithCache_trace c zone w) as [H|H].
  - exists []. rewrite app_nil_r. split; [exact H|constructor].
  - exists [zone_read c zone]. split; [exact H|].
    constructor; [reflexivity|constructor].
Qed.

Lemma only_reads_ret {A} (c : Client) (zone : string) (a : A) :
  only_reads c zone (ret a).
Proof. intros w. exists []. simpl. rewrite app_nil_r. split; [reflexivity|constructor]. Qed.

Lemma only_reads_bind {A B} (c : Client) (zone : string) (m : M A) (f : A -> M B) :
  only_reads c zone m -> (forall a, only_reads c zone (f a)) ->
  only_reads c zone (bind m f).
Proof.
  intros Hm Hf w. unfold bind. destruct (Hm w) as (evs1 & H1 & F1).
  destruct (m w) as [a w1]. destruct (Hf a w1) as (evs2 & H2 & F2).
  exists (evs1 ++ evs2)%list. simpl in *. split.
  - rewrite H2, H1, app_assoc. reflexivity.
  - apply Forall_app. split; assumption.
Qed.


(** Every [Read] appends nothing but reads of its zone. *)
Ltac reads_tac :=
  repeat first
    [ apply only_reads_ret
    | apply GetRecordsWithCache_reads
    | apply only_reads_bind; [|intros]
    | match goal with
      | |- only_reads _ _ (match ?x with _ => _ end) => destruct x
      | |- only_reads _ _ (let (_, _) := ?x in _) => destruct x
      | |- only_reads _ _ (if ?x then _ else _) => destruct x
      end ].

Lemma Generic_Read_reads `{E : Env} s c (d : ResourceData (list string)) :
  only_reads c (zone d) (Generic.Read s c d).
Proof. unfold Generic.Read, GetZone. reads_tac. Qed.

Lemma SRV_Read_reads `{E : Env} c (d : ResourceData (list SRV.Block)) :
  only_reads c (zone d) (SRV.Read c d).
Proof. unfold SRV.Read, GetZone. reads_tac. Qed.

Lemma CAA_Read_reads `{E : Env} c (d : ResourceData (list CAA.CAARecord)) :
  only_reads c (zone d) (CAA.Read c d).
Proof. unfold CAA.Read, GetZone. reads_tac. Qed.

(** ** Operations that invalidate *)






(** The per-operation facts behind C3: each operation below, when it
    returns without error, has invalidated the cache of its zone. *)
Section InvalidationFacts.
Context `{E : Env} (c : Client).















End InvalidationFacts.

(** ** The creates that read back instead of invalidating *)

Lemma only_posts_ret {A} (a : A) : only_posts (ret a).
Proof. intros w. exists []. simpl. rewrite app_nil_r. split; reflexivity. Qed.

Lemma only_posts_bind {A B} (m : M A) (f : A -> M B) :
  only_posts m -> (forall a, only_posts (f a)) -> only_posts (bind m f).
Proof.
  intros Hm Hf w. unfold bind. destruct (Hm w) as (evs1 & H1 & F1).
  destruct (m w) as [a w1]. destruct (Hf a w1) as (evs2 & H2 & F2).
  exists (evs1 ++ evs2)%list. simpl in *. split.
  - rewrite H2, H1, app_assoc. reflexivity.
  - rewrite forallb_app, F1, F2. reflexivity.
Qed.

Lemma only_posts_doRequest `{E : Env} (c : Client) (endpoint : string)
    (params : Values) :
  only_posts (doRequest c endpoint params).
Proof.
  intros w. rewrite doRequest_world. eexists. split; reflexivity.
Qed.

Lemma only_posts_AddRecord `{E : Env} (c : Client)
    (recordType domainName subdomain value : string) (priority : option Z) :
  only_posts (AddRecord c recordType domainName subdomain value priority).
Proof.
  unfold AddRecord.
  repeat (destruct (String.eqb recordType _); [apply only_posts_doRequest|]).
  apply only_posts_doRequest.
Qed.

Lemma only_posts_checked `{E : Env} (call : M (string * error)) (context : string) :
  only_posts call -> only_posts (checked call context).
Proof. intros H w. rewrite checked_world. apply H. Qed.

Lemma only_posts_for_range `{E : Env} {A} (body : A -> M error) (l : list A) :
  (forall x, only_posts (body x)) -> only_posts (for_range body l).
Proof.
  intros Hb. induction l as [|x l IH]; cbn [for_range].
  - apply only_posts_ret.
  - apply only_posts_bind; [apply Hb|]. intros [e|]; [apply only_posts_ret|exact IH].
Qed.

Lemma only_reads_posts {A} (c : Client) (zone : string) (m : M A) :
  only_reads c zone m -> only_posts m.
Proof.
  intros H w. destruct (H w) as (evs & Ht & F). exists evs. split; [exact Ht|].
  apply forallb_forall. intros ev Hin.
  rewrite List.Forall_forall in F. rewrite (F ev Hin). reflexivity.
Qed.

Ltac posts_with read_lemma :=
  repeat first
    [ apply only_posts_ret
    | eapply only_reads_posts; apply read_lemma
    | apply only_posts_AddRecord
    | apply only_posts_doRequest
    | apply only_posts_checked
    | apply only_posts_for_range; intros
    | apply only_posts_bind; [|intros]
    | match goal with
      | |- only_posts (match ?x with _ => _ end) => destruct x
      | |- only_posts (let (_, _) := ?x in _) => destruct x
      | |- only_posts (if ?x then _ else _) => destruct x
      end ].

(** [Create] of the generic, SRV and CAA strategies never invalidates the
    cache, on any run: it only sends requests. *)
Lemma Create_without_invalidation `{E : Env} (c : Client) :
  (forall s d, only_posts (Generic.Create s c d))
  /\ (forall d, only_posts (SRV.Create c d))
  /\ (forall d, only_posts (CAA.Create c d)).
Proof.
  split; [|split]; intros.
  - unfold Generic.Create.
    posts_with (Generic_Read_reads s c
                  (SetResourceID d (GetZone d) (GetName d) (Generic.recordType s))).
  - unfold SRV.Create.
    posts_with (SRV_Read_reads c (SetResourceID d (GetZone d) (GetName d) "SRV")).
  - unfold CAA.Create.
    posts_with (CAA_Read_reads c
                  (SetId d (GetZone d +:+ "/" +:+ GetName d +:+ "/" +:+ "CAA"))).
Qed.

(** ** C3: which operations invalidate the zone cache *)




(** ** C2: the MX update of servers a, b to a, c *)

Lemma for_range_one {A} (body : A -> M error) (x : A) (w : World) :
  for_range body [x] w = body x w.
Proof.
  cbn [for_range]. unfold bind. destruct (body x w) as [[e|] w']; reflexivity.
Qed.

Lemma MX_remove_one_world `{E : Env} (c : Client) (zone name : string)
    (record : MX.MXRecord) (w : World) :
  snd (MX.remove_one c zone name record w)
  = snd (RemoveRecord c zone name "MX" (AddTrailingDot (MX.Server record))
           (Some (MX.Priority record)) w).
Proof.
  unfold MX.remove_one, bind.
  destruct (RemoveRecord _ _ _ _ _ _ w) as [[response [e|]] w']; [reflexivity|].
  cbn [HandleAPIError]. destruct (CheckAPIResponseForErrors response); reflexivity.
Qed.

Lemma AddRecord_MX `{E : Env} (c : Client) (domainName subdomain value : string)
    (priority : option Z) :
  AddRecord c "MX" domainName subdomain value priority
  = doRequest c "zone/add_mx"
      ([("domain_name", domainName); ("subdomain", subdomain);
        ("output_content_type", "plain")]
       ++ ("mail_server", value) :: priority_param priority)%list.
Proof. reflexivity. Qed.

(** C2: for the MX update from one priority-10 group with servers a, b to
    one priority-10 group with servers a, c, the diff is one removal
    (b, 10) and one addition (c, 10).  Whatever the provider answers, the
    update issues these calls in this order and no other, stopping at the
    first failure; an update that returns without error has issued exactly
    the removal of b, the addition of c and the cache invalidation.  No call
    concerns the unchanged record (a, 10). *)
Theorem C2_mx_surgical_update `{E : Env} (c : Client)
    (d : ResourceData (list RecordBlock)) (w : World) :
  prior d = [{| priority := 10; servers := ["a"; "b"] |}] ->
  planned d = [{| priority := 10; servers := ["a"; "c"] |}] ->
  let remove_b :=
    EvPost (BaseURL c +:+ "/" +:+ "zone/remove_record")
      [("domain_name", zone d); ("subdomain", name d); ("record_type", "MX");
       ("content", "b."); ("output_content_type", "plain"); ("priority", "10");
       ("username", Username c); ("password", Password c)] in
  let add_c :=
    EvPost (BaseURL c +:+ "/" +:+ "zone/add_mx")
      [("domain_name", zone d); ("subdomain", name d);
       ("output_content_type", "plain"); ("mail_server", "c.");
       ("priority", "10");
       ("username", Username c); ("password", Password c)] in
  MX.findRecordsToRemove (MX.parseRecordsFromState (prior d))
    (MX.parseRecordsFromState (planned d)) = [MX.mkMXRecord 10 "b"]
  /\ MX.findRecordsToAdd (MX.parseRecordsFromState (prior d))
       (MX.parseRecordsFromState (planned d)) = [MX.mkMXRecord 10 "c"]
  /\ (exists n,
        trace (snd (MX.Update c d w))
        = (trace w ++ firstn n [remove_b; add_c; EvInvalidate (zone d)])%list)
  /\ (fst (fst (MX.Update c d w)) = None ->
      trace (snd (MX.Update c d w))
      = (trace w ++ [remove_b; add_c; EvInvalidate (zone d)])%list).
Proof.
  intros Hold Hnew remove_b add_c.
  rewrite Hold, Hnew.
  split; [reflexivity|]. split; [reflexivity|].
  destruct (MX.Update c d w) as [[err d'] w'] eqn:HU. cbn [fst snd].
  unfold MX.Update, GetChange in HU. rewrite Hold, Hnew in HU.
  change (MX.findRecordsToRemove _ _) with [MX.mkMXRecord 10 "b"] in HU.
  change (MX.findRecordsToAdd _ _) with [MX.mkMXRecord 10 "c"] in HU.
  unfold bind at 1 in HU. rewrite for_range_one in HU.
  pose proof (MX_remove_one_world c (GetZone d) (GetName d)
                (MX.mkMXRecord 10 "b") w) as Hrm.
  unfold RemoveRecord in Hrm. rewrite doRequest_world in Hrm.
  destruct (MX.remove_one c (GetZone d) (GetName d) (MX.mkMXRecord 10 "b") w)
    as [e1 w1].
  cbn [snd] in Hrm.
  assert (Ht1 : trace w1 = (trace w ++ [remove_b])%list).
  { rewrite Hrm. reflexivity. }
  destruct e1 as [e1|].
  { injection HU as <- _ <-.
    split; [exists 1%nat; exact Ht1 | intros Hok; discriminate]. }
  unfold bind at 1 in HU. rewrite for_range_one in HU.
  pose proof (checked_world
                (AddRecord c "MX" (GetZone d) (GetName d)
                   (AddTrailingDot "c") (Some 10))
                ("failed to add MX record " +:+ "c") w1) as Hadd.
  change (checked _ _) with (MX.add_one c (GetZone d) (GetName d)
                               (MX.mkMXRecord 10 "c")) in Hadd.
  rewrite AddRecord_MX, doRequest_world in Hadd.
  destruct (MX.add_one c (GetZone d) (GetName d) (MX.mkMXRecord 10 "c") w1)
    as [e2 w2].
  cbn [snd] in Hadd.
  assert (Ht2 : trace w2 = (trace w ++ [remove_b; add_c])%list).
  { rewrite Hadd. cbn [emit snd trace]. rewrite Ht1, <- app_assoc. reflexivity. }
  destruct e2 as [e2|].
  { injection HU as <- _ <-.
    split; [exists 2%nat; exact Ht2 | intros Hok; discriminate]. }
  unfold bind, InvalidateZoneCache, ret in HU. injection HU as <- _ <-.
  cbn [trace].
  assert (Ht3 : (trace w2 ++ [EvInvalidate (GetZone d)])%list
                = (trace w ++ [remove_b; add_c; EvInvalidate (zone d)])%list).
  { rewrite Ht2, <- app_assoc. reflexivity. }
  split; [exists 3%nat; exact Ht3 | intros _; exact Ht3].
Qed.

(** C2, at a concrete input: the sample provider answers both calls with
    success. *)
Lemma C2_mx_surgical_update_witness :
  fst (fst (MX.Update (E := Sample.env Sample.success_body) Sample.client
              Sample.mx_changed Sample.fresh)) = None
  /\ trace (snd (MX.Update (E := Sample.env Sample.success_body) Sample.client
                   Sample.mx_changed Sample.fresh))
     = [EvPost "https://api.reg.ru/api/regru2/zone/remove_record"
          [("domain_name", "example.com"); ("subdomain", "@");
           ("record_type", "MX"); ("content", "b.");
           ("output_content_type", "plain"); ("priority", "10");
           ("username", "user"); ("password", "secret")];
        EvPost "https://api.reg.ru/api/regru2/zone/add_mx"
          [("domain_name", "example.com"); ("subdomain", "@");
           ("output_content_type", "plain"); ("mail_server", "c.");
           ("priority", "10"); ("username", "user"); ("password", "secret")];
        EvInvalidate "example.com"].
Proof.
  assert (Hok : fst (fst (MX.Update (E := Sample.env Sample.success_body)
                            Sample.client Sample.mx_changed Sample.fresh)) = None).
  { vm_compute. reflexivity. }
  split; [exact Hok|].
  destruct (C2_mx_surgical_update (E := Sample.env Sample.success_body)
              Sample.client Sample.mx_changed Sample.fresh)
    as (_ & _ & _ & Hall); [reflexivity|reflexivity|].
  exact (Hall Hok).
Defined.

(** ** C4: a removal the provider answers with record-not-found *)

Lemma formatHumanReadableError_is_error `{E : Env}
    (errorCode errorText : string) (errorParams : gmap string string) :
  formatHumanReadableError errorCode errorText errorParams <> None.
Proof.
  unfold formatHumanReadableError.
  repeat (destruct (String.eqb errorCode _); [discriminate|]).
  discriminate.
Qed.

(** Whatever error the client reads out of the answer to the first removal,
    the generic [Delete] returns it, wrapped, and removes nothing further. *)
Lemma Generic_Delete_propagates `{E : Env} (s : Generic.GenericRecordStrategy)
    (c : Client) (d : ResourceData (list string)) (w : World)
    (record : string) (rest : list string) (e : string) :
  Get d = record :: rest ->
  snd (fst (RemoveRecord c (zone d) (name d) (Generic.recordType s)
              (Generic.preprocessor s record) None w)) = Some e ->
  fst (fst (Generic.Delete s c d w))
  = Some (("failed to delete " +:+ Generic.recordType s +:+ " record "
           +:+ Generic.preprocessor s record) +:+ ": " +:+ e).
Proof.
  intros Hget Herr. unfold Generic.Delete, GetZone, GetName. rewrite Hget.
  cbn [for_range]. unfold bind, checked, bind.
  destruct (RemoveRecord _ _ _ _ _ _ w) as [[response err] w1].
  cbn [fst snd] in Herr. subst err. unfold ret. reflexivity.
Qed.

(** The deprecated resource compares the error text with [RR_NOT_FOUND], a
    text its client never produces: the only errors of that client are
    transport failures, and their texts start differently. *)
Lemma Legacy_RemoveRecord_never_RR_NOT_FOUND `{E : Env} (c : Client)
    (domainName subdomain recordType content : string) (priority : Z)
    (w : World) (e : string) :
  snd (fst (Legacy.RemoveRecord c domainName subdomain recordType content
              priority w)) = Some e ->
  e <> "RR_NOT_FOUND".
Proof.
  unfold Legacy.RemoveRecord, Legacy.doRequest.
  destruct (http_post _ _ _); cbn [fst snd]; intros [= <-]; discriminate.
Qed.

(** With that client every answer the provider gives to the removal, an
    error answer included, makes the deprecated delete succeed. *)
Lemma Legacy_delete_ignores_the_answer `{E : Env} (c : Client) (d : Legacy.Data)
    (w : World) (body : string) :
  Legacy.with_priority (Legacy.type d) = false ->
  http_post (trace w) (BaseURL c +:+ "/" +:+ "zone/remove_record")
    [("domain_name", Legacy.zone d); ("subdomain", Legacy.name d);
     ("record_type", Legacy.type d); ("content", Legacy.record d);
     ("output_content_type", "plain");
     ("username", Username c); ("password", Password c)] = Body body ->
  fst (Legacy.resourceDnsRecordDelete c d w)
  = Some (None, Legacy.SetId d EmptyString).
Proof.
  intros Hty Hpost.
  unfold Legacy.resourceDnsRecordDelete, Legacy.RemoveRecord, Legacy.doRequest,
    bind.
  rewrite Hty. unfold Legacy.with_priority in Hty. rewrite Hty.
  cbn [app]. rewrite Hpost. reflexivity.
Qed.

(** C4, evaluated where it fails: the provider answers the removal of the A
    record 1.1.1.1 with error code RECORD_NOT_FOUND.  The generic [Delete]
    returns an error, and so does the removal step of the MX [Update]; the
    specification says both return success. *)
Theorem C4_delete_not_found_is_an_error :
  fst (fst (Generic.Delete (E := Sample.env Sample.not_found_body)
              Generic.NewARecordStrategy Sample.client
              Sample.a_unchanged Sample.fresh))
  = Some "failed to delete A record 1.1.1.1: DNS record not found: The specified DNS record does not exist."
  /\ fst (fst (MX.Update (E := Sample.env Sample.not_found_body) Sample.client
                 Sample.mx_changed Sample.fresh))
     = Some "failed to remove MX record b: API error during remove operation: DNS record not found: The specified DNS record does not exist."
  /\ ~ In (EvInvalidate "example.com")
         (trace (snd (Generic.Delete (E := Sample.env Sample.not_found_body)
                        Generic.NewARecordStrategy Sample.client
                        Sample.a_unchanged Sample.fresh))).
Proof.
  split; [|split].
  - vm_compute. reflexivity.
  - vm_compute. reflexivity.
  - vm_compute. intros [H|[]]. discriminate.
Qed.

(** ** C5: the identifier that [Create] sets *)

(** The MX, NS and CNAME creates leave exactly zone/name. *)
Lemma Create_identifier_direct `{E : Env} (c : Client) :
  (forall d w, fst (fst (MX.Create c d w)) = None ->
               Id (snd (fst (MX.Create c d w))) = zone d +:+ "/" +:+ name d)
  /\ (forall d w, fst (fst (NS.Create c d w)) = None ->
                  Id (snd (fst (NS.Create c d w))) = zone d +:+ "/" +:+ name d)
  /\ (forall d w, fst (fst (CNAME.Create c d w)) = None ->
                  Id (snd (fst (CNAME.Create c d w))) = zone d +:+ "/" +:+ name d).
Proof.
  split; [|split]; intros d w.
  - unfold MX.Create, bind. destruct (for_range _ _ w) as [[e|] w1];
      [discriminate|reflexivity].
  - unfold NS.Create, bind. destruct (for_range _ _ w) as [[e|] w1];
      [discriminate|reflexivity].
  - unfold CNAME.Create, bind. destruct (checked _ _ w) as [[e|] w1];
      [discriminate|reflexivity].
Qed.

(** A read keeps the identifier or clears it. *)
Lemma Read_identifier `{E : Env} (c : Client) :
  (forall s d w, Id (snd (fst (Generic.Read s c d w))) = Id d
                 \/ Id (snd (fst (Generic.Read s c d w))) = EmptyString)
  /\ (forall d w, Id (snd (fst (SRV.Read c d w))) = Id d
                  \/ Id (snd (fst (SRV.Read c d w))) = EmptyString)
  /\ (forall d w, Id (snd (fst (CAA.Read c d w))) = Id d
                  \/ Id (snd (fst (CAA.Read c d w))) = EmptyString).
Proof.
  split; [|split]; intros.
  - unfold Generic.Read, bind.
    destruct (GetRecordsWithCache _ _ w) as [[response [e|]] w1]; [left; reflexivity|].
    destruct (json_DNSZoneResponse response); [|left; reflexivity].
    destruct (_ =? 0)%nat; [right|left]; reflexivity.
  - unfold SRV.Read, bind.
    destruct (GetRecordsWithCache _ _ w) as [[response [e|]] w1]; [left; reflexivity|].
    destruct (json_DNSZoneResponse response); [|left; reflexivity].
    destruct (_ =? 0)%nat; [right|left]; reflexivity.
  - unfold CAA.Read, bind.
    destruct (GetRecordsWithCache _ _ w) as [[response [e|]] w1]; [left; reflexivity|].
    destruct (json_DNSZoneResponse response); [|left; reflexivity].
    destruct (_ =? 0)%nat; [right|left]; reflexivity.
Qed.

(** The generic and SRV creates set zone/name and read back; the CAA create
    sets zone/name/CAA and reads back.  The read-back may clear what was
    set. *)
Lemma Create_identifier_read_back `{E : Env} (c : Client) :
  (forall s d w, fst (fst (Generic.Create s c d w)) = None ->
     Id (snd (fst (Generic.Create s c d w))) = zone d +:+ "/" +:+ name d
     \/ Id (snd (fst (Generic.Create s c d w))) = EmptyString)
  /\ (forall d w, fst (fst (SRV.Create c d w)) = None ->
        Id (snd (fst (SRV.Create c d w))) = zone d +:+ "/" +:+ name d
        \/ Id (snd (fst (SRV.Create c d w))) = EmptyString)
  /\ (forall d w, fst (fst (CAA.Create c d w)) = None ->
        Id (snd (fst (CAA.Create c d w)))
        = zone d +:+ "/" +:+ name d +:+ "/" +:+ "CAA"
        \/ Id (snd (fst (CAA.Create c d w))) = EmptyString).
Proof.
  destruct (Read_identifier c) as (Hg & Hs & Hc).
  split; [|split]; intros.
  - revert H. unfold Generic.Create.
    destruct (Generic.validator s (Get d)); [discriminate|].
    unfold bind. destruct (for_range _ _ w) as [[e|] w1]; [discriminate|].
    intros _. apply Hg.
  - revert H. unfold SRV.Create.
    destruct (_ =? 0)%nat; [discriminate|].
    unfold bind. destruct (for_range _ _ w) as [[e|] w1]; [discriminate|].
    intros _. apply Hs.
  - revert H. unfold CAA.Create.
    destruct (_ =? 0)%nat; [discriminate|].
    unfold bind. destruct (for_range _ _ w) as [[e|] w1]; [discriminate|].
    intros _. apply Hc.
Qed.

(** C5, evaluated where it fails: creating the CAA record set of [@] in
    [example.com] succeeds and leaves the three-part identifier
    [example.com/@/CAA], which the CAA import of the same provider cannot
    parse; the specification says the identifier is [example.com/@].  The deprecated
    resource produces a three-part identifier as well, the A strategy a
    two-part one. *)
Theorem C5_caa_create_identifier :
  fst (fst (CAA.Create (E := Sample.env Sample.success_body) Sample.client
              Sample.caa_new Sample.fresh)) = None
  /\ Id (snd (fst (CAA.Create (E := Sample.env Sample.success_body)
                     Sample.client Sample.caa_new Sample.fresh)))
     = "example.com/@/CAA"
  /\ length (Split "example.com/@/CAA" "/") = 3%nat
  /\ snd (ParseResourceID "example.com/@/CAA")
     = Some "invalid resource ID format: example.com/@/CAA"
  /\ Legacy.Id (snd (fst (Legacy.resourceDnsRecordCreate
                            (E := Sample.env Sample.success_body)
                            Sample.client Sample.legacy_a Sample.fresh)))
     = "example.com/www/A"
  /\ Id (snd (fst (Generic.Create (E := Sample.env Sample.success_body)
                     Generic.NewARecordStrategy Sample.client
                     (Sample.data EmptyString "example.com" "www" [] ["1.1.1.1"])
                     Sample.fresh)))
     = "example.com/www".
Proof. repeat split; vm_compute; reflexivity. Qed.

(** * Further properties of the code *)

(** ** Identifiers written and parsed back *)

Lemma Split_clean (s : string) (sep : ascii) :
  Contains s sep = false -> Split s sep = [s].
Proof.
  induction s as [|a s IH]; simpl; [reflexivity|].
  intros H. apply orb_false_iff in H as [Ha Hs].
  rewrite Ha, (IH Hs). reflexivity.
Qed.

Lemma Split_app_sep (a b : string) (sep : ascii) :
  Contains a sep = false ->
  Split (a +:+ String sep b) sep = a :: Split b sep.
Proof.
  induction a as [|c a IH]; simpl.
  - intros _. rewrite Ascii.eqb_refl. reflexivity.
  - intros H. apply orb_false_iff in H as [Hc Ha].
    rewrite Hc, (IH Ha). reflexivity.
Qed.

(** X1: the identifier that [SetResourceID] writes for a zone and a name is
    parsed back by [ParseResourceID] into that zone and that name exactly
    when neither of the two contains a slash. *)
Theorem identifier_round_trip {T} (d : ResourceData T)
    (zone name recordType : string) :
  ParseResourceID (Id (SetResourceID d zone name recordType)) = (zone, name, None)
  <-> Contains zone "/" = false /\ Contains name "/" = false.
Proof.
  unfold SetResourceID, SetId. cbn [Id]. rewrite ParseResourceID_ok. split.
  - intros HS.
    pose proof (Split_parts_clean (zone +:+ "/" +:+ name) "/" zone) as Hz.
    pose proof (Split_parts_clean (zone +:+ "/" +:+ name) "/" name) as Hn.
    rewrite HS in Hz, Hn. split; [apply Hz|apply Hn]; simpl; auto.
  - intros [Hz Hn].
    change (zone +:+ "/" +:+ name) with (zone +:+ String "/" name).
    rewrite Split_app_sep by exact Hz. rewrite Split_clean by exact Hn.
    reflexivity.
Qed.

(** ** Trailing dots *)

Lemma HasSuffix_dot_cons (a : ascii) (r : string) :
  r <> EmptyString -> HasSuffix (String a r) "." = HasSuffix r ".".
Proof.
  intros Hr. destruct r as [|b r]; [contradiction|].
  unfold HasSuffix. cbn [String.length Nat.leb Nat.sub andb].
  rewrite !Nat.sub_0_r. reflexivity.
Qed.

Lemma TrimSuffix_dot_cons (a : ascii) (r : string) :
  r <> EmptyString -> TrimSuffix (String a r) "." = String a (TrimSuffix r ".").
Proof.
  intros Hr. unfold TrimSuffix. rewrite HasSuffix_dot_cons by exact Hr.
  destruct r as [|b r]; [contradiction|].
  destruct (HasSuffix (String b r) "."); [|reflexivity].
  cbn [String.length Nat.sub]. rewrite !Nat.sub_0_r. reflexivity.
Qed.

Lemma app_dot_nonempty (p : string) : p +:+ "." <> EmptyString.
Proof. destruct p; discriminate. Qed.

Lemma dot_appended (p : string) :
  HasSuffix (p +:+ ".") "." = true /\ TrimSuffix (p +:+ ".") "." = p.
Proof.
  induction p as [|a p [IH1 IH2]]; [split; reflexivity|].
  change (String a p +:+ ".") with (String a (p +:+ ".")).
  rewrite HasSuffix_dot_cons, TrimSuffix_dot_cons by apply app_dot_nonempty.
  rewrite IH1, IH2. split; reflexivity.
Qed.

Lemma dot_cases (s : string) :
  (HasSuffix s "." = true /\ exists p, s = p +:+ ".")
  \/ (HasSuffix s "." = false /\ TrimSuffix s "." = s).
Proof.
  induction s as [|a s IH].
  - right. split; reflexivity.
  - destruct s as [|b s].
    + destruct (Ascii.eqb a ".") eqn:Ha.
      * apply Ascii.eqb_eq in Ha. subst a. left. split; [reflexivity|].
        exists EmptyString. reflexivity.
      * right. unfold TrimSuffix, HasSuffix. simpl. rewrite Ha. split; reflexivity.
    + rewrite HasSuffix_dot_cons, TrimSuffix_dot_cons by discriminate.
      destruct IH as [[H1 [p Hp]]|[H1 H2]].
      * left. split; [exact H1|]. exists (String a p). rewrite Hp. reflexivity.
      * right. split; [exact H1|]. rewrite H2. reflexivity.
Qed.

Lemma TrimSuffix_two_dots (domain : string) :
  TrimSuffix (domain +:+ "..") "." = domain +:+ ".".
Proof.
  replace (domain +:+ "..") with ((domain +:+ ".") +:+ ".").
  - apply dot_appended.
  - induction domain as [|a s IH]; [reflexivity|].
    change (String a ((s +:+ ".") +:+ ".") = String a (s +:+ "..")).
    rewrite IH. reflexivity.
Qed.

(** X2: [AddTrailingDot] always returns a name that ends in a dot and
    changes nothing when applied again; [NormalizeDomain] undoes it, so a
    name declared without a trailing dot comes back unchanged from the
    round trip through the provider, and a name declared with one comes
    back without it.  [NormalizeDomain] removes one dot only. *)
Theorem trailing_dot_round_trip (domain : string) :
  HasSuffix (AddTrailingDot domain) "." = true
  /\ AddTrailingDot (AddTrailingDot domain) = AddTrailingDot domain
  /\ NormalizeDomain (AddTrailingDot domain) = NormalizeDomain domain
  /\ (HasSuffix domain "." = false ->
      NormalizeDomain (AddTrailingDot domain) = domain)
  /\ (HasSuffix domain "." = true ->
      AddTrailingDot domain = domain
      /\ NormalizeDomain domain +:+ "." = domain)
  /\ NormalizeDomain (domain +:+ "..") = domain +:+ ".".
Proof.
  assert (Hlast : NormalizeDomain (domain +:+ "..") = domain +:+ ".")
    by apply TrimSuffix_two_dots.
  unfold AddTrailingDot, NormalizeDomain in *.
  destruct (dot_cases domain) as [[Hd [p Hp]]|[Hd Ht]]; rewrite Hd; cbn [negb].
  - rewrite Hd. cbn [negb].
    split; [reflexivity|]. split; [reflexivity|]. split; [reflexivity|].
    split; [discriminate|]. split; [|exact Hlast].
    intros _. split; [reflexivity|].
    rewrite Hp at 1. rewrite (proj2 (dot_appended p)). symmetry. exact Hp.
  - destruct (dot_appended domain) as [H1 H2]. rewrite H1. cbn [negb].
    split; [reflexivity|]. split; [reflexivity|].
    split; [rewrite H2, Ht; reflexivity|].
    split; [intros _; exact H2|]. split; [discriminate|exact Hlast].
Qed.

(** X2, for the server name mx1.example.com declared without a dot. *)
Lemma trailing_dot_round_trip_witness :
  NormalizeDomain (AddTrailingDot "mx1.example.com") = "mx1.example.com".
Proof.
  destruct (trailing_dot_round_trip "mx1.example.com") as (_ & _ & _ & H & _).
  apply H. reflexivity.
Defined.

(** ** [strconv.Atoi] reads back what [%d] prints *)

Lemma digit_pretty_N_char (n : N) :
  (n < 10)%N -> digit (pretty_N_char n) = Some (Z.of_N n).
Proof.
  intros H. destruct n as [|p]; [reflexivity|].
  do 4 (try (destruct p as [p|p|]; try reflexivity; try lia)).
Qed.

Lemma digits_pretty_N_go (x : N) (s : string) :
  digits (pretty_N_go x s) 0 = digits s (Z.of_N x).
Proof.
  revert s. induction (N.lt_wf_0 x) as [x _ IH]. intros s.
  destruct (decide (0 < x)%N) as [Hpos|Hz].
  - rewrite pretty_N_go_step by exact Hpos.
    rewrite IH by (apply N.div_lt; lia).
    cbn [digits]. rewrite digit_pretty_N_char by (apply N.mod_lt; lia).
    f_equal. pose proof (N.div_mod x 10). lia.
  - replace x with 0%N by lia. reflexivity.
Qed.

Lemma digits_head (c : ascii) (r : string) (acc n : Z) :
  digits (String c r) acc = Some n -> c <> "-"%char /\ c <> "+"%char.
Proof.
  cbn [digits]. destruct (digit c) eqn:Hd; [|discriminate]. intros _.
  split; intros ->; discriminate.
Qed.

Lemma Atoi_digits (s : string) (n : Z) :
  s <> EmptyString -> digits s 0 = Some n -> 0 <= n <= maxInt ->
  Atoi s = (n, None).
Proof.
  intros Hne Hd Hr. destruct s as [|c r]; [contradiction|].
  destruct (digits_head _ _ _ _ Hd) as [Hm Hp].
  unfold Atoi.
  assert (Hb : match String c r with
               | String "-" r0 => (true, r0)
               | String "+" r0 => (false, r0)
               | _ => (false, String c r)
               end = (false, String c r)).
  { destruct c as [[] [] [] [] [] [] [] []]; try reflexivity; congruence. }
  rewrite Hb. rewrite Hd.
  unfold minInt, maxInt in *.
  destruct (n <? - 2 ^ 63) eqn:H1; [apply Z.ltb_lt in H1; lia|].
  destruct (2 ^ 63 - 1 <? n) eqn:H2; [apply Z.ltb_lt in H2; lia|]. reflexivity.
Qed.

Lemma pretty_N_go_nonempty (x : N) (s : string) :
  s <> EmptyString -> pretty_N_go x s <> EmptyString.
Proof.
  revert s. induction (N.lt_wf_0 x) as [x _ IH]. intros s Hs.
  destruct (decide (0 < x)%N) as [Hpos|Hz].
  - rewrite pretty_N_go_step by exact Hpos.
    apply IH; [apply N.div_lt; lia|discriminate].
  - replace x with 0%N by lia. exact Hs.
Qed.

Lemma Atoi_pretty_N (n : N) :
  Z.of_N n <= maxInt -> Atoi (pretty n) = (Z.of_N n, None).
Proof.
  intros Hr. unfold pretty, pretty_N. case_decide as Hz.
  - subst n. reflexivity.
  - assert (Hpos : (0 < n)%N) by lia.
    apply Atoi_digits; [| |lia].
    + rewrite pretty_N_go_step by exact Hpos.
      apply pretty_N_go_nonempty. discriminate.
    + rewrite digits_pretty_N_go. reflexivity.
Qed.

Lemma Atoi_minus_pretty_N (m : N) :
  (0 < m)%N -> minInt <= - Z.of_N m ->
  Atoi ("-" +:+ pretty m) = (- Z.of_N m, None).
Proof.
  intros Hm Hlo. unfold pretty, pretty_N. case_decide as Hz; [lia|].
  change ("-" +:+ pretty_N_go m EmptyString)
    with (String "-" (pretty_N_go m EmptyString)).
  unfold Atoi. cbv beta iota zeta.
  assert (Hne : pretty_N_go m EmptyString <> EmptyString).
  { rewrite pretty_N_go_step by exact Hm.
    apply pretty_N_go_nonempty. discriminate. }
  destruct (pretty_N_go m EmptyString) as [|c r] eqn:Hs; [contradiction|].
  rewrite <- Hs, digits_pretty_N_go. cbn [digits].
  unfold minInt, maxInt in *.
  destruct (- Z.of_N m <? - 2 ^ 63) eqn:H1; [apply Z.ltb_lt in H1; lia|].
  destruct (2 ^ 63 - 1 <? - Z.of_N m) eqn:H2; [apply Z.ltb_lt in H2; lia|].
  reflexivity.
Qed.

Lemma Atoi_Itoa (n : Z) :
  minInt <= n <= maxInt -> Atoi (Itoa n) = (n, None).
Proof.
  intros [Hlo Hhi]. unfold Itoa, pretty, pretty_Z.
  destruct n as [|p|p].
  - reflexivity.
  - apply (Atoi_pretty_N (Npos p)). exact Hhi.
  - apply (Atoi_minus_pretty_N (Npos p)); [lia|exact Hlo].
Qed.

(** ** Suppression of order-only differences *)

Lemma occurrences_snoc `{EqDecision A} (x a : A) (l : list A) :
  occurrences x (l ++ [a])
  = (occurrences x l + (if decide (a = x) then 1 else 0))%nat.
Proof.
  unfold occurrences. rewrite count_occ_app. cbn [count_occ].
  destruct (decide (a = x)); reflexivity.
Qed.

Lemma count_set_lookup (strs : list string) (x : string) :
  count_set strs !! x
  = if (occurrences x strs =? 0)%nat then None
    else Some (Z.of_nat (occurrences x strs)).
Proof.
  unfold count_set. induction strs as [|a strs IH] using rev_ind.
  - reflexivity.
  - rewrite foldl_app. cbn [foldl]. rewrite occurrences_snoc.
    destruct (decide (a = x)) as [->|Hne].
    + rewrite lookup_insert_eq, IH.
      destruct (occurrences x strs =? 0)%nat eqn:H0.
      * apply Nat.eqb_eq in H0. rewrite H0. reflexivity.
      * replace (occurrences x strs + 1 =? 0)%nat with false
          by (symmetry; apply Nat.eqb_neq; lia).
        unfold default. cbn [from_option id]. f_equal. lia.
    + rewrite lookup_insert_ne by exact Hne. rewrite IH, Nat.add_0_r. reflexivity.
Qed.

Lemma count_set_default (strs : list string) (x : string) :
  default 0 (count_set strs !! x) = Z.of_nat (occurrences x strs).
Proof.
  rewrite count_set_lookup. destruct (occurrences x strs =? 0)%nat eqn:H0.
  - apply Nat.eqb_eq in H0. rewrite H0. reflexivity.
  - reflexivity.
Qed.

Lemma count_set_permutation (l l' : list string) :
  Permutation l l' -> count_set l = count_set l'.
Proof.
  intros Hp. apply map_eq. intros x. rewrite !count_set_lookup.
  unfold occurrences.
  rewrite (proj1 (Permutation_count_occ _ l l') Hp x). reflexivity.
Qed.

Lemma counts_compared (oldStrs newStrs : list string) :
  (length oldStrs =? length newStrs)%nat = true ->
  (size (count_set oldStrs) =? size (count_set newStrs))%nat = true ->
  forallb (fun kv : string * Z => default 0 (count_set newStrs !! kv.1) =? kv.2)
    (map_to_list (count_set oldStrs)) = true ->
  Permutation oldStrs newStrs.
Proof.
  intros _ Hsize Hall. apply Nat.eqb_eq in Hsize.
  rewrite forallb_forall in Hall.
  assert (Hin : forall x, occurrences x oldStrs <> 0%nat ->
                  occurrences x newStrs = occurrences x oldStrs).
  { intros x Hx.
    specialize (Hall (x, Z.of_nat (occurrences x oldStrs))).
    cbn [fst snd] in Hall. rewrite count_set_default in Hall.
    apply Nat2Z.inj, Z.eqb_eq, Hall.
    apply list_elem_of_In, elem_of_map_to_list. rewrite count_set_lookup.
    destruct (occurrences x oldStrs =? 0)%nat eqn:H0; [|reflexivity].
    apply Nat.eqb_eq in H0. contradiction. }
  assert (Hsub : dom (count_set oldStrs) ⊆ dom (count_set newStrs)).
  { intros x Hx. apply elem_of_dom in Hx as [n Hn]. apply elem_of_dom.
    rewrite count_set_lookup in Hn |- *.
    destruct (occurrences x oldStrs =? 0)%nat eqn:H0; [discriminate|].
    apply Nat.eqb_neq in H0. rewrite (Hin x H0).
    apply Nat.eqb_neq in H0. rewrite H0. eexists. reflexivity. }
  assert (Hdom : dom (count_set oldStrs) ≡ dom (count_set newStrs)).
  { apply set_subseteq_size_equiv; [exact Hsub|]. rewrite !size_dom. lia. }
  apply (Permutation_count_occ (fun a b => decide (a = b))). intros x.
  destruct (Nat.eq_dec (occurrences x oldStrs) 0%nat) as [H0|H0].
  - fold (occurrences x oldStrs). fold (occurrences x newStrs). rewrite H0.
    assert (Hx : x ∉ dom (count_set newStrs)).
    { rewrite <- Hdom. rewrite not_elem_of_dom, count_set_lookup, H0. reflexivity. }
    rewrite not_elem_of_dom, count_set_lookup in Hx.
    destruct (occurrences x newStrs =? 0)%nat eqn:H1; [|discriminate].
    apply Nat.eqb_eq in H1. symmetry. exact H1.
  - symmetry. apply Hin. exact H0.
Qed.

(** X3: [RecordsListDiffSuppressFunc] suppresses the difference of a key
    exactly when the resource has an identifier, the key starts with
    [records.] and the old and the new list of records are permutations of
    each other: the comparison of the two count maps is multiset equality. *)
Theorem RecordsListDiffSuppressFunc_iff
    (k old new : string) (d : ResourceData (list string)) :
  RecordsListDiffSuppressFunc k old new d = true
  <-> Id d <> EmptyString /\ HasPrefix k "records." = true
      /\ Permutation (prior d) (planned d).
Proof.
  unfold RecordsListDiffSuppressFunc, GetChange.
  destruct (String.eqb (Id d) EmptyString) eqn:Hid.
  { apply String.eqb_eq in Hid. split; [discriminate|]. intros [H _]. contradiction. }
  apply String.eqb_neq in Hid.
  destruct (HasPrefix k "records.") eqn:Hk; cbn [negb].
  2:{ split; [discriminate|]. intros (_ & H & _). discriminate. }
  split.
  - intros H. split; [exact Hid|]. split; [reflexivity|].
    destruct (length (prior d) =? length (planned d))%nat eqn:Hl; [|discriminate].
    destruct (size (count_set (prior d)) =? size (count_set (planned d)))%nat
      eqn:Hs; [|discriminate].
    cbn [negb] in H. apply counts_compared; assumption.
  - intros (_ & _ & Hp).
    rewrite (Permutation_length Hp), Nat.eqb_refl. cbn [negb].
    rewrite <- (count_set_permutation _ _ Hp), Nat.eqb_refl. cbn [negb].
    apply forallb_forall. intros [x n] Hin. cbn [fst snd].
    apply list_elem_of_In, elem_of_map_to_list in Hin. rewrite Hin.
    apply Z.eqb_refl.
Qed.
Lemma strings_equal_eq (a b : list string) : strings_equal a b = true <-> a = b.
Proof.
  unfold strings_equal. split.
  - destruct (length a =? length b)%nat eqn:Hl; [|discriminate]. cbn [negb].
    apply Nat.eqb_eq in Hl. revert b Hl.
    induction a as [|x a IH]; intros [|y b] Hl; try discriminate; [reflexivity|].
    cbn [combine forallb fst snd]. intros H. apply andb_true_iff in H as [Hx Ha].
    apply String.eqb_eq in Hx. subst y. f_equal. apply IH; [|exact Ha].
    injection Hl as Hl. exact Hl.
  - intros <-. rewrite Nat.eqb_refl. cbn [negb].
    induction a as [|x a IH]; [reflexivity|].
    cbn [combine forallb fst snd]. rewrite String.eqb_refl, IH. reflexivity.
Qed.

Lemma sort_Strings_eq (a b : list string) :
  sort_Strings a = sort_Strings b <-> Permutation a b.
Proof.
  split.
  - intros Heq. rewrite <- (sort_Slice_perm String.ltb a).
    rewrite <- (sort_Slice_perm String.ltb b).
    unfold sort_Strings in Heq. rewrite Heq. reflexivity.
  - apply sort_Strings_permutation.
Qed.

Lemma length_zero {A} (l : list A) : (length l =? 0)%nat = true <-> l = [].
Proof. destruct l; simpl; split; congruence. Qed.

(** X4: with the [nested_field] configuration, [GenericDiffSuppressFunc]
    (and so the MX, NS and SRV suppressors) returns true exactly when the
    resource has an identifier, the key has the shape record.N.field for
    the configured field, both values of [record] have a block N, and the
    field of the old block is a non-empty permutation of the field of the
    new block.  It panics exactly when N parses as a negative number. *)
Theorem nested_field_suppression {B} `{BlockFields B}
    (k old new : string) (d : ResourceData (list B)) (fieldName : string) :
  let parts := Split k "." in
  let config := {| FieldType := "nested_field"; FieldName := fieldName |} in
  (GenericDiffSuppressFunc k old new d config = Some true
   <-> Id d <> EmptyString
       /\ (3 <= length parts)%nat /\ nth 2 parts EmptyString = fieldName
       /\ exists (n : nat) oldRecord newRecord oldField newField,
            Atoi (nth 1 parts EmptyString) = (Z.of_nat n, None)
            /\ prior d !! n = Some oldRecord /\ planned d !! n = Some newRecord
            /\ string_list_field fieldName oldRecord = Some oldField
            /\ string_list_field fieldName newRecord = Some newField
            /\ oldField <> [] /\ Permutation oldField newField)
  /\ (GenericDiffSuppressFunc k old new d config = None
      <-> Id d <> EmptyString
          /\ (3 <= length parts)%nat /\ nth 2 parts EmptyString = fieldName
          /\ exists i, Atoi (nth 1 parts EmptyString) = (i, None) /\ i < 0).
Proof.
  intros parts config.
  unfold GenericDiffSuppressFunc, config. cbn [FieldType FieldName].
  destruct (String.eqb (Id d) EmptyString) eqn:Hid.
  { apply String.eqb_eq in Hid.
    split; (split; [discriminate|]); intros [Hne _]; contradiction. }
  apply String.eqb_neq in Hid.
  change (String.eqb "nested_field" "caa_record") with false.
  change (String.eqb "nested_field" "nested_field") with true. cbv iota.
  unfold handleNestedFieldDiff, GetChange. fold parts.
  destruct (length parts <? 3)%nat eqn:Hlen.
  { apply Nat.ltb_lt in Hlen. cbn [orb].
    split; (split; [discriminate|]); intros (_ & Hl & _); lia. }
  apply Nat.ltb_ge in Hlen. cbn [orb].
  destruct (String.eqb (nth 2 parts EmptyString) fieldName) eqn:Hf; cbn [negb].
  2:{ apply String.eqb_neq in Hf.
      split; (split; [discriminate|]); intros (_ & _ & Heq & _); contradiction. }
  apply String.eqb_eq in Hf.
  destruct (Atoi (nth 1 parts EmptyString)) as [i [e|]] eqn:Hi.
  { split; (split; [discriminate|]).
    - intros (_ & _ & _ & n & ? & ? & ? & ? & Hn & _). discriminate.
    - intros (_ & _ & _ & j & Hj & _). discriminate. }
  destruct (Z.of_nat (length (prior d)) <=? i) eqn:Ho.
  { apply Z.leb_le in Ho. cbn [orb]. split; (split; [discriminate|]).
    - intros (_ & _ & _ & n & oR & ? & ? & ? & [= ->] & Hn & _).
      apply lookup_lt_Some in Hn. lia.
    - intros (_ & _ & _ & j & [= ->] & Hj). lia. }
  apply Z.leb_gt in Ho. cbn [orb].
  destruct (Z.of_nat (length (planned d)) <=? i) eqn:Hn.
  { apply Z.leb_le in Hn. split; (split; [discriminate|]).
    - intros (_ & _ & _ & n & ? & nR & ? & ? & [= ->] & _ & Hp & _).
      apply lookup_lt_Some in Hp. lia.
    - intros (_ & _ & _ & j & [= ->] & Hj). lia. }
  apply Z.leb_gt in Hn.
  destruct (i <? 0) eqn:Hneg.
  { apply Z.ltb_lt in Hneg. split.
    - split; [discriminate|].
      intros (_ & _ & _ & n & ? & ? & ? & ? & [= ->] & _). lia.
    - split; [|reflexivity]. intros _. split; [exact Hid|]. split; [exact Hlen|].
      split; [exact Hf|]. exists i. split; [reflexivity|exact Hneg]. }
  apply Z.ltb_ge in Hneg.
  destruct (lookup_lt_is_Some_2 (prior d) (Z.to_nat i)) as [oldRecord HoR]; [lia|].
  destruct (lookup_lt_is_Some_2 (planned d) (Z.to_nat i)) as [newRecord HnR]; [lia|].
  rewrite HoR, HnR.
  assert (Hnot_None :
    forall r : option bool, r <> None ->
      r = None <-> Id d <> EmptyString /\ (3 <= length parts)%nat
                   /\ nth 2 parts EmptyString = fieldName
                   /\ exists j, (i, @None NumError) = (j, None) /\ j < 0).
  { intros r Hr. split; [contradiction|].
    intros (_ & _ & _ & j & [= ->] & Hj). lia. }
  assert (Hfalse :
    (forall oldField newField,
       string_list_field fieldName oldRecord = Some oldField ->
       string_list_field fieldName newRecord = Some newField ->
       oldField <> [] -> Permutation oldField newField -> False) ->
    Some false = Some true
    <-> Id d <> EmptyString /\ (3 <= length parts)%nat
        /\ nth 2 parts EmptyString = fieldName
        /\ exists (n : nat) oldRecord newRecord oldField newField,
             (i, @None NumError) = (Z.of_nat n, None)
             /\ prior d !! n = Some oldRecord /\ planned d !! n = Some newRecord
             /\ string_list_field fieldName oldRecord = Some oldField
             /\ string_list_field fieldName newRecord = Some newField
             /\ oldField <> [] /\ Permutation oldField newField).
  { intros Hno. split; [discriminate|].
    intros (_ & _ & _ & n & oR & nR & oF & nF & [= ->] & H1 & H2 & H3 & H4 & H5 & H6).
    rewrite Nat2Z.id in HoR, HnR. exfalso.
    rewrite HoR in H1. rewrite HnR in H2.
    injection H1 as <-. injection H2 as <-. eapply Hno; eassumption. }
  destruct (string_list_field fieldName oldRecord) as [oldField|] eqn:HoF.
  2:{ split; [|apply Hnot_None; discriminate]. apply Hfalse.
      intros ? ? [=]. }
  destruct (string_list_field fieldName newRecord) as [newField|] eqn:HnF.
  2:{ split; [|apply Hnot_None; discriminate]. apply Hfalse.
      intros ? ? _ [=]. }
  destruct (length oldField =? 0)%nat eqn:Hol.
  { split; [|apply Hnot_None; discriminate]. apply Hfalse.
    intros ? ? [= <-] _ Hne _. apply length_zero in Hol. contradiction. }
  cbn [orb].
  destruct (length newField =? 0)%nat eqn:Hnl.
  { split; [|apply Hnot_None; discriminate]. apply Hfalse.
    intros ? ? [= <-] [= <-] Hne Hp. apply length_zero in Hnl. subst newField.
    symmetry in Hp. apply Permutation_nil in Hp. contradiction. }
  split; [|apply Hnot_None; discriminate].
  split.
  - intros [= Heq]. apply strings_equal_eq, sort_Strings_eq in Heq.
    split; [exact Hid|]. split; [exact Hlen|]. split; [exact Hf|].
    exists (Z.to_nat i), oldRecord, newRecord, oldField, newField.
    rewrite Z2Nat.id by exact Hneg.
    repeat split; try assumption; try reflexivity.
    intros ->. discriminate.
  - intros (_ & _ & _ & n & oR & nR & oF & nF & [= ->] & H1 & H2 & H3 & H4 & H5 & H6).
    rewrite Nat2Z.id in HoR, HnR.
    rewrite HoR in H1. rewrite HnR in H2.
    injection H1 as <-. injection H2 as <-.
    rewrite HoF in H3. rewrite HnF in H4.
    injection H3 as <-. injection H4 as <-.
    f_equal. apply strings_equal_eq, sort_Strings_eq. exact H6.
Qed.

Lemma omap_caa_key (l : list CAA.CAARecord) :
  omap caa_key l = map CAA.CAARecord_String l.
Proof. induction l as [|r l IH]; [reflexivity|]. cbn. rewrite <- IH. reflexivity. Qed.

(** X5: [CAARecordsDiffSuppressFunc] returns true exactly when the resource
    has an identifier, the old list of records is not empty, and the keys
    of the old records are a permutation of the keys of the new ones. *)
Theorem caa_record_suppression (k old new : string)
    (d : ResourceData (list CAA.CAARecord)) :
  CAARecordsDiffSuppressFunc k old new d = Some true
  <-> Id d <> EmptyString /\ prior d <> []
      /\ Permutation (map CAA.CAARecord_String (prior d))
           (map CAA.CAARecord_String (planned d)).
Proof.
  unfold CAARecordsDiffSuppressFunc, GenericDiffSuppressFunc. cbn [FieldType].
  destruct (String.eqb (Id d) EmptyString) eqn:Hid.
  { apply String.eqb_eq in Hid. split; [discriminate|]. intros [Hne _]. contradiction. }
  apply String.eqb_neq in Hid.
  change (String.eqb "caa_record" "caa_record") with true. cbv iota.
  unfold handleCAARecordDiff, GetChange. rewrite !omap_caa_key, !length_map.
  destruct (length (prior d) =? 0)%nat eqn:Hol.
  { apply length_zero in Hol. split; [discriminate|]. intros (_ & Hne & _). contradiction. }
  cbn [orb].
  assert (Hne : prior d <> []) by (intros Heq; rewrite Heq in Hol; discriminate).
  destruct (length (planned d) =? 0)%nat eqn:Hnl.
  { apply length_zero in Hnl. split; [discriminate|]. intros (_ & _ & Hp).
    rewrite Hnl in Hp. symmetry in Hp. apply Permutation_nil in Hp.
    destruct (prior d); [contradiction|discriminate]. }
  split.
  - intros [= Heq]. apply strings_equal_eq, sort_Strings_eq in Heq. auto.
  - intros (_ & _ & Hp). f_equal. apply strings_equal_eq, sort_Strings_eq. exact Hp.
Qed.

(** X4, for two MX servers of one block that change places. *)
Lemma nested_field_suppression_witness :
  MXServersDiffSuppressFunc "record.0.servers" "mx1" "mx2"
    Cases.mx_reordered
  = Some true.
Proof.
  apply (proj1 (nested_field_suppression "record.0.servers" "mx1" "mx2" _ "servers")).
  split; [discriminate|]. split; [vm_compute; lia|]. split; [reflexivity|].
  exists 0%nat, (mkRecordBlock 10 ["mx1"; "mx2"]), (mkRecordBlock 10 ["mx2"; "mx1"]),
    ["mx1"; "mx2"], ["mx2"; "mx1"].
  repeat split; try reflexivity; [discriminate|apply perm_swap].
Defined.

(** ** [OrderRecordsByConfiguration] *)

Lemma foundMap_lookup (foundRecords : list string) (m : gmap string bool) (x : string) :
  default false (foldl (fun m r => <[r := true]> m) m foundRecords !! x)
  = default false (m !! x) || bool_decide (x ∈ foundRecords).
Proof.
  revert m. induction foundRecords as [|r l IH]; intros m; cbn [foldl].
  - rewrite orb_false_r. reflexivity.
  - rewrite IH. destruct (decide (r = x)) as [->|Hne].
    + rewrite lookup_insert_eq. cbn. rewrite bool_decide_eq_true_2 by left.
      rewrite orb_true_r. reflexivity.
    + rewrite lookup_insert_ne by exact Hne. f_equal.
      apply bool_decide_ext. rewrite elem_of_cons. split; [auto|intros [Heq|Hin]; [congruence|exact Hin]].
Qed.

Lemma ordered_by_config (P : string -> bool) (configRecords acc : list string) :
  foldl (fun ordered configStr =>
           if P configStr then (ordered ++ [configStr])%list else ordered)
    acc configRecords
  = (acc ++ List.filter P configRecords)%list.
Proof.
  revert acc. induction configRecords as [|c l IH]; intros acc; cbn [foldl List.filter].
  - rewrite app_nil_r. reflexivity.
  - rewrite IH. destruct (P c); [rewrite <- app_assoc|]; reflexivity.
Qed.

Lemma existsb_eqb_In (x : string) (l : list string) :
  existsb (fun o => String.eqb o x) l = true <-> In x l.
Proof.
  rewrite existsb_exists. split.
  - intros (o & Hin & Heq). apply String.eqb_eq in Heq. subst o. exact Hin.
  - intros Hin. exists x. split; [exact Hin|apply String.eqb_refl].
Qed.

Lemma remaining_In (foundRecords ordered : list string) (x : string) :
  In x (foldl remaining_step ordered foundRecords)
  <-> In x ordered \/ In x foundRecords.
Proof.
  revert ordered. induction foundRecords as [|f l IH]; intros ordered; cbn [foldl].
  - simpl. tauto.
  - rewrite IH. unfold remaining_step.
    destruct (existsb (fun o => String.eqb o f) ordered) eqn:He.
    + apply existsb_eqb_In in He. simpl. split; [tauto|].
      intros [H|[<-|H]]; tauto.
    + rewrite in_app_iff. simpl. tauto.
Qed.

Lemma remaining_prefix (foundRecords ordered : list string) :
  exists rest,
    foldl remaining_step ordered foundRecords = (ordered ++ rest)%list
    /\ Forall (fun r => In r foundRecords /\ ~ In r ordered) rest.
Proof.
  revert ordered. induction foundRecords as [|f l IH]; intros ordered; cbn [foldl].
  - exists []. rewrite app_nil_r. split; [reflexivity|constructor].
  - unfold remaining_step at 2.
    destruct (existsb (fun o => String.eqb o f) ordered) eqn:He.
    + destruct (IH ordered) as (rest & Heq & Hall). exists rest. split; [exact Heq|].
      eapply List.Forall_impl; [|exact Hall]. simpl. tauto.
    + destruct (IH (ordered ++ [f])%list) as (rest & Heq & Hall).
      exists (f :: rest). rewrite Heq, <- app_assoc. split; [reflexivity|].
      constructor.
      * split; [left; reflexivity|]. intros Hin. apply existsb_eqb_In in Hin.
        congruence.
      * eapply List.Forall_impl; [|exact Hall]. simpl. intros r [H1 H2].
        split; [tauto|]. intros Hin. apply H2, in_app_iff. tauto.
Qed.

Lemma remaining_NoDup (foundRecords ordered : list string) :
  List.NoDup ordered -> List.NoDup (foldl remaining_step ordered foundRecords).
Proof.
  revert ordered. induction foundRecords as [|f l IH]; intros ordered Hnd; cbn [foldl].
  - exact Hnd.
  - apply IH. unfold remaining_step.
    destruct (existsb (fun o => String.eqb o f) ordered) eqn:He; [exact Hnd|].
    apply NoDup_ListNoDup, NoDup_app. apply NoDup_ListNoDup in Hnd.
    split; [exact Hnd|]. split; [|apply NoDup_singleton].
    intros x Hx Hf. apply list_elem_of_singleton in Hf. subst x.
    apply list_elem_of_In, existsb_eqb_In in Hx. congruence.
Qed.

(** X6: [OrderRecordsByConfiguration] returns the found records and no
    others; it returns them unchanged when either list is empty; otherwise
    the result starts with the configured records that were found, in the
    order of the configuration, followed by found records that the
    configuration does not list; and when neither list repeats a record the
    result is a permutation of the found records. *)
Theorem OrderRecordsByConfiguration_spec (foundRecords configRecords : list string) :
  (forall x, In x (OrderRecordsByConfiguration foundRecords configRecords)
             <-> In x foundRecords)
  /\ (configRecords = [] \/ foundRecords = [] ->
      OrderRecordsByConfiguration foundRecords configRecords = foundRecords)
  /\ (configRecords <> [] -> foundRecords <> [] ->
      exists rest,
        OrderRecordsByConfiguration foundRecords configRecords
        = (List.filter (fun c => bool_decide (c ∈ foundRecords)) configRecords
           ++ rest)%list
        /\ Forall (fun r => In r foundRecords /\ ~ In r configRecords) rest)
  /\ (List.NoDup foundRecords -> List.NoDup configRecords ->
      Permutation (OrderRecordsByConfiguration foundRecords configRecords)
        foundRecords).
Proof.
  assert (Hshape : configRecords <> [] -> foundRecords <> [] ->
    OrderRecordsByConfiguration foundRecords configRecords
    = foldl remaining_step
        (List.filter (fun c => bool_decide (c ∈ foundRecords)) configRecords)
        foundRecords).
  { intros Hc Hf. unfold OrderRecordsByConfiguration.
    destruct configRecords as [|c0 cs]; [contradiction|].
    destruct foundRecords as [|f0 fs]; [contradiction|].
    cbn [length Nat.eqb orb]. cbv zeta.
    rewrite (ordered_by_config
               (fun configStr => default false
                  (foldl (fun m r => <[r := true]> m) ∅ (f0 :: fs) !! configStr))).
    cbn [app]. f_equal. apply filter_ext. intros a.
    rewrite foundMap_lookup, lookup_empty. reflexivity. }
  assert (Hempty : configRecords = [] \/ foundRecords = [] ->
    OrderRecordsByConfiguration foundRecords configRecords = foundRecords).
  { unfold OrderRecordsByConfiguration. intros [->| ->]; [reflexivity|].
    rewrite orb_true_r. reflexivity. }
  assert (Hfilter : forall x,
    In x (List.filter (fun c => bool_decide (c ∈ foundRecords)) configRecords)
    <-> In x configRecords /\ In x foundRecords).
  { intros x. rewrite filter_In, bool_decide_eq_true, list_elem_of_In. tauto. }
  split; [|split; [exact Hempty|split]].
  - intros x. destruct configRecords as [|c0 cs]; [rewrite Hempty by auto; tauto|].
    destruct foundRecords as [|f0 fs]; [rewrite Hempty by auto; tauto|].
    rewrite Hshape by discriminate. rewrite remaining_In, Hfilter. tauto.
  - intros Hc Hf. rewrite (Hshape Hc Hf).
    destruct (remaining_prefix foundRecords
                (List.filter (fun c => bool_decide (c ∈ foundRecords)) configRecords))
      as (rest & Heq & Hall).
    exists rest. split; [exact Heq|].
    eapply List.Forall_impl; [|exact Hall]. simpl. intros r [Hr Hn].
    split; [exact Hr|]. intros Hin. apply Hn, Hfilter. tauto.
  - intros Hf Hc.
    destruct configRecords as [|c0 cs]; [rewrite Hempty by auto; reflexivity|].
    destruct foundRecords as [|f0 fs]; [rewrite Hempty by auto; reflexivity|].
    rewrite Hshape by discriminate.
    apply Permutation.NoDup_Permutation.
    + apply remaining_NoDup, List.NoDup_filter. exact Hc.
    + exact Hf.
    + intros x. rewrite remaining_In, Hfilter. tauto.
Qed.

(** X6, for found records b, a, c and the configuration a, b. *)
Lemma OrderRecordsByConfiguration_spec_witness :
  Permutation (OrderRecordsByConfiguration ["b"; "a"; "c"] ["a"; "b"])
    ["b"; "a"; "c"]
  /\ OrderRecordsByConfiguration ["b"; "a"; "c"] ["a"; "b"] = ["a"; "b"; "c"].
Proof.
  split; [|reflexivity].
  destruct (OrderRecordsByConfiguration_spec ["b"; "a"; "c"] ["a"; "b"])
    as (_ & _ & _ & H).
  apply H; repeat constructor; simpl; intuition discriminate.
Defined.

(** ** The strategy factory *)

(** X7: [GetCRUDFunctions] panics for every record type, because it looks
    the type up in a factory it has just created and nothing is registered
    in a new factory.  A registered strategy is returned for its own type,
    and registering it changes the answer for no other type. *)
Theorem factory_of_GetCRUDFunctions_is_empty {Strategy : Type} :
  (forall recordType, GetCRUDFunctions (Strategy := Strategy) recordType = None)
  /\ (forall f recordType (s : Strategy),
        GetStrategy (RegisterStrategy f recordType s) recordType = inr s)
  /\ (forall f recordType other (s : Strategy),
        recordType <> other ->
        GetStrategy (RegisterStrategy f recordType s) other = GetStrategy f other)
  /\ (forall recordType,
        GetStrategy (Strategy := Strategy) NewStrategyFactory recordType
        = inl ("no strategy found for record type: " +:+ recordType)).
Proof.
  unfold GetCRUDFunctions, GetStrategy, RegisterStrategy, NewStrategyFactory.
  cbv zeta. split; [|split; [|split]]; intros.
  - rewrite lookup_empty. reflexivity.
  - rewrite lookup_insert_eq. reflexivity.
  - rewrite lookup_insert_ne by assumption. reflexivity.
  - rewrite lookup_empty. reflexivity.
Qed.


(** ** What the search loops of [Update] select *)

Section PresenceFacts.
Context {A : Type} (same : A -> A -> bool).
Hypothesis same_eq : forall x y, same x y = true <-> x = y.

Lemma existsb_same_In (x : A) (l : list A) : existsb (same x) l = true <-> In x l.
Proof.
  rewrite existsb_exists. split.
  - intros (y & Hin & Hs). apply same_eq in Hs. subst y. exact Hin.
  - intros Hin. exists x. split; [exact Hin|]. apply same_eq. reflexivity.
Qed.

Lemma not_found_in_In (xs ys : list A) (x : A) :
  In x (not_found_in same xs ys) <-> In x xs /\ ~ In x ys.
Proof.
  unfold not_found_in. rewrite filter_In, negb_true_iff.
  rewrite <- (existsb_same_In x ys), not_true_iff_false. tauto.
Qed.

Lemma not_found_in_self (xs : list A) : not_found_in same xs xs = [].
Proof.
  destruct (not_found_in same xs xs) as [|x l] eqn:Heq; [reflexivity|].
  assert (Hin : In x (not_found_in same xs xs)) by (rewrite Heq; left; reflexivity).
  apply not_found_in_In in Hin. tauto.
Qed.

Lemma diff_converges (old new : list A) (x : A) :
  In x new
  <-> (In x old /\ ~ In x (not_found_in same old new))
      \/ In x (not_found_in same new old).
Proof.
  rewrite !not_found_in_In.
  destruct (existsb (same x) old) eqn:Ho; [apply existsb_same_In in Ho|];
    destruct (existsb (same x) new) eqn:Hn; try apply existsb_same_In in Hn.
  - tauto.
  - assert (~ In x new) by (rewrite <- existsb_same_In; congruence). tauto.
  - assert (~ In x old) by (rewrite <- existsb_same_In; congruence). tauto.
  - assert (~ In x old) by (rewrite <- existsb_same_In; congruence).
    assert (~ In x new) by (rewrite <- existsb_same_In; congruence). tauto.
Qed.
End PresenceFacts.

Lemma In_sort_Slice {A} (less : A -> A -> bool) (l : list A) (x : A) :
  In x (sort_Slice less l) <-> In x l.
Proof.
  split; apply Permutation_in;
    [apply sort_Slice_perm | symmetry; apply sort_Slice_perm].
Qed.

Lemma CAARecord_String_inj (a b : CAA.CAARecord) :
  Contains (CAA.Tag a) "_" = false -> Contains (CAA.Tag b) "_" = false ->
  CAA.CAARecord_String a = CAA.CAARecord_String b -> a = b.
Proof.
  destruct a as [f t v], b as [f' t' v'].
  unfold CAA.CAARecord_String. cbn [CAA.Flag CAA.Tag CAA.Value].
  intros Ht Ht' H.
  apply app_sep_inj in H as [Hf H]; try apply Contains_Itoa.
  apply app_sep_inj in H as [Hv H]; try assumption.
  apply (inj pretty) in Hf. congruence.
Qed.

Lemma string_app_assoc (a b c : string) : (a +:+ b) +:+ c = a +:+ (b +:+ c).
Proof.
  induction a as [|x a IH]; [reflexivity|].
  change (String x ((a +:+ b) +:+ c) = String x (a +:+ (b +:+ c))).
  rewrite IH. reflexivity.
Qed.

Lemma string_length_app (a b : string) :
  String.length (a +:+ b) = (String.length a + String.length b)%nat.
Proof.
  induction a as [|x a IH]; [reflexivity|].
  change (String.length (String x (a +:+ b)) = S (String.length a + String.length b)).
  cbn [String.length]. rewrite IH. reflexivity.
Qed.

(** X8: the key of an SRV record determines the record, so the SRV diff
    compares records; the key of a CAA record determines the record when
    no tag contains an underscore.  With an underscore two different CAA
    records can share a key, and [same] then takes them for one record. *)
Theorem record_keys_identify_records :
  (forall a b : SRV.SRVRecord,
     SRV.SRVRecord_String a = SRV.SRVRecord_String b <-> a = b)
  /\ (forall a b : CAA.CAARecord,
        Contains (CAA.Tag a) "_" = false -> Contains (CAA.Tag b) "_" = false ->
        (CAA.CAARecord_String a = CAA.CAARecord_String b <-> a = b))
  /\ (forall (flag : Z) (tag rest value : string),
        CAA.same (CAA.mkCAARecord flag (tag +:+ "_" +:+ rest) value)
                 (CAA.mkCAARecord flag tag (rest +:+ "_" +:+ value)) = true
        /\ CAA.mkCAARecord flag (tag +:+ "_" +:+ rest) value
           <> CAA.mkCAARecord flag tag (rest +:+ "_" +:+ value)).
Proof.
  split; [|split].
  - intros a b. split; [apply SRVRecord_String_inj|intros ->; reflexivity].
  - intros a b Ha Hb. split; [apply CAARecord_String_inj; assumption|].
    intros ->. reflexivity.
  - intros flag tag rest value. split.
    + unfold CAA.same, CAA.CAARecord_String.
      cbn [CAA.Flag CAA.Tag CAA.Value]. apply String.eqb_eq.
      rewrite !string_app_assoc. reflexivity.
    + intros [= Htag _]. apply (f_equal String.length) in Htag.
      rewrite !string_length_app in Htag. cbn [String.length] in Htag. lia.
Qed.

(** X9: in the MX, NS, SRV and generic updates, toRemove holds exactly the
    old records that are not among the new ones and toAdd exactly the new
    records that are not among the old ones; so the old records without
    toRemove, together with toAdd, are the new records, as sets. *)
Theorem update_diff_reconciles :
  (forall (old new : list MX.MXRecord) (x : MX.MXRecord),
     (In x (MX.findRecordsToRemove old new) <-> In x old /\ ~ In x new)
     /\ (In x (MX.findRecordsToAdd old new) <-> In x new /\ ~ In x old)
     /\ (In x new <-> (In x old /\ ~ In x (MX.findRecordsToRemove old new))
                      \/ In x (MX.findRecordsToAdd old new)))
  /\ (forall (old new : list NS.NSRecord) (x : NS.NSRecord),
        (In x (NS.findRecordsToRemove old new) <-> In x old /\ ~ In x new)
        /\ (In x (NS.findRecordsToAdd old new) <-> In x new /\ ~ In x old)
        /\ (In x new <-> (In x old /\ ~ In x (NS.findRecordsToRemove old new))
                         \/ In x (NS.findRecordsToAdd old new)))
  /\ (forall (old new : list SRV.SRVRecord) (x : SRV.SRVRecord),
        (In x (SRV.recordsToRemove old new) <-> In x old /\ ~ In x new)
        /\ (In x (SRV.recordsToAdd old new) <-> In x new /\ ~ In x old)
        /\ (In x new <-> (In x old /\ ~ In x (SRV.recordsToRemove old new))
                         \/ In x (SRV.recordsToAdd old new)))
  /\ (forall (s : Generic.GenericRecordStrategy) (old new : list string) (x : string),
        let old' := map (Generic.preprocessor s) old in
        let new' := map (Generic.preprocessor s) new in
        (In x (Generic.recordsToRemove s old new) <-> In x old' /\ ~ In x new')
        /\ (In x (Generic.recordsToAdd s old new) <-> In x new' /\ ~ In x old')
        /\ (In x new' <-> (In x old' /\ ~ In x (Generic.recordsToRemove s old new))
                          \/ In x (Generic.recordsToAdd s old new))).
Proof.
  split; [|split; [|split]].
  - intros old new x. unfold MX.findRecordsToRemove, MX.findRecordsToAdd.
    split; [|split].
    + apply (not_found_in_In MX.same MX_same_eq).
    + apply (not_found_in_In MX.same MX_same_eq).
    + apply (diff_converges MX.same MX_same_eq).
  - intros old new x. unfold NS.findRecordsToRemove, NS.findRecordsToAdd.
    split; [|split].
    + apply (not_found_in_In NS.same NS_same_eq).
    + apply (not_found_in_In NS.same NS_same_eq).
    + apply (diff_converges NS.same NS_same_eq).
  - intros old new x. unfold SRV.recordsToRemove, SRV.recordsToAdd, SRV.sort_records.
    pose proof (not_found_in_In SRV.same SRV_same_eq) as Hin.
    pose proof (diff_converges SRV.same SRV_same_eq) as Hc.
    split; [|split].
    + rewrite Hin, !In_sort_Slice. reflexivity.
    + rewrite Hin, !In_sort_Slice. reflexivity.
    + set (less := fun a b : SRV.SRVRecord =>
                     String.ltb (SRV.SRVRecord_String a) (SRV.SRVRecord_String b)).
      rewrite <- (In_sort_Slice less new x) at 1.
      rewrite <- (In_sort_Slice less old x) at 1. apply Hc.
  - intros s old new x old' new'.
    unfold Generic.recordsToRemove, Generic.recordsToAdd, sort_Strings.
    fold old' new'.
    pose proof (not_found_in_In String.eqb String.eqb_eq) as Hin.
    pose proof (diff_converges String.eqb String.eqb_eq) as Hc.
    split; [|split].
    + rewrite Hin, !In_sort_Slice. reflexivity.
    + rewrite Hin, !In_sort_Slice. reflexivity.
    + rewrite <- (In_sort_Slice String.ltb new' x) at 1.
      rewrite <- (In_sort_Slice String.ltb old' x) at 1. apply Hc.
Qed.

(** ** Grouping the records read into blocks *)

Section GroupingFacts.
Context `{Countable K} {A V : Type} (key : A -> K) (val : A -> V).

Lemma flat_map_perm {X Y} (f : X -> list Y) (l l' : list X) :
  Permutation l l' -> Permutation (flat_map f l) (flat_map f l').
Proof.
  induction 1 as [|x l l' _ IH|x y l|l l' l'' _ IH1 _ IH2]; simpl.
  - reflexivity.
  - apply Permutation_app_head. exact IH.
  - rewrite !app_assoc. apply Permutation_app_tail. apply Permutation_app_comm.
  - etransitivity; eassumption.
Qed.

Lemma flat_map_perm_ext {X Y} (f g : X -> list Y) (l : list X) :
  (forall x, In x l -> Permutation (f x) (g x)) ->
  Permutation (flat_map f l) (flat_map g l).
Proof.
  induction l as [|x l IH]; intros Hfg; simpl; [reflexivity|].
  apply Permutation_app; [apply Hfg; left; reflexivity|].
  apply IH. intros y Hy. apply Hfg. right. exact Hy.
Qed.

Lemma pairs_of_step (m : gmap K (list V)) (a : A) :
  Permutation (pairs_of (group_step key val m a)) (pairs_of m ++ [(key a, val a)]).
Proof.
  unfold pairs_of, group_step. destruct (m !! key a) as [vs|] eqn:Hm.
  - cbn [default from_option id].
    rewrite <- (insert_delete_eq m).
    rewrite (flat_map_perm _ _ _ (map_to_list_insert _ _ _ (lookup_delete_eq m (key a)))).
    rewrite <- (flat_map_perm _ _ _ (map_to_list_delete _ _ _ Hm)).
    cbn [flat_map fst snd]. rewrite map_app. cbn [map].
    rewrite <- !app_assoc. apply Permutation_app_head, Permutation_app_comm.
  - cbn [default from_option id app].
    rewrite (flat_map_perm _ _ _ (map_to_list_insert _ _ _ Hm)).
    cbn [flat_map fst snd map app].
    apply (Permutation_app_comm [(key a, val a)]).
Qed.

Lemma pairs_of_foldl (l : list A) (m : gmap K (list V)) :
  Permutation (pairs_of (foldl (group_step key val) m l))
    (pairs_of m ++ map (fun a => (key a, val a)) l).
Proof.
  revert m. induction l as [|a l IH]; intros m; cbn [foldl map].
  - rewrite app_nil_r. reflexivity.
  - rewrite IH, pairs_of_step, <- app_assoc. reflexivity.
Qed.

Lemma pairs_of_groups (l : list A) :
  Permutation (pairs_of (foldl (group_step key val) ∅ l)) (map (fun a => (key a, val a)) l).
Proof.
  rewrite pairs_of_foldl. unfold pairs_of. rewrite map_to_list_empty. reflexivity.
Qed.
Lemma groups_nonempty (l : list A) (m : gmap K (list V)) :
  map_Forall (fun _ vs => vs <> []) m ->
  map_Forall (fun _ vs => vs <> []) (foldl (group_step key val) m l).
Proof.
  revert m. induction l as [|a l IH]; intros m Hm; cbn [foldl]; [exact Hm|].
  apply IH. unfold group_step. apply map_Forall_insert_2; [|exact Hm].
  destruct (default [] (m !! key a)); discriminate.
Qed.
End GroupingFacts.

Lemma flat_map_map {X Y Z} (f : X -> Y) (g : Y -> list Z) (l : list X) :
  flat_map g (map f l) = flat_map (fun x => g (f x)) l.
Proof. induction l as [|x l IH]; simpl; [reflexivity|]. rewrite IH. reflexivity. Qed.

Lemma map_flat_map {X Y Z} (f : Y -> Z) (g : X -> list Y) (l : list X) :
  map f (flat_map g l) = flat_map (fun x => map f (g x)) l.
Proof.
  induction l as [|x l IH]; simpl; [reflexivity|]. rewrite map_app, IH. reflexivity.
Qed.


Lemma blocks_of_groups_records {R} (mk : Z -> string -> R)
    (normalize : string -> string) (rrs : list DNSRecord) :
  Permutation
    (flat_map (fun block => map (mk (priority block)) (servers block))
       (blocks_of_groups (group_by_priority normalize rrs)))
    (map (fun rr => mk (base.Prio rr) (normalize (base.Content rr))) rrs).
Proof.
  pose proof (pairs_of_groups (fun rr => base.Prio rr)
                (fun rr => normalize (base.Content rr)) rrs) as Hp.
  change (foldl _ ∅ rrs) with (group_by_priority normalize rrs) in Hp.
  set (groups := group_by_priority normalize rrs) in *.
  unfold blocks_of_groups.
  rewrite (flat_map_perm _ _ _ (sort_Slice_perm _ _)).
  rewrite flat_map_map. cbn [priority servers fst snd].
  rewrite (flat_map_perm_ext _
             (fun kv : Z * list string =>
                map (fun p : Z * string => mk p.1 p.2) (map (pair kv.1) kv.2))).
  2:{ intros kv _. rewrite map_map. cbn [fst snd].
      apply Permutation_map, sort_Slice_perm. }
  rewrite <- map_flat_map. fold (pairs_of groups).
  rewrite Hp, map_map. reflexivity.
Qed.

(** X10: the blocks that the MX and NS reads store hold exactly the records
    read, each once per occurrence, with the content normalised: flattened
    as [parseRecordsFromState] flattens them they are a permutation of the
    records of the zone.  No two blocks have the same priority and no
    block has an empty list of servers. *)
Theorem MX_NS_Read_keeps_every_record (normalize : string -> string)
    (rrs : list DNSRecord) :
  let blocks := blocks_of_groups (group_by_priority normalize rrs) in
  Permutation (MX.parseRecordsFromState blocks)
    (map (fun rr => MX.mkMXRecord (base.Prio rr) (normalize (base.Content rr))) rrs)
  /\ Permutation (NS.parseRecordsFromState blocks)
       (map (fun rr => NS.mkNSRecord (base.Prio rr) (normalize (base.Content rr)))
          rrs)
  /\ List.NoDup (map priority blocks)
  /\ (forall block, In block blocks -> servers block <> []).
Proof.
  intros blocks. unfold blocks. split; [|split; [|split]].
  - apply (blocks_of_groups_records MX.mkMXRecord).
  - apply (blocks_of_groups_records NS.mkNSRecord).
  - unfold blocks_of_groups.
    eapply Permutation_NoDup.
    { apply Permutation_map. symmetry. apply sort_Slice_perm. }
    rewrite map_map. cbn [priority].
    apply NoDup_ListNoDup.
    apply (NoDup_fst_map_to_list (group_by_priority normalize rrs)).
  - intros block Hin. unfold blocks_of_groups in Hin.
    apply (Permutation_in _ (sort_Slice_perm _ _)) in Hin.
    apply in_map_iff in Hin as ([k vs] & <- & Hkv). cbn [servers snd].
    intros Hs.
    assert (Hvs : vs = []).
    { apply Permutation_nil. rewrite <- Hs. apply sort_Slice_perm. }
    subst vs.
    apply list_elem_of_In, elem_of_map_to_list in Hkv.
    pose proof (groups_nonempty (fun rr => base.Prio rr)
                  (fun rr => normalize (base.Content rr)) rrs ∅) as Hne.
    change (foldl _ ∅ rrs) with (group_by_priority normalize rrs) in Hne.
    eapply Hne; [apply map_Forall_empty|exact Hkv|reflexivity].
Qed.

Lemma SRV_key_parts (p w q : Z) :
  Split (Itoa p +:+ "_" +:+ Itoa w +:+ "_" +:+ Itoa q) "_"
  = [Itoa p; Itoa w; Itoa q].
Proof.
  change (Itoa p +:+ "_" +:+ Itoa w +:+ "_" +:+ Itoa q)
    with (Itoa p +:+ String "_" (Itoa w +:+ String "_" (Itoa q))).
  rewrite !Split_app_sep by apply Contains_Itoa.
  rewrite Split_clean by apply Contains_Itoa. reflexivity.
Qed.

(** X11: for SRV records whose priority, weight and port are Go ints, the
    blocks that the SRV read stores, flattened as [parseSRVRecords]
    flattens them, are a permutation of the records read: printing the
    three numbers into the group key and parsing them back loses nothing. *)
Theorem SRV_Read_keeps_every_record (records : list SRV.SRVRecord) :
  Forall (fun srv => is_int (SRV.Priority srv) /\ is_int (SRV.Weight srv)
                     /\ is_int (SRV.Port srv)) records ->
  Permutation (SRV.flatten (SRV.blocks_of_groups (SRV.group_records records)))
    records.
Proof.
  intros Hints.
  pose proof (pairs_of_groups
                (fun srv => Itoa (SRV.Priority srv) +:+ "_" +:+ Itoa (SRV.Weight srv)
                            +:+ "_" +:+ Itoa (SRV.Port srv))
                SRV.Target records) as Hp.
  change (foldl _ ∅ records) with (SRV.group_records records) in Hp.
  set (groups := SRV.group_records records) in *.
  set (block_of := fun k : string =>
         let parts := Split k "_" in
         (fst (Atoi (nth 0 parts EmptyString)), fst (Atoi (nth 1 parts EmptyString)),
          fst (Atoi (nth 2 parts EmptyString)))).
  unfold SRV.flatten, SRV.blocks_of_groups.
  rewrite (flat_map_perm _ _ _ (sort_Slice_perm _ _)).
  rewrite flat_map_map.
  cbn [SRV.priority SRV.weight SRV.port SRV.targets fst snd].
  rewrite (flat_map_perm_ext _
             (fun kv : string * list string =>
                map (fun p : string * string =>
                       {| SRV.Priority := (block_of p.1).1.1;
                          SRV.Weight := (block_of p.1).1.2;
                          SRV.Port := (block_of p.1).2; SRV.Target := p.2 |})
                  (map (pair kv.1) kv.2))).
  2:{ intros kv _. rewrite map_map. cbn [fst snd].
      apply Permutation_map, sort_Slice_perm. }
  rewrite <- map_flat_map. fold (pairs_of groups).
  rewrite Hp, map_map. cbn [fst snd].
  rewrite <- (map_id records) at 2.
  rewrite (map_ext_in _ id); [reflexivity|].
  intros [p w q t] Hin. rewrite List.Forall_forall in Hints.
  destruct (Hints _ Hin) as (Hp' & Hw & Hq). cbn [SRV.Priority SRV.Weight SRV.Port] in *.
  unfold block_of. cbv zeta. cbn [SRV.Priority SRV.Weight SRV.Port SRV.Target].
  rewrite SRV_key_parts. cbn [nth].
  rewrite !Atoi_Itoa by assumption. reflexivity.
Qed.

(** X11, for three records in two groups. *)
Lemma SRV_Read_keeps_every_record_witness :
  Permutation
    (SRV.flatten (SRV.blocks_of_groups (SRV.group_records Cases.srv_records)))
    Cases.srv_records.
Proof.
  apply SRV_Read_keeps_every_record.
  repeat constructor; unfold is_int, minInt, maxInt; simpl; lia.
Defined.

(** ** The zone cache in front of the client *)

Section CacheRuns.
Context `{E : Env} (c : Client) (zone : string).

Lemma GetRecordsWithCache_miss (w : World) :
  cache w !! zone = None ->
  GetRecordsWithCache c zone w
  = match GetRecords c zone w with
    | ((data, None), w1) => ((data, None), snd (cache_Set zone data w1))
    | ((_, Some e), w1) => ((EmptyString, Some e), w1)
    end.
Proof.
  intros Hm. unfold GetRecordsWithCache, bind, cache_Get. rewrite Hm.
  destruct (GetRecords c zone w) as [[data [e|]] w1]; reflexivity.
Qed.

Lemma GetRecords_cache (w : World) :
  cache (snd (GetRecords c zone w)) = cache w
  /\ ticks (snd (GetRecords c zone w)) = ticks w.
Proof. unfold GetRecords. rewrite doRequest_world. split; reflexivity. Qed.

Lemma GetRecordsWithCache_entry (w : World) (entry : ZoneCacheEntry) :
  cache w !! zone = Some entry ->
  GetRecordsWithCache c zone w
  = if TTL entry <? time_Since (clock (ticks w)) (Timestamp entry)
    then GetRecordsWithCache c zone
           {| cache := delete zone (cache w); trace := trace w;
              ticks := S (ticks w) |}
    else ((Data entry, None),
          {| cache := cache w; trace := trace w; ticks := S (ticks w) |}).
Proof.
  intros Hm.
  rewrite (GetRecordsWithCache_miss {| cache := delete zone (cache w) |})
    by apply lookup_delete_eq.
  unfold GetRecordsWithCache at 1. unfold bind, cache_Get, tick.
  rewrite Hm. cbn [cache trace ticks]. unfold ZoneCache.Get. rewrite Hm.
  destruct (TTL entry <? _); [|reflexivity].
  destruct (GetRecords c zone _) as [[data [e|]] w1]; reflexivity.
Qed.

Lemma GetRecordsWithCache_fresh (w : World) (entry : ZoneCacheEntry) :
  cache w !! zone = Some entry -> TTL entry = 30 * Second ->
  clock (ticks w) - Timestamp entry <= 30 * Second ->
  GetRecordsWithCache c zone w
  = ((Data entry, None),
     {| cache := cache w; trace := trace w; ticks := S (ticks w) |}).
Proof.
  intros Hm Httl Hage. rewrite (GetRecordsWithCache_entry w entry Hm), Httl.
  rewrite time_Since_gt_TTL.
  replace (30 * Second <? clock (ticks w) - Timestamp entry) with false
    by (symmetry; apply Z.ltb_ge; exact Hage).
  reflexivity.
Qed.

Lemma GetRecordsWithCache_stale (w : World) (entry : ZoneCacheEntry) :
  cache w !! zone = Some entry -> TTL entry = 30 * Second ->
  30 * Second < clock (ticks w) - Timestamp entry ->
  GetRecordsWithCache c zone w
  = GetRecordsWithCache c zone
      {| cache := delete zone (cache w); trace := trace w; ticks := S (ticks w) |}.
Proof.
  intros Hm Httl Hage. rewrite (GetRecordsWithCache_entry w entry Hm), Httl.
  rewrite time_Since_gt_TTL.
  replace (30 * Second <? clock (ticks w) - Timestamp entry) with true
    by (symmetry; apply Z.ltb_lt; exact Hage).
  reflexivity.
Qed.

(** X12: a successful [GetRecordsWithCache] on a zone that is not cached
    sends one read of the zone and stores the answer.  As long as that
    entry stays in the cache, a later call made no more than 30 seconds
    after the first returns the same answer, sends nothing and leaves the
    cache as it is; a later call made after more than 30 seconds sends one
    read again. *)
Theorem zone_fetched_once_per_ttl (w : World) :
  cache w !! zone = None ->
  snd (fst (GetRecordsWithCache c zone w)) = None ->
  trace (snd (GetRecordsWithCache c zone w)) = (trace w ++ [zone_read c zone])%list
  /\ forall later : World,
       cache later !! zone = cache (snd (GetRecordsWithCache c zone w)) !! zone ->
       (clock (ticks later) - clock (ticks w) <= 30 * Second ->
        fst (GetRecordsWithCache c zone later) = fst (GetRecordsWithCache c zone w)
        /\ trace (snd (GetRecordsWithCache c zone later)) = trace later
        /\ cache (snd (GetRecordsWithCache c zone later)) = cache later)
       /\ (30 * Second < clock (ticks later) - clock (ticks w) ->
           trace (snd (GetRecordsWithCache c zone later))
           = (trace later ++ [zone_read c zone])%list).
Proof.
  intros Hm Hok. rewrite (GetRecordsWithCache_miss w Hm) in *.
  pose proof (GetRecords_trace c zone w) as Ht.
  destruct (GetRecords_cache w) as [Hc Hk].
  destruct (GetRecords c zone w) as [[data [e|]] w1]; [discriminate|].
  cbn [fst snd] in *. split; [exact Ht|].
  intros later Hl.
  assert (Hentry : cache later !! zone
                   = Some {| Data := data; Timestamp := clock (ticks w);
                             TTL := 30 * Second |}).
  { rewrite Hl. unfold cache_Set, tick. cbn [snd cache ticks].
    unfold ZoneCache.Set_. rewrite lookup_insert_eq, Hk. reflexivity. }
  split.
  - intros Hage.
    rewrite (GetRecordsWithCache_fresh later _ Hentry eq_refl Hage).
    cbn [fst snd trace cache Data]. auto.
  - intros Hage.
    rewrite (GetRecordsWithCache_stale later _ Hentry eq_refl Hage).
    rewrite (GetRecordsWithCache_miss {| cache := delete zone (cache later) |})
      by apply lookup_delete_eq.
    pose proof (GetRecords_trace c zone
                  {| cache := delete zone (cache later); trace := trace later;
                     ticks := S (ticks later) |}) as Ht'.
    destruct (GetRecords c zone _) as [[data' [e'|]] w1']; cbn [snd] in *;
      [exact Ht'|rewrite cache_Set_trace; exact Ht'].
Qed.

(** X13: a [GetRecordsWithCache] that returns an error has sent one read
    of the zone and leaves no entry for the zone in the cache, so the next
    call sends a read again: failures are never served from the cache. *)
Theorem failed_fetch_is_not_cached (w : World) (e : string) :
  snd (fst (GetRecordsWithCache c zone w)) = Some e ->
  cache (snd (GetRecordsWithCache c zone w)) !! zone = None
  /\ trace (snd (GetRecordsWithCache c zone w)) = (trace w ++ [zone_read c zone])%list
  /\ trace (snd (GetRecordsWithCache c zone (snd (GetRecordsWithCache c zone w))))
     = (trace w ++ [zone_read c zone; zone_read c zone])%list.
Proof.
  intros Herr.
  assert (Hmiss : forall w0, cache w0 !! zone = None ->
            snd (fst (GetRecordsWithCache c zone w0)) = Some e ->
            cache (snd (GetRecordsWithCache c zone w0)) !! zone = None
            /\ trace (snd (GetRecordsWithCache c zone w0))
               = (trace w0 ++ [zone_read c zone])%list).
  { intros w0 Hm. rewrite (GetRecordsWithCache_miss w0 Hm).
    pose proof (GetRecords_trace c zone w0) as Ht.
    destruct (GetRecords_cache w0) as [Hc _].
    destruct (GetRecords c zone w0) as [[data [e'|]] w1]; [|discriminate].
    cbn [fst snd] in *. intros _. rewrite Hc. auto. }
  assert (Hfirst : cache (snd (GetRecordsWithCache c zone w)) !! zone = None
                   /\ trace (snd (GetRecordsWithCache c zone w))
                      = (trace w ++ [zone_read c zone])%list).
  { destruct (cache w !! zone) as [entry|] eqn:Hm; [|apply Hmiss; assumption].
    revert Herr. rewrite (GetRecordsWithCache_entry w entry Hm).
    destruct (TTL entry <? _); [|discriminate].
    intros Herr. apply (Hmiss _ (lookup_delete_eq _ _) Herr). }
  destruct Hfirst as [Hnone Htrace]. split; [exact Hnone|]. split; [exact Htrace|].
  set (w1 := snd (GetRecordsWithCache c zone w)) in *.
  rewrite (GetRecordsWithCache_miss w1 Hnone).
  pose proof (GetRecords_trace c zone w1) as Ht.
  destruct (GetRecords c zone w1) as [[data [e'|]] w2]; cbn [snd] in *;
    [|unfold cache_Set, tick; cbn [snd trace]];
    rewrite Ht, Htrace, <- app_assoc; reflexivity.
Qed.
Lemma GetRecordsWithCache_miss_trace (w : World) :
  cache w !! zone = None ->
  trace (snd (GetRecordsWithCache c zone w)) = (trace w ++ [zone_read c zone])%list.
Proof.
  intros Hm. rewrite (GetRecordsWithCache_miss w Hm).
  pose proof (GetRecords_trace c zone w) as Ht.
  destruct (GetRecords c zone w) as [[data [e|]] w1]; cbn [snd] in *;
    [exact Ht|rewrite cache_Set_trace; exact Ht].
Qed.

Lemma GetRecordsWithCache_miss_other (w : World) (other : string) :
  zone <> other -> cache w !! zone = None ->
  cache (snd (GetRecordsWithCache c zone w)) !! other = cache w !! other.
Proof.
  intros Hne Hm. rewrite (GetRecordsWithCache_miss w Hm).
  destruct (GetRecords_cache w) as [Hc _].
  destruct (GetRecords c zone w) as [[data [e|]] w1]; cbn [snd] in *.
  - rewrite Hc. reflexivity.
  - unfold cache_Set, tick. cbn [snd cache]. unfold ZoneCache.Set_.
    rewrite lookup_insert_ne by exact Hne. rewrite Hc. reflexivity.
Qed.

(** X14: after [InvalidateZoneCache] of a zone, and after
    [ClearZoneCache], the next [GetRecordsWithCache] of the zone sends a
    read, whatever the cache held before.  Invalidating or reading one
    zone leaves the entries of every other zone as they were. *)
Theorem invalidation_forces_a_fetch (w : World) :
  trace (snd (GetRecordsWithCache c zone (snd (InvalidateZoneCache zone w))))
  = (trace w ++ [EvInvalidate zone; zone_read c zone])%list
  /\ trace (snd (GetRecordsWithCache c zone (snd (ClearZoneCache w))))
     = (trace w ++ [EvClear; zone_read c zone])%list
  /\ (forall other, zone <> other ->
        cache (snd (InvalidateZoneCache zone w)) !! other = cache w !! other
        /\ cache (snd (GetRecordsWithCache c zone w)) !! other = cache w !! other).
Proof.
  split; [|split].
  - rewrite GetRecordsWithCache_miss_trace by apply lookup_delete_eq.
    cbn [snd InvalidateZoneCache trace]. rewrite <- app_assoc. reflexivity.
  - rewrite GetRecordsWithCache_miss_trace by apply lookup_empty.
    cbn [snd ClearZoneCache trace]. rewrite <- app_assoc. reflexivity.
  - intros other Hne. split.
    + cbn [snd InvalidateZoneCache cache]. apply lookup_delete_ne. exact Hne.
    + destruct (cache w !! zone) as [entry|] eqn:Hm.
      * rewrite (GetRecordsWithCache_entry w entry Hm).
        destruct (TTL entry <? _); [|reflexivity].
        rewrite GetRecordsWithCache_miss_other;
          [|exact Hne|apply lookup_delete_eq].
        cbn [cache]. apply lookup_delete_ne. exact Hne.
      * apply GetRecordsWithCache_miss_other; assumption.
Qed.
End CacheRuns.

(** X12, on the sample provider: the second read, one second after the
    first, is answered from the cache. *)
Lemma zone_fetched_once_per_ttl_witness :
  fst (GetRecordsWithCache (E := Sample.env Sample.success_body) Sample.client
         "example.com"
         (snd (GetRecordsWithCache (E := Sample.env Sample.success_body)
                 Sample.client "example.com" Sample.fresh)))
  = (Sample.zone_body, None)
  /\ trace (snd (GetRecordsWithCache (E := Sample.env Sample.success_body)
                   Sample.client "example.com"
                   (snd (GetRecordsWithCache (E := Sample.env Sample.success_body)
                           Sample.client "example.com" Sample.fresh))))
     = [zone_read Sample.client "example.com"].
Proof.
  destruct (zone_fetched_once_per_ttl (E := Sample.env Sample.success_body)
              Sample.client "example.com" Sample.fresh) as [_ Hlater];
    [reflexivity|vm_compute; reflexivity|].
  destruct (Hlater (snd (GetRecordsWithCache (E := Sample.env Sample.success_body)
                           Sample.client "example.com" Sample.fresh)) eq_refl)
    as [Hfresh _].
  destruct Hfresh as (H1 & H2 & _); [vm_compute; discriminate|].
  split; [rewrite H1; vm_compute; reflexivity|rewrite H2; vm_compute; reflexivity].
Defined.

(** X13, on a provider that cannot be reached. *)
Lemma failed_fetch_is_not_cached_witness :
  cache (snd (GetRecordsWithCache (E := Cases.offline) Sample.client
                "example.com" Sample.fresh)) !! "example.com" = None.
Proof.
  apply (failed_fetch_is_not_cached (E := Cases.offline) Sample.client
           "example.com" Sample.fresh
           "failed to make request: dial tcp: connection refused").
  vm_compute. reflexivity.
Defined.

(** ** What the operations send, and when they touch the cache *)

Lemma MX_Read_reads `{E : Env} c (d : ResourceData (list RecordBlock)) :
  only_reads c (zone d) (MX.Read c d).
Proof. unfold MX.Read, GetZone. reads_tac. Qed.

Lemma NS_Read_reads `{E : Env} c (d : ResourceData (list RecordBlock)) :
  only_reads c (zone d) (NS.Read c d).
Proof. unfold NS.Read, GetZone. reads_tac. Qed.

Lemma CNAME_Read_reads `{E : Env} c (d : ResourceData string) :
  only_reads c (zone d) (CNAME.Read c d).
Proof. unfold CNAME.Read, GetZone. reads_tac. Qed.

Lemma Import_with_reads `{E : Env} {T} (c : Client)
    (Read : ResourceData T -> M (error * ResourceData T)) :
  (forall d, only_reads c (zone d) (Read d)) ->
  forall d, only_reads c (fst (fst (ParseResourceID (Id d)))) (Import_with Read d).
Proof.
  intros HR d. unfold Import_with.
  destruct (ParseResourceID (Id d)) as [[z n] [e|]]; cbn [fst].
  - apply only_reads_ret.
  - apply (HR (Set_zone_name d z n)).
Qed.

(** X15: on every run, [Read] of each of the six strategies sends nothing
    but reads of the zone of the resource, and [Import] nothing but reads
    of the zone named in the identifier: neither ever writes to the
    provider, invalidates or clears the cache. *)
Theorem reads_and_imports_only_read `{E : Env} (c : Client) :
  (forall s d, only_reads c (zone d) (Generic.Read s c d))
  /\ (forall d, only_reads c (zone d) (MX.Read c d))
  /\ (forall d, only_reads c (zone d) (NS.Read c d))
  /\ (forall d, only_reads c (zone d) (CNAME.Read c d))
  /\ (forall d, only_reads c (zone d) (SRV.Read c d))
  /\ (forall d, only_reads c (zone d) (CAA.Read c d))
  /\ (forall s d, only_reads c (fst (fst (ParseResourceID (Id d))))
                    (Generic.Import s c d))
  /\ (forall d, only_reads c (fst (fst (ParseResourceID (Id d)))) (MX.Import c d))
  /\ (forall d, only_reads c (fst (fst (ParseResourceID (Id d)))) (NS.Import c d))
  /\ (forall d, only_reads c (fst (fst (ParseResourceID (Id d)))) (CNAME.Import c d))
  /\ (forall d, only_reads c (fst (fst (ParseResourceID (Id d)))) (SRV.Import c d))
  /\ (forall d, only_reads c (fst (fst (ParseResourceID (Id d)))) (CAA.Import c d)).
Proof.
  repeat split; intros.
  - apply Generic_Read_reads.
  - apply MX_Read_reads.
  - apply NS_Read_reads.
  - apply CNAME_Read_reads.
  - apply SRV_Read_reads.
  - apply CAA_Read_reads.
  - apply Import_with_reads. apply Generic_Read_reads.
  - apply Import_with_reads. apply MX_Read_reads.
  - apply Import_with_reads. apply NS_Read_reads.
  - apply Import_with_reads. apply CNAME_Read_reads.
  - apply Import_with_reads. apply SRV_Read_reads.
  - apply Import_with_reads. apply CAA_Read_reads.
Qed.

(** ** Failed writes leave the cache alone *)

Lemma quiet_error {A} (e : string) (a : A) : fails_cleanly a (ret (Some e, a)).
Proof.
  intros w _. split; [reflexivity|].
  exists []. simpl. rewrite app_nil_r. split; reflexivity.
Qed.

Lemma quiet_success {A} (m : M unit) (a a' : A) :
  fails_cleanly a (bind m (fun _ => ret (None, a'))).
Proof. intros w H. exfalso. apply H. unfold bind, ret. destruct (m w). reflexivity. Qed.

Lemma quiet_bind {A B} (b : B) (m : M A) (f : A -> M (error * B)) :
  only_posts m -> (forall a, fails_cleanly b (f a)) -> fails_cleanly b (bind m f).
Proof.
  intros Hm Hf w. unfold bind. destruct (Hm w) as (evs1 & H1 & F1).
  destruct (m w) as [a w1]. intros Herr.
  destruct (Hf a w1 Herr) as (Hb & evs2 & H2 & F2). split; [exact Hb|].
  exists (evs1 ++ evs2)%list. cbn [snd] in H1. split.
  - rewrite H2, H1, app_assoc. reflexivity.
  - rewrite forallb_app, F1, F2. reflexivity.
Qed.

Lemma only_posts_RemoveRecord `{E : Env} (c : Client)
    (domainName subdomain recordType content : string) (priority : option Z) :
  only_posts (RemoveRecord c domainName subdomain recordType content priority).
Proof. unfold RemoveRecord. apply only_posts_doRequest. Qed.

Ltac quiet_tac :=
  repeat first
    [ apply quiet_error
    | apply quiet_success
    | apply quiet_bind;
      [ posts_with GetRecordsWithCache_reads | intros ]
    | match goal with
      | |- fails_cleanly _ (match ?x with _ => _ end) => destruct x
      | |- fails_cleanly _ (let (_, _) := ?x in _) => destruct x
      | |- fails_cleanly _ (if ?x then _ else _) => destruct x
      end ].

(** X16: when [Create], [Update] or [Delete] of the MX, NS or CNAME
    strategy, or [Delete] of the generic, SRV or CAA strategy, returns an
    error, the resource data are as they were given and the run has only
    sent requests: the zone cache is not invalidated, whatever was written
    before the failure. *)
Theorem failed_writes_leave_state_and_cache `{E : Env} (c : Client) :
  (forall d, fails_cleanly d (MX.Create c d))
  /\ (forall d, fails_cleanly d (MX.Update c d))
  /\ (forall d, fails_cleanly d (MX.Delete c d))
  /\ (forall d, fails_cleanly d (NS.Create c d))
  /\ (forall d, fails_cleanly d (NS.Update c d))
  /\ (forall d, fails_cleanly d (NS.Delete c d))
  /\ (forall d, fails_cleanly d (CNAME.Create c d))
  /\ (forall d, fails_cleanly d (CNAME.Update c d))
  /\ (forall d, fails_cleanly d (CNAME.Delete c d))
  /\ (forall s d, fails_cleanly d (Generic.Delete s c d))
  /\ (forall d, fails_cleanly d (SRV.Delete c d))
  /\ (forall d, fails_cleanly d (CAA.Delete c d)).
Proof.
  repeat match goal with |- _ /\ _ => split end; intros.
  - unfold MX.Create. quiet_tac.
  - unfold MX.Update, GetChange, MX.remove_one, MX.add_one. quiet_tac.
  - unfold MX.Delete. quiet_tac.
  - unfold NS.Create. quiet_tac.
  - unfold NS.Update, GetChange. quiet_tac.
  - unfold NS.Delete. quiet_tac.
  - unfold CNAME.Create. quiet_tac.
  - unfold CNAME.Update, GetChange. quiet_tac.
  - unfold CNAME.Delete. quiet_tac.
  - unfold Generic.Delete. quiet_tac.
  - unfold SRV.Delete. quiet_tac.
  - unfold CAA.Delete. quiet_tac.
Qed.

(** ** What a loop of writes sends *)

Lemma for_range_trace `{E : Env} {A} (body : A -> M error) (ev : A -> Event)
    (l : list A) (w : World) :
  (forall x w, trace (snd (body x w)) = (trace w ++ [ev x])%list) ->
  match fst (for_range body l w) with
  | None => trace (snd (for_range body l w)) = (trace w ++ map ev l)%list
  | Some _ =>
      exists n, (n < length l)%nat
        /\ trace (snd (for_range body l w))
           = (trace w ++ map ev (firstn (S n) l))%list
  end.
Proof.
  intros Hb. revert w. induction l as [|x l IH]; intros w; cbn [for_range].
  - cbn. rewrite app_nil_r. reflexivity.
  - unfold bind. pose proof (Hb x w) as Hx.
    destruct (body x w) as [[e|] w1]; cbn [snd] in Hx.
    + cbn [ret fst snd]. exists 0%nat. split; [simpl; lia|]. exact Hx.
    + specialize (IH w1). destruct (fst (for_range body l w1)).
      * destruct IH as (n & Hn & Ht). exists (S n). split; [simpl; lia|].
        rewrite Ht, Hx, <- app_assoc. reflexivity.
      * rewrite IH, Hx, <- app_assoc. reflexivity.
Qed.

Lemma RemoveRecord_trace `{E : Env} (c : Client)
    (domainName subdomain recordType content : string) (w : World) :
  trace (snd (RemoveRecord c domainName subdomain recordType content None w))
  = (trace w ++ [request c "zone/remove_record"
                   [("domain_name", domainName); ("subdomain", subdomain);
                    ("record_type", recordType); ("content", content);
                    ("output_content_type", "plain")]])%list.
Proof.
  unfold RemoveRecord. rewrite doRequest_world.
  destruct (_ || _); reflexivity.
Qed.

(** X17: the generic [Delete] sends one removal per declared record, in
    the declared order, and stops at the first one that fails.  When it
    returns without error it has sent them all, then invalidated the zone,
    whose cache entry is gone; when it returns an error the cache is
    untouched.  The resource data are returned unchanged either way. *)
Theorem Generic_Delete_requests `{E : Env} (s : Generic.GenericRecordStrategy)
    (c : Client) (d : ResourceData (list string)) (w : World) :
  match fst (fst (Generic.Delete s c d w)) with
  | None =>
      trace (snd (Generic.Delete s c d w))
      = (trace w ++ map (Generic_removal s c d) (Get d) ++ [EvInvalidate (zone d)])%list
      /\ cache (snd (Generic.Delete s c d w)) !! zone d = None
  | Some _ =>
      exists n, (n < length (Get d))%nat
        /\ trace (snd (Generic.Delete s c d w))
           = (trace w ++ map (Generic_removal s c d) (firstn (S n) (Get d)))%list
        /\ cache (snd (Generic.Delete s c d w)) = cache w
  end
  /\ snd (fst (Generic.Delete s c d w)) = d.
Proof.
  unfold Generic.Delete, GetZone, GetName.
  set (body := fun record : string => checked _ _).
  pose proof (for_range_trace body (Generic_removal s c d) (Get d) w) as Ht.
  assert (Hcache : forall l w0, cache (snd (for_range body l w0)) = cache w0).
  { induction l as [|x l IH]; intros w0; cbn [for_range]; [reflexivity|].
    unfold bind. 
    assert (Hx : cache (snd (body x w0)) = cache w0).
    { unfold body. rewrite checked_world. unfold RemoveRecord.
      rewrite doRequest_world. reflexivity. }
    destruct (body x w0) as [[e|] w1]; cbn [snd] in *; [exact Hx|].
    rewrite IH. exact Hx. }
  specialize (Hcache (Get d) w).
  unfold bind, InvalidateZoneCache, ret.
  destruct (for_range body (Get d) w) as [[e|] w1]; cbn [fst snd] in *.
  - split; [|reflexivity]. destruct Ht as (n & Hn & Ht); [|exists n; auto].
    intros x w0. unfold body. rewrite checked_world. apply RemoveRecord_trace.
  - split; [|reflexivity]. split.
    + rewrite Ht, <- app_assoc; [reflexivity|].
      intros x w0. unfold body. rewrite checked_world. apply RemoveRecord_trace.
    + unfold ZoneCache.Invalidate. apply lookup_delete_eq.
Qed.

Lemma MX_remove_one_trace `{E : Env} (c : Client) (d : ResourceData (list RecordBlock))
    (record : MX.MXRecord) (w : World) :
  trace (snd (MX.remove_one c (zone d) (name d) record w))
  = (trace w ++ [MX_removal c d record])%list.
Proof.
  rewrite MX_remove_one_world. unfold RemoveRecord. rewrite doRequest_world.
  reflexivity.
Qed.

Lemma MX_add_one_trace `{E : Env} (c : Client) (d : ResourceData (list RecordBlock))
    (record : MX.MXRecord) (w : World) :
  trace (snd (MX.add_one c (zone d) (name d) record w))
  = (trace w ++ [MX_addition c d record])%list.
Proof.
  unfold MX.add_one. rewrite checked_world, AddRecord_MX, doRequest_world.
  reflexivity.
Qed.

(** X18: the MX [Update] sends the removals of toRemove, then the additions
    of toAdd, each in order, and stops at the first request that fails; when
    it returns without error it has sent them all and then invalidated the
    zone.  When the old and the new blocks hold the same records, in
    whatever order and grouping, it sends no request at all. *)
Theorem MX_Update_requests `{E : Env} (c : Client)
    (d : ResourceData (list RecordBlock)) (w : World) :
  let oldRecords := MX.parseRecordsFromState (prior d) in
  let newRecords := MX.parseRecordsFromState (planned d) in
  let writes :=
    (map (MX_removal c d) (MX.findRecordsToRemove oldRecords newRecords)
     ++ map (MX_addition c d) (MX.findRecordsToAdd oldRecords newRecords))%list in
  match fst (fst (MX.Update c d w)) with
  | None =>
      trace (snd (MX.Update c d w))
      = (trace w ++ writes ++ [EvInvalidate (zone d)])%list
  | Some _ =>
      exists n, (n < length writes)%nat
        /\ trace (snd (MX.Update c d w)) = (trace w ++ firstn (S n) writes)%list
  end
  /\ ((forall record, In record oldRecords <-> In record newRecords) ->
      MX.Update c d w = ((None, d), snd (InvalidateZoneCache (zone d) w))).
Proof.
  intros oldRecords newRecords writes. split.
  - unfold MX.Update, GetChange, GetZone, GetName.
    fold oldRecords newRecords.
    set (toRemove := MX.findRecordsToRemove oldRecords newRecords) in *.
    set (toAdd := MX.findRecordsToAdd oldRecords newRecords) in *.
    pose proof (for_range_trace (MX.remove_one c (zone d) (name d))
                  (MX_removal c d) toRemove w (MX_remove_one_trace c d)) as Hr.
    unfold bind, InvalidateZoneCache, ret.
    destruct (for_range (MX.remove_one c (zone d) (name d)) toRemove w)
      as [[e|] w1]; cbn [fst snd] in *.
    + destruct Hr as (n & Hn & Ht). exists n. unfold writes.
      rewrite length_app, !length_map. split; [lia|].
      rewrite Ht, firstn_app, length_map, firstn_map.
      replace (S n - length toRemove)%nat with 0%nat by lia.
      rewrite firstn_O, app_nil_r. reflexivity.
    + pose proof (for_range_trace (MX.add_one c (zone d) (name d))
                    (MX_addition c d) toAdd w1 (MX_add_one_trace c d)) as Ha.
      destruct (for_range (MX.add_one c (zone d) (name d)) toAdd w1)
        as [[e|] w2]; cbn [fst snd trace] in *.
      * destruct Ha as (n & Hn & Ht). exists (length toRemove + n)%nat.
        unfold writes. rewrite length_app, !length_map. split; [lia|].
        rewrite Ht, Hr, <- app_assoc. f_equal.
        replace (S (length toRemove + n))
          with (length (map (MX_removal c d) toRemove) + S n)%nat
          by (rewrite length_map; lia).
        rewrite firstn_app_2, firstn_map. reflexivity.
      * rewrite Ha, Hr. unfold writes. rewrite <- !app_assoc. reflexivity.
  - intros Hsame.
    assert (Hrm : MX.findRecordsToRemove oldRecords newRecords = []).
    { destruct (MX.findRecordsToRemove oldRecords newRecords) as [|x l] eqn:Heq;
        [reflexivity|].
      assert (Hin : In x (MX.findRecordsToRemove oldRecords newRecords))
        by (rewrite Heq; left; reflexivity).
      apply (not_found_in_In MX.same MX_same_eq) in Hin.
      destruct Hin as [Ho Hn]. apply Hsame in Ho. contradiction. }
    assert (Had : MX.findRecordsToAdd oldRecords newRecords = []).
    { destruct (MX.findRecordsToAdd oldRecords newRecords) as [|x l] eqn:Heq;
        [reflexivity|].
      assert (Hin : In x (MX.findRecordsToAdd oldRecords newRecords))
        by (rewrite Heq; left; reflexivity).
      apply (not_found_in_In MX.same MX_same_eq) in Hin.
      destruct Hin as [Hn Ho]. apply Hsame in Hn. contradiction. }
    unfold MX.Update, GetChange, GetZone, GetName.
    fold oldRecords newRecords. rewrite Hrm, Had. reflexivity.
Qed.

(** X18, for two servers of one block that change places. *)
Lemma MX_Update_requests_witness :
  MX.Update (E := Sample.env Sample.success_body) Sample.client
    Cases.mx_reordered Sample.fresh
  = ((None, Cases.mx_reordered),
     snd (InvalidateZoneCache "example.com" Sample.fresh)).
Proof.
  apply (MX_Update_requests (E := Sample.env Sample.success_body) Sample.client
           Cases.mx_reordered Sample.fresh).
  intros record. vm_compute. tauto.
Defined.

(** ** Validation, reading back, and the deprecated resource *)

(** X19: [Create] of the generic strategy with its default validator, of
    the SRV strategy and of the CAA strategy, given no record, returns the
    validation error with the resource data and the process state
    unchanged: nothing is sent.  The A, AAAA and TXT strategies use the
    default validator.  The MX [Create] has no such check: given no block
    it sends nothing, sets the identifier and reports success. *)
Theorem creates_validate_before_any_request `{E : Env} (c : Client) (w : World) :
  (forall s d,
     Generic.validator s = Generic.DefaultRecordValidator (Generic.recordType s) ->
     Get d = [] ->
     Generic.Create s c d w
     = ((Some ("at least one " +:+ Generic.recordType s
               +:+ " record must be specified"), d), w))
  /\ (forall d,
        SRV.parseSRVRecords d = [] ->
        SRV.Create c d w
        = ((Some "at least one SRV record must be specified", d), w))
  /\ (forall d,
        Get d = [] ->
        CAA.Create c d w
        = ((Some "at least one CAA record must be specified", d), w))
  /\ (forall d,
        Get d = [] ->
        MX.Create c d w
        = ((None, SetResourceID d (zone d) (name d) "MX"),
           snd (InvalidateZoneCache (zone d) w)))
  /\ Generic.validator Generic.NewARecordStrategy
     = Generic.DefaultRecordValidator "A"
  /\ Generic.validator Generic.NewAAAARecordStrategy
     = Generic.DefaultRecordValidator "AAAA"
  /\ Generic.validator Generic.NewTXTRecordStrategy
     = Generic.DefaultRecordValidator "TXT".
Proof.
  split; [|split; [|split; [|split]]].
  - intros s d Hv Hd. unfold Generic.Create. rewrite Hv, Hd. reflexivity.
  - intros d Hd. unfold SRV.Create. rewrite Hd. reflexivity.
  - intros d Hd. unfold CAA.Create, CAA.parseCAARecords. rewrite Hd. reflexivity.
  - intros d Hd. unfold MX.Create. rewrite Hd. reflexivity.
  - repeat split.
Qed.

(** X19, for an A record set declared with no record. *)
Lemma creates_validate_before_any_request_witness :
  Generic.Create (E := Sample.env Sample.success_body) Generic.NewARecordStrategy
    Sample.client Cases.a_empty Sample.fresh
  = ((Some "at least one A record must be specified", Cases.a_empty), Sample.fresh).
Proof.
  destruct (creates_validate_before_any_request
              (E := Sample.env Sample.success_body) Sample.client Sample.fresh)
    as [H _].
  apply (H Generic.NewARecordStrategy Cases.a_empty); reflexivity.
Defined.

Section SortedFacts.
Context {A : Type} (less : A -> A -> bool).
Hypothesis less_asym : forall x y, less x y = true -> less y x = false.
Hypothesis less_trans :
  forall x y z, less x y = true -> less y z = true -> less x z = true.
Hypothesis less_total :
  forall x y, less x y = false -> less y x = false -> x = y.

Lemma not_after_trans (a b c : A) :
  not_after less a b -> not_after less b c -> not_after less a c.
Proof.
  unfold not_after. intros Hab Hbc. destruct (less c a) eqn:Hca; [|reflexivity].
  rewrite (less_le_trans less less_trans less_total b c a Hbc Hca) in Hab.
  discriminate.
Qed.

Lemma sort_insert_sorted (x : A) (l : list A) :
  StronglySorted (not_after less) l -> StronglySorted (not_after less) (sort_insert less x l).
Proof.
  induction 1 as [|y l Hl IH Hy]; cbn [sort_insert].
  - constructor; constructor.
  - destruct (less y x) eqn:Hyx.
    + constructor; [exact IH|].
      apply List.Forall_forall. intros z Hz.
      apply (Permutation_in _ (sort_insert_perm less x l)) in Hz.
      destruct Hz as [<-|Hz]; [apply less_asym; exact Hyx|].
      rewrite List.Forall_forall in Hy. apply Hy. exact Hz.
    + constructor; [constructor; assumption|].
      constructor; [exact Hyx|].
      eapply List.Forall_impl; [|exact Hy].
      intros z Hz. eapply not_after_trans; [exact Hyx|exact Hz].
Qed.

Lemma sort_Slice_sorted (l : list A) : StronglySorted (not_after less) (sort_Slice less l).
Proof.
  induction l as [|x l IH]; [constructor|]. apply sort_insert_sorted. exact IH.
Qed.
End SortedFacts.


(** X20: when the zone is obtained and decoded, the generic [Read] returns
    no error.  If the zone holds no record of the type under the name it
    clears the identifier and changes nothing else; otherwise it keeps the
    identifier and stores the contents found, all of them, in ascending
    order, so that what is stored does not depend on the order in which
    the provider lists the records. *)
Theorem Generic_Read_stores_sorted_records `{E : Env}
    (s : Generic.GenericRecordStrategy) (c : Client)
    (d : ResourceData (list string)) (w : World)
    (response : string) (zoneResponse : DNSZoneResponse) :
  fst (GetRecordsWithCache c (zone d) w) = (response, None) ->
  json_DNSZoneResponse response = Some zoneResponse ->
  let found := found_contents s zoneResponse (name d) in
  let d' := snd (fst (Generic.Read s c d w)) in
  fst (fst (Generic.Read s c d w)) = None
  /\ (found = [] -> d' = SetId d EmptyString)
  /\ (found <> [] ->
      Id d' = Id d /\ zone d' = zone d /\ name d' = name d
      /\ exists stored,
           written d' = Some stored
           /\ Permutation stored found
           /\ StronglySorted (fun a b => String.ltb b a = false) stored
           /\ forall found', Permutation found found' ->
                             stored = sort_Strings found').
Proof.
  intros Hget Hjson found d'. unfold d', Generic.Read, bind, GetZone, GetName.
  destruct (GetRecordsWithCache c (zone d) w) as [[r err] w1].
  cbn [fst] in Hget. injection Hget as -> ->. rewrite Hjson.
  fold (found_contents s zoneResponse (name d)). fold found.
  destruct found as [|x l] eqn:Hf.
  - cbn. split; [reflexivity|]. split; [reflexivity|]. intros H. contradiction.
  - cbn [length Nat.eqb ret fst snd]. split; [reflexivity|].
    split; [discriminate|]. intros _.
    cbn [Id zone name written Set_records Set_zone_name].
    repeat split.
    exists (sort_Strings (x :: l)). split; [reflexivity|].
    split; [apply sort_Slice_perm|]. split.
    + apply (sort_Slice_sorted String.ltb ltb_asym ltb_trans ltb_total).
    + intros found' Hp. apply sort_Strings_permutation. exact Hp.
Qed.

(** X20, on the sample zone: one A record under www. *)
Lemma Generic_Read_stores_sorted_records_witness :
  written (snd (fst (Generic.Read (E := Sample.env Sample.success_body)
                       Generic.NewARecordStrategy Sample.client
                       Sample.a_unchanged Sample.fresh)))
  = Some ["1.1.1.1"].
Proof.
  destruct (Generic_Read_stores_sorted_records
              (E := Sample.env Sample.success_body) Generic.NewARecordStrategy
              Sample.client Sample.a_unchanged Sample.fresh
              Sample.zone_body Sample.zone_decoded)
    as (_ & _ & H); [vm_compute; reflexivity|vm_compute; reflexivity|].
  destruct H as (_ & _ & _ & stored & Hw & _ & _ & Hs); [vm_compute; discriminate|].
  rewrite Hw, (Hs ["1.1.1.1"]); [reflexivity|vm_compute; reflexivity].
Defined.

(** X21: the delete of the deprecated resource panics exactly when the
    record type is MX or NS and the record is the empty text (it indexes
    the last byte of the record); it panics before anything is sent. *)
Theorem Legacy_delete_panics_on_empty_record `{E : Env} (c : Client)
    (d : Legacy.Data) (w : World) :
  (fst (Legacy.resourceDnsRecordDelete c d w) = None
   <-> Legacy.with_priority (Legacy.type d) = true
       /\ Legacy.record d = EmptyString)
  /\ (fst (Legacy.resourceDnsRecordDelete c d w) = None ->
      snd (Legacy.resourceDnsRecordDelete c d w) = w).
Proof.
  unfold Legacy.resourceDnsRecordDelete.
  destruct (Legacy.with_priority (Legacy.type d)) eqn:Hp.
  - destruct (Legacy.record d) as [|a r] eqn:Hr.
    + split; [split; auto|reflexivity].
    + unfold bind.
      destruct (Legacy.RemoveRecord _ _ _ _ _ _ w) as [[response [e|]] w1];
        [destruct (String.eqb e "RR_NOT_FOUND")|]; cbn [fst ret];
        (split; [split; [discriminate|intros [_ H]; discriminate]|discriminate]).
  - unfold bind.
    destruct (Legacy.RemoveRecord _ _ _ _ _ _ w) as [[response [e|]] w1];
      [destruct (String.eqb e "RR_NOT_FOUND")|]; cbn [fst ret];
      (split; [split; [discriminate|intros [H _]; discriminate]|discriminate]).
Qed.

(** X22: the create of the deprecated resource sends one request and
    fails only when the request cannot be made or its answer cannot be
    read; whatever body the provider answers with, it reports success and
    sets the identifier zone/name/type, which [ParseResourceID] rejects. *)
Theorem Legacy_create_ignores_the_answer `{E : Env} (c : Client)
    (d : Legacy.Data) (w : World) :
  let created :=
    Legacy.SetId d (Legacy.zone d +:+ "/" +:+ Legacy.name d +:+ "/" +:+ Legacy.type d) in
  (exists url params,
     trace (snd (Legacy.resourceDnsRecordCreate c d w))
     = (trace w ++ [EvPost url params])%list
     /\ match http_post (trace w) url params with
        | Body _ => fst (Legacy.resourceDnsRecordCreate c d w) = (None, created)
        | PostError msg =>
            fst (Legacy.resourceDnsRecordCreate c d w)
            = (Some ("failed to create DNS record: " +:+ "failed to make request: "
                     +:+ msg), d)
        | ReadError msg =>
            fst (Legacy.resourceDnsRecordCreate c d w)
            = (Some ("failed to create DNS record: " +:+ "failed to read response: "
                     +:+ msg), d)
        end)
  /\ snd (ParseResourceID (Legacy.Id created)) <> None.
Proof.
  intros created. split.
  - unfold Legacy.resourceDnsRecordCreate, Legacy.AddRecord, bind.
    repeat match goal with
           | |- context [if String.eqb (Legacy.type d) ?t then _ else _] =>
               destruct (String.eqb (Legacy.type d) t)
           end;
      unfold Legacy.doRequest; cbn [emit snd trace];
      eexists _, _;
      (destruct (http_post _ _ _) eqn:Hh; cbn [fst snd trace ret];
       (split; [reflexivity|]); rewrite Hh; reflexivity).
  - unfold created, Legacy.SetId. cbn [Legacy.Id].
    rewrite ParseResourceID_err; [discriminate|].
    rewrite Split_length. 
    assert (Hc : forall a b : string, (count_byte "/" (a +:+ b)
                 = count_byte "/" a + count_byte "/" b)%nat).
    { intros a b. induction a as [|x a IH]; [reflexivity|].
      change (String x a +:+ b) with (String x (a +:+ b)).
      cbn [count_byte]. rewrite IH. lia. }
    rewrite !Hc. change (count_byte "/" "/") with 1%nat. lia.
Qed.

(** ** How errors are read out of a response *)

Lemma find_none_existsb {A} (f : A -> bool) (l : list A) :
  List.find f l = None <-> existsb f l = false.
Proof.
  induction l as [|x l IH]; simpl; [tauto|].
  destruct (f x); simpl; [split; discriminate|exact IH].
Qed.

Lemma filter_nil_existsb {A} (f : A -> bool) (l : list A) :
  List.filter f l = [] <-> existsb f l = false.
Proof.
  induction l as [|x l IH]; simpl; [tauto|].
  destruct (f x); simpl; [split; discriminate|exact IH].
Qed.

(** X23: [CheckAPIResponseForErrors] returns no error for a response it
    cannot decode; for one it decodes it returns an error exactly when some
    domain entry has the result [error], whatever the result at the top
    says, and the message starts with the same fixed text. *)
Theorem CheckAPIResponseForErrors_reports_failed_domains `{E : Env}
    (response : string) :
  match json_APIErrorResponse response with
  | None => CheckAPIResponseForErrors response = None
  | Some apiResponse =>
      (CheckAPIResponseForErrors response = None
       <-> existsb domain_failed (er_Domains apiResponse) = false)
      /\ (forall e, CheckAPIResponseForErrors response = Some e ->
            exists detail, e = "API operation failed: " +:+ detail)
  end.
Proof.
  unfold CheckAPIResponseForErrors.
  destruct (json_APIErrorResponse response) as [apiResponse|]; [|reflexivity].
  set (failed := List.filter domain_failed (er_Domains apiResponse)).
  destruct (String.eqb (er_Result apiResponse) "error").
  - rewrite length_map. destruct failed as [|x l] eqn:Hf.
    + cbn [length Nat.ltb Nat.leb]. apply filter_nil_existsb in Hf.
      destruct (List.find domain_failed (er_Domains apiResponse)) eqn:Hfind.
      * apply find_none_existsb in Hf. congruence.
      * split; [tauto|discriminate].
    + cbn [length]. change (0 <? S (length l))%nat with true. cbv iota. split.
      * split; [discriminate|]. intros He. apply filter_nil_existsb in He.
        unfold failed in Hf. congruence.
      * intros msg [= <-]. eexists. reflexivity.
  - cbn [length]. change (0 <? 0)%nat with false. cbv iota.
    destruct (List.find domain_failed (er_Domains apiResponse)) eqn:Hfind.
    + split.
      * split; [discriminate|]. intros He. apply find_none_existsb in He. congruence.
      * intros msg [= <-]. eexists. reflexivity.
    + apply find_none_existsb in Hfind. split; [tauto|discriminate].
Qed.

Lemma body_error_None `{E : Env} (body : string) :
  body_error body = None <-> body_is_accepted body.
Proof.
  unfold body_error, body_is_accepted.
  destruct (json_APIError body) as [direct|].
  - destruct (String.eqb (Result direct) "error") eqn:Hd.
    + pose proof (formatHumanReadableError_is_error (ErrorCode direct)
                    (ErrorText direct) (ErrorParams direct)) as Hf.
      destruct (formatHumanReadableError _ _ _); [|contradiction].
      split; [discriminate|]. intros [H _]. apply String.eqb_eq in Hd.
      exfalso. exact (H direct eq_refl Hd).
    + apply String.eqb_neq in Hd.
      destruct (json_APIResponse body) as [resp|].
      * destruct (String.eqb (ar_Result resp) "error") eqn:Hr.
        -- apply String.eqb_eq in Hr. split.
           ++ destruct (ar_Domains resp) as [|domain l]; [discriminate|].
              destruct (negb _); [|discriminate].
              pose proof (formatHumanReadableError_is_error (ErrorCode domain)
                            (ErrorText domain) (ErrorParams domain)) as Hf.
              destruct (formatHumanReadableError _ _ _); [discriminate|contradiction].
           ++ intros [_ H]. destruct (H resp eq_refl) as [Hne _]. contradiction.
        -- apply String.eqb_neq in Hr.
           destruct (List.find _ _) as [domain|] eqn:Hfind.
           ++ pose proof (formatHumanReadableError_is_error (ErrorCode domain)
                            (ErrorText domain) (ErrorParams domain)) as Hf.
              destruct (formatHumanReadableError _ _ _); [|contradiction].
              split; [discriminate|]. intros [_ H].
              destruct (H resp eq_refl) as [_ Hall].
              apply find_some in Hfind as [Hin Hres]. apply String.eqb_eq in Hres.
              rewrite List.Forall_forall in Hall. exfalso. exact (Hall _ Hin Hres).
           ++ split; [|reflexivity]. intros _. split.
              ** intros ? [= <-]. exact Hd.
              ** intros ? [= <-]. split; [exact Hr|].
                 apply List.Forall_forall. intros domain Hin Hres.
                 apply (find_none _ _ Hfind) in Hin.
                 apply String.eqb_neq in Hin. contradiction.
      * split; [|reflexivity]. intros _. split.
        -- intros ? [= <-]. exact Hd.
        -- intros ? [=].
  - destruct (json_APIResponse body) as [resp|].
    + destruct (String.eqb (ar_Result resp) "error") eqn:Hr.
      * apply String.eqb_eq in Hr. split.
        -- destruct (ar_Domains resp) as [|domain l]; [discriminate|].
           destruct (negb _); [|discriminate].
           pose proof (formatHumanReadableError_is_error (ErrorCode domain)
                         (ErrorText domain) (ErrorParams domain)) as Hf.
           destruct (formatHumanReadableError _ _ _); [discriminate|contradiction].
        -- intros [_ H]. destruct (H resp eq_refl) as [Hne _]. contradiction.
      * apply String.eqb_neq in Hr.
        destruct (List.find _ _) as [domain|] eqn:Hfind.
        -- pose proof (formatHumanReadableError_is_error (ErrorCode domain)
                         (ErrorText domain) (ErrorParams domain)) as Hf.
           destruct (formatHumanReadableError _ _ _); [|contradiction].
           split; [discriminate|]. intros [_ H].
           destruct (H resp eq_refl) as [_ Hall].
           apply find_some in Hfind as [Hin Hres]. apply String.eqb_eq in Hres.
           rewrite List.Forall_forall in Hall. exfalso. exact (Hall _ Hin Hres).
        -- split; [|reflexivity]. intros _. split.
           ++ intros ? [=].
           ++ intros ? [= <-]. split; [exact Hr|].
              apply List.Forall_forall. intros domain Hin Hres.
              apply (find_none _ _ Hfind) in Hin.
              apply String.eqb_neq in Hin. contradiction.
    + split; [|reflexivity]. intros _. split; intros ? [=].
Qed.

(** X24: [doRequest] sends exactly one request, to the endpoint under the
    base URL and with the credentials added, and never touches the cache.
    It returns without error exactly when the request was answered with a
    body in which neither decoding shows the result [error], at the top or
    in a domain, and then it returns that body; with an error it returns
    an empty body. *)
Theorem doRequest_succeeds_iff `{E : Env} (c : Client) (endpoint : string)
    (params : Values) (w : World) :
  let url := BaseURL c +:+ "/" +:+ endpoint in
  let sent := (params ++ [("username", Username c); ("password", Password c)])%list in
  let result := doRequest c endpoint params w in
  trace (snd result) = (trace w ++ [EvPost url sent])%list
  /\ cache (snd result) = cache w
  /\ (snd (fst result) = None
      <-> exists body,
            http_post (trace w) url sent = Body body
            /\ body_is_accepted body /\ fst (fst result) = body)
  /\ (snd (fst result) <> None -> fst (fst result) = EmptyString).
Proof.
  intros url sent result. unfold result.
  split; [rewrite doRequest_world; reflexivity|].
  split; [rewrite doRequest_world; reflexivity|].
  unfold doRequest. fold url sent.
  destruct (http_post (trace w) url sent) as [body|msg|msg] eqn:Hp.
  - pose proof (body_error_None body) as Hb.
    destruct (body_error body) as [e|]; cbn [fst snd].
    + split; [|reflexivity]. split; [discriminate|].
      intros (body' & [= <-] & Hacc & _). apply Hb in Hacc. discriminate.
    + split; [|intros H; contradiction]. split; [|reflexivity].
      intros _. exists body. split; [reflexivity|]. split; [|reflexivity].
      apply Hb. reflexivity.
  - cbn [fst snd]. split; [|reflexivity]. split; [discriminate|].
    intros (body & Hbody & _). discriminate.
  - cbn [fst snd]. split; [|reflexivity]. split; [discriminate|].
    intros (body & Hbody & _). discriminate.
Qed.

(** ** What the client sends for a record type *)

(** X25: [AddRecord] and [RemoveRecord] send the priority for the record
    types MX, NS and SRV only: for every other type the requests with and
    without a priority are the same.  [AddRecord] treats every type it does
    not know as TXT. *)
Theorem priority_is_sent_for_MX_NS_SRV_only `{E : Env} (c : Client)
    (recordType domainName subdomain value : string) (priority : option Z) :
  (~ In recordType ["MX"; "NS"; "SRV"] ->
   AddRecord c recordType domainName subdomain value priority
   = AddRecord c recordType domainName subdomain value None
   /\ RemoveRecord c domainName subdomain recordType value priority
      = RemoveRecord c domainName subdomain recordType value None)
  /\ (~ In recordType ["A"; "AAAA"; "CNAME"; "MX"; "NS"; "SRV"; "CAA"] ->
      AddRecord c recordType domainName subdomain value priority
      = AddRecord c "TXT" domainName subdomain value None).
Proof.
  split.
  - intros Hno. unfold AddRecord, RemoveRecord.
    destruct (String.eqb recordType "MX") eqn:H1;
      [apply String.eqb_eq in H1; exfalso; apply Hno; simpl; auto|].
    destruct (String.eqb recordType "NS") eqn:H2;
      [apply String.eqb_eq in H2; exfalso; apply Hno; simpl; auto|].
    destruct (String.eqb recordType "SRV") eqn:H3;
      [apply String.eqb_eq in H3; exfalso; apply Hno; simpl; auto|].
    split; reflexivity.
  - intros Hno. unfold AddRecord.
    repeat match goal with
           | |- context [String.eqb recordType ?t] =>
               let H := fresh "H" in
               destruct (String.eqb recordType t) eqn:H;
               [apply String.eqb_eq in H; exfalso; apply Hno; simpl; auto 10|]
           end.
    reflexivity.
Qed.

(** ** Import after create *)

Lemma ParseResourceID_of_parts (zone name : string) :
  Contains zone "/" = false -> Contains name "/" = false ->
  ParseResourceID (zone +:+ "/" +:+ name) = (zone, name, None).
Proof.
  intros Hz Hn. apply ParseResourceID_ok.
  change (zone +:+ "/" +:+ name) with (zone +:+ String "/" name).
  rewrite Split_app_sep by exact Hz. rewrite Split_clean by exact Hn.
  reflexivity.
Qed.

(** X26: for a zone and a name without a slash, [Import] of a resource
    whose identifier [SetResourceID] wrote for them is [Read] of that
    resource with [zone] and [name] set to them; this holds for each of the
    six strategies. *)
Theorem import_reads_what_create_identified `{E : Env} (c : Client)
    (zone name recordType : string) :
  Contains zone "/" = false -> Contains name "/" = false ->
  (forall T (Read : ResourceData T -> M (error * ResourceData T)) (d : ResourceData T),
     Import_with Read (SetResourceID d zone name recordType)
     = Read (Set_zone_name (SetResourceID d zone name recordType) zone name))
  /\ (forall s d,
        Generic.Import s c (SetResourceID d zone name recordType)
        = Generic.Read s c
            (Set_zone_name (SetResourceID d zone name recordType) zone name))
  /\ (forall d,
        MX.Import c (SetResourceID d zone name recordType)
        = MX.Read c (Set_zone_name (SetResourceID d zone name recordType) zone name))
  /\ (forall d,
        NS.Import c (SetResourceID d zone name recordType)
        = NS.Read c (Set_zone_name (SetResourceID d zone name recordType) zone name))
  /\ (forall d,
        CNAME.Import c (SetResourceID d zone name recordType)
        = CNAME.Read c (Set_zone_name (SetResourceID d zone name recordType) zone name))
  /\ (forall d,
        SRV.Import c (SetResourceID d zone name recordType)
        = SRV.Read c (Set_zone_name (SetResourceID d zone name recordType) zone name))
  /\ (forall d,
        CAA.Import c (SetResourceID d zone name recordType)
        = CAA.Read c (Set_zone_name (SetResourceID d zone name recordType) zone name)).
Proof.
  intros Hz Hn.
  assert (Hgen : forall T (Read : ResourceData T -> M (error * ResourceData T))
                   (d : ResourceData T),
            Import_with Read (SetResourceID d zone name recordType)
            = Read (Set_zone_name (SetResourceID d zone name recordType) zone name)).
  { intros T Read d. unfold Import_with.
    unfold SetResourceID at 1, SetId at 1. cbn [Id].
    rewrite (ParseResourceID_of_parts zone name Hz Hn). reflexivity. }
  split; [exact Hgen|].
  repeat match goal with |- _ /\ _ => split end; intros; apply Hgen.
Qed.

(** X26, for the A record set www of example.com. *)
Lemma import_reads_what_create_identified_witness :
  Generic.Import (E := Sample.env Sample.success_body) Generic.NewARecordStrategy
    Sample.client (SetResourceID Cases.a_empty "example.com" "www" "A")
  = Generic.Read (E := Sample.env Sample.success_body) Generic.NewARecordStrategy
      Sample.client
      (Set_zone_name (SetResourceID Cases.a_empty "example.com" "www" "A")
         "example.com" "www").
Proof.
  destruct (import_reads_what_create_identified
              (E := Sample.env Sample.success_body) Sample.client
              "example.com" "www" "A") as (_ & H & _);
    [reflexivity|reflexivity|].
  apply H.
Defined.

(** ** The order of ranging over a Go map *)

Section KeyOrder.
Context {A : Type} (f : A -> Z).

Lemma sort_by_key_sorted (l : list A) :
  StronglySorted (fun a b => f a <= f b) (sort_Slice (by_key f) l).
Proof.
  induction l as [|x l IH]; [constructor|].
  change (sort_Slice (by_key f) (x :: l))
    with (sort_insert (by_key f) x (sort_Slice (by_key f) l)).
  induction IH as [|y l' Hl IH Hy]; cbn [sort_insert].
  - constructor; constructor.
  - unfold by_key at 1. destruct (f y <? f x) eqn:Hyx.
    + apply Z.ltb_lt in Hyx. constructor; [exact IH|].
      apply List.Forall_forall. intros z Hz.
      apply (Permutation_in _ (sort_insert_perm (by_key f) x l')) in Hz.
      destruct Hz as [<-|Hz]; [lia|].
      rewrite List.Forall_forall in Hy. apply Hy. exact Hz.
    + apply Z.ltb_ge in Hyx. constructor; [constructor; assumption|].
      constructor; [exact Hyx|].
      eapply List.Forall_impl; [|exact Hy]. intros z Hz. simpl in Hz. lia.
Qed.

Lemma sorted_by_distinct_keys_unique (l l' : list A) :
  StronglySorted (fun a b => f a <= f b) l ->
  StronglySorted (fun a b => f a <= f b) l' ->
  List.NoDup (map f l) -> Permutation l l' -> l = l'.
Proof.
  intros Hl. revert l'. induction Hl as [|x l Hs IH Hx]; intros l' Hl' Hnd Hp.
  - apply Permutation_nil in Hp. symmetry. exact Hp.
  - destruct Hl' as [|y l' Hs' Hy].
    { symmetry in Hp. apply Permutation_nil in Hp. discriminate. }
    assert (Hxy : x = y).
    { assert (Hin_y : In y (x :: l)) by
        (apply (Permutation_in _ (Permutation_sym Hp)); left; reflexivity).
      assert (Hin_x : In x (y :: l')) by
        (apply (Permutation_in _ Hp); left; reflexivity).
      destruct Hin_y as [Heq|Hin_y]; [exact Heq|].
      destruct Hin_x as [Heq|Hin_x]; [symmetry; exact Heq|].
      rewrite List.Forall_forall in Hx, Hy.
      pose proof (Hx _ Hin_y) as H1. pose proof (Hy _ Hin_x) as H2.
      assert (Hf : f x = f y) by lia.
      exfalso. cbn [map] in Hnd. apply List.NoDup_cons_iff in Hnd as [Hnotin _].
      apply Hnotin. rewrite Hf. apply in_map. exact Hin_y. }
    subst y. f_equal. apply IH; [exact Hs'| |].
    + cbn [map] in Hnd. apply List.NoDup_cons_iff in Hnd. tauto.
    + apply Permutation_cons_inv in Hp. exact Hp.
Qed.

Lemma sort_by_distinct_keys (l l' : list A) :
  List.NoDup (map f l) -> Permutation l l' ->
  sort_Slice (by_key f) l = sort_Slice (by_key f) l'.
Proof.
  intros Hnd Hp. apply sorted_by_distinct_keys_unique.
  - apply sort_by_key_sorted.
  - apply sort_by_key_sorted.
  - eapply Permutation_NoDup; [|exact Hnd].
    apply Permutation_map. symmetry. apply sort_Slice_perm.
  - rewrite (sort_Slice_perm (by_key f) l), (sort_Slice_perm (by_key f) l'). exact Hp.
Qed.
End KeyOrder.

(** X27: the blocks that the MX and NS reads store do not depend on the
    order in which the map of priority groups is ranged over: building the
    blocks in any order and sorting them by priority gives the same list,
    and in it the priorities are strictly ascending. *)
Theorem blocks_do_not_depend_on_map_order (groups : gmap Z (list string))
    (ranged : list (Z * list string)) :
  Permutation ranged (map_to_list groups) ->
  sort_Slice (fun a b => priority a <? priority b) (map block_of_group ranged)
  = blocks_of_groups groups
  /\ StronglySorted (fun a b => priority a < priority b) (blocks_of_groups groups).
Proof.
  intros Hp. split.
  - unfold blocks_of_groups.
    apply (sort_by_distinct_keys priority).
    + rewrite map_map. cbn [priority block_of_group].
      eapply Permutation_NoDup.
      { apply Permutation_map. symmetry. exact Hp. }
      apply NoDup_ListNoDup, NoDup_fst_map_to_list.
    + apply Permutation_map. exact Hp.
  - unfold blocks_of_groups.
    pose proof (sort_by_key_sorted priority
                  (map block_of_group (map_to_list groups))) as Hs.
    assert (Hnd : List.NoDup (map priority
              (sort_Slice (by_key priority) (map block_of_group (map_to_list groups))))).
    { eapply Permutation_NoDup.
      { apply Permutation_map. symmetry. apply sort_Slice_perm. }
      rewrite map_map. cbn [priority block_of_group].
      apply NoDup_ListNoDup, NoDup_fst_map_to_list. }
    change (sort_Slice (fun a b => priority a <? priority b)
              (map (fun kv : Z * list string =>
                      {| priority := kv.1; servers := sort_Strings kv.2 |})
                 (map_to_list groups)))
      with (sort_Slice (by_key priority) (map block_of_group (map_to_list groups))).
    induction Hs as [|x l Hs IH Hx]; [constructor|].
    cbn [map] in Hnd. apply List.NoDup_cons_iff in Hnd as [Hnotin Hnd].
    constructor; [apply IH; exact Hnd|].
    apply List.Forall_forall. intros y Hy.
    rewrite List.Forall_forall in Hx. pose proof (Hx y Hy) as Hle.
    assert (priority x <> priority y).
    { intros Heq. apply Hnotin. rewrite Heq. apply in_map. exact Hy. }
    lia.
Qed.

(** X27, for two groups ranged over in descending order. *)
Lemma blocks_do_not_depend_on_map_order_witness :
  sort_Slice (fun a b => priority a <? priority b)
    (map block_of_group [(10, ["mx2"; "mx1"]); (5, ["mx0"])])
  = blocks_of_groups Cases.two_groups.
Proof.
  apply (blocks_do_not_depend_on_map_order Cases.two_groups
           [(10, ["mx2"; "mx1"]); (5, ["mx0"])]).
  vm_compute. apply perm_swap.
Defined.
